(** * The ROI segmentation and metrics engine of the RFAM ink toolbox

    A shallow embedding of [analyzer.py] ([threshold_image] and
    [compute_metrics]) and of the per-ROI loop of [main.py], together with
    the properties the specification states about them.

    Conventions.
    - A 2-D numpy array is a list of rows, [a !! y] being row [y] and
      [row !! x] the pixel of column [x]; 8-bit samples are integers.
    - A Python [float] (and a numpy [float64]) is a binary64 number, that is
      a primitive [float]; Python-level arithmetic that can raise
      ([/] on a zero divisor, [**] on overflow) lives in the [result] monad.
    - The metrics record is the Python [dict] the code fills in: a finite
      map from key strings to values; an absent key is an absent field.
    - OpenCV and numpy are outside the repository.  Their entry points are
      the fields of the class [Extern]; every theorem holds for every
      implementation of it.  [Ref] is a small executable implementation used
      to run the model on concrete images. *)

From Stdlib Require Import ZArith Bool Floats.
From stdpp Require Import base option list sorting gmap strings.

Local Open Scope string_scope.
Local Open Scope Z_scope.

(** ** Python-level outcomes and numbers *)

Inductive exn :=
  | OverflowError
  | ZeroDivisionError
  | TypeError
  | cv2_error.

Inductive result (A : Type) :=
  | Ok (a : A)
  | Raise (e : exn).
Arguments Ok {A} a.
Arguments Raise {A} e.

#[global] Instance result_ret : MRet result := fun A a => Ok a.
#[global] Instance result_bind : MBind result :=
  fun A B f m => match m with Ok a => f a | Raise e => Raise e end.
#[global] Instance result_fmap : FMap result :=
  fun A B f m => match m with Ok a => Ok (f a) | Raise e => Raise e end.

Definition is_ok {A} (m : result A) : bool :=
  match m with Ok _ => true | Raise _ => false end.

Module Py.

(** The values [px_per_mm] is given as: [None], a [bool], an [int], a
    [float], or something that is not a number (a string stands for it). *)
Inductive pyval :=
  | PyNone
  | PyBool (b : bool)
  | PyInt (z : Z)
  | PyFloat (f : float)
  | PyStr (s : string).

(** [bool(v)] *)
Definition truthy (v : pyval) : bool :=
  match v with
  | PyNone => false
  | PyBool b => b
  | PyInt z => negb (z =? 0)
  | PyFloat f => negb (PrimFloat.eqb f 0)
  | PyStr s => negb (String.eqb s "")
  end.

(** [isinstance(v, (int, float))]; [bool] is a subclass of [int]. *)
Definition isinstance_int_float (v : pyval) : bool :=
  match v with
  | PyBool _ | PyInt _ | PyFloat _ => true
  | PyNone | PyStr _ => false
  end.

(** [v > 0] for the values that pass the [isinstance] test. *)
Definition gt_zero (v : pyval) : bool :=
  match v with
  | PyBool b => b
  | PyInt z => 0 <? z
  | PyFloat f => PrimFloat.ltb 0 f
  | PyNone | PyStr _ => false
  end.

(** [float.__truediv__]: a zero divisor raises. *)
Definition float_div (a b : float) : result float :=
  if PrimFloat.eqb b 0 then Raise ZeroDivisionError
  else Ok (PrimFloat.div a b).

(** [float.__pow__(a, 2)]: the square, rounded; a finite operand whose
    square leaves the binary64 range raises. *)
Definition float_pow2 (a : float) : result float :=
  let r := PrimFloat.mul a a in
  if PrimFloat.is_infinity r && negb (PrimFloat.is_infinity a)
  then Raise OverflowError
  else Ok r.

Definition Z2SF (z : Z) : spec_float :=
  match z with
  | Z0 => S754_zero false
  | Zpos p => S754_finite false p 0
  | Zneg p => S754_finite true p 0
  end.

(** [float(z)] for an [int]: correctly rounded, out of range raises. *)
Definition int_to_float (z : Z) : result float :=
  let r := SF2Prim (binary_normalize prec emax z 0 false) in
  if PrimFloat.is_infinity r then Raise OverflowError else Ok r.

(** [int.__truediv__]: the correctly rounded quotient of two integers. *)
Definition int_div (a b : Z) : result float :=
  if b =? 0 then Raise ZeroDivisionError
  else
    let r := SF2Prim (SFdiv prec emax (Z2SF a) (Z2SF b)) in
    if PrimFloat.is_infinity r then Raise OverflowError else Ok r.

(** [v ** 2] for a number [v]. *)
Definition pow2 (v : pyval) : result pyval :=
  match v with
  | PyBool b => Ok (PyInt (if b then 1 else 0))
  | PyInt z => Ok (PyInt (z * z))
  | PyFloat f => PyFloat <$> float_pow2 f
  | PyNone | PyStr _ => Raise TypeError
  end.

(** [a / d] for an [int] [a] and a number [d]. *)
Definition int_truediv (a : Z) (d : pyval) : result float :=
  match d with
  | PyBool b => int_div a (if b then 1 else 0)
  | PyInt z => int_div a z
  | PyFloat f => fa ← int_to_float a; float_div fa f
  | PyNone | PyStr _ => Raise TypeError
  end.

(** [max(l, key=key)]: the first element whose key no later one exceeds. *)
Definition max_by {A} (key : A -> float) (first : A) (rest : list A) : A :=
  fold_left
    (fun best x => if PrimFloat.ltb (key best) (key x) then x else best)
    rest first.

End Py.
Export Py.

(** [np.pi] *)
Definition np_pi : float := 0x1.921fb54442d18p+1%float.

(** ** Arrays *)

Abbreviation array2 A := (list (list A)) (only parsing).

(** [a.shape[:2]] *)
Definition shape2 {A} (a : array2 A) : nat * nat :=
  (length a, match a with [] => O | r :: _ => length r end).

(** [a.size] of a 2-D array: rows times columns *)
Definition np_size {A} (a : array2 A) : nat :=
  (fst (shape2 a) * snd (shape2 a))%nat.

(** [np.zeros(shape, dtype=np.uint8)] *)
Definition np_zeros (shape : nat * nat) : array2 Z :=
  replicate (fst shape) (replicate (snd shape) 0).

(** [np.zeros_like(a, dtype=np.uint8)] *)
Definition np_zeros_like {A} (a : array2 A) : array2 Z :=
  fmap (M := list) (fun _ : A => 0) <$> a.

Definition map2d {A B} (f : A -> B) (a : array2 A) : array2 B :=
  fmap (M := list) f <$> a.

Definition zip2d {A B C} (f : A -> B -> C) (a : array2 A) (b : array2 B)
  : array2 C :=
  zip_with (zip_with f) a b.

(** [a.astype(bool)] *)
Definition astype_bool (a : array2 Z) : array2 bool :=
  map2d (fun v => negb (v =? 0)) a.

(** [np.any(a)] *)
Definition np_any (a : array2 Z) : bool :=
  existsb (existsb (fun v => negb (v =? 0))) a.

(** [~a] on a boolean array *)
Definition np_invert (a : array2 bool) : array2 bool := map2d negb a.

(** [a & b] on boolean arrays *)
Definition np_and (a b : array2 bool) : array2 bool := zip2d andb a b.

(** [a[idx] = v]: assignment through a boolean index array *)
Definition assign_where (a : array2 Z) (idx : array2 bool) (v : Z)
  : array2 Z :=
  zip2d (fun old (i : bool) => if i then v else old) a idx.

Fixpoint take_where {A} (row : list A) (idx : list bool) : list A :=
  match row, idx with
  | v :: row', i :: idx' =>
      if i then v :: take_where row' idx' else take_where row' idx'
  | _, _ => []
  end.

(** [a[idx]]: the samples selected by a boolean index array, row by row *)
Definition bool_index {A} (a : array2 A) (idx : array2 bool) : list A :=
  concat (zip_with take_where a idx).

(** [np.sum(a > 0)] *)
Definition count_positive (a : array2 Z) : nat :=
  sum_list ((fun row => length (filter (fun v => 0 < v) row)) <$> a).

(** The number of [True] entries of a boolean array. *)
Definition count_true (a : array2 bool) : nat :=
  sum_list ((fun row => length (filter (fun b => b = true) row)) <$> a).

(** The pixel of column [x] in row [y]. *)
Definition pixel {A} (a : array2 A) (y x : nat) : option A :=
  a !! y ≫= fun row => row !! x.

(** A drawing call paints [color] into the pixels the rasterizer covers and
    leaves the others as they were. *)
Definition paint (covers : Z -> Z -> bool) (color : Z) (m : array2 Z)
  : array2 Z :=
  imap (fun y row =>
          imap (fun x old =>
                  if covers (Z.of_nat x) (Z.of_nat y) then color else old)
               row)
       m.

(** [cv2.subtract] on 8-bit arrays saturates at zero. *)
Definition cv2_subtract (a b : array2 Z) : array2 Z :=
  zip2d (fun u v => Z.max 0 (u - v)) a b.

(** ** Images, regions, records *)

Inductive image :=
  | Gray (g : array2 Z)
  | BGR (c : array2 (Z * Z * Z)).

Definition image_shape2 (img : image) : nat * nat :=
  match img with
  | Gray g => shape2 g
  | BGR c => shape2 c
  end.

Abbreviation contour := (list (Z * Z)) (only parsing).

(** The entries of [cv2.moments] the code reads. *)
Record Moments := {
  m00 : float;
  mu20 : float;
  mu02 : float;
  mu11 : float
}.

(** What a key of a record can hold. *)
Inductive value :=
  | VNone
  | VInt (z : Z)
  | VFloat (f : float)
  | VStr (s : string)
  | VContours (cs : list contour)
  | VMask (m : array2 bool)
  | VPixels (px : list Z).

(** An ROI as the GUI hands it over: a tag, the geometry of its kind, and
    the caller's metadata. *)
Record ROI := {
  roi_type : option string;
  roi_points : list (Z * Z);
  roi_center : Z * Z;
  roi_radius : Z;
  roi_label : value;
  roi_ink_key : value;
  roi_rep : value
}.

(** ** The libraries *)

Class Extern := {
  (** [cv2.cvtColor(_, cv2.COLOR_BGR2GRAY)], pixel by pixel *)
  bgr2gray : Z * Z * Z -> Z;
  (** the threshold [cv2.threshold(_, _, _, THRESH_OTSU)] selects *)
  otsu : array2 Z -> Z;
  (** argument checks (the conversion of the arguments to C integers
      included) and rasterization rules of [cv2.fillPoly], [cv2.circle] *)
  fillPoly_accepts : list (Z * Z) -> bool;
  fillPoly_covers : list (Z * Z) -> Z -> Z -> bool;
  circle_accepts : Z * Z -> Z -> bool;
  circle_covers : Z * Z -> Z -> Z -> Z -> bool;
  (** [cv2.findContours(_, RETR_EXTERNAL, CHAIN_APPROX_SIMPLE)] *)
  findContours : array2 Z -> list contour;
  contourArea : contour -> float;
  (** [cv2.arcLength(_, True)] *)
  arcLength : contour -> float;
  moments : contour -> Moments;
  convexHull : contour -> contour;
  (** [cv2.erode] with the 5x5 elliptical structuring element *)
  erode_ellipse5 : array2 Z -> array2 Z;
  (** [cv2.fitEllipse]: centre, the two full axes, angle *)
  fitEllipse : contour -> (float * float) * (float * float) * float;
  np_mean : list Z -> float;
  np_median : list Z -> float;
  np_std : list Z -> float
}.

(** ** analyzer.py *)

(** The record under construction: the [dict] named [results]. *)
Abbreviation dict := (gmap string value) (only parsing).

Section Analyzer.
Context {lib : Extern}.


(** Lines 24-26 and 66-68: [gray = image], converted when the image has
    three dimensions. *)
Definition to_gray (img : image) : array2 Z :=
  match img with
  | Gray g => g
  | BGR c => map2d bgr2gray c
  end.

(** [cv2.threshold(gray, 0, maxval, THRESH_BINARY + THRESH_OTSU)]: an
    array without a pixel is rejected; otherwise the call returns the
    threshold Otsu's method selects and an array holding [maxval] where the
    sample is above it, zero elsewhere. *)
Definition cv2_threshold_otsu (gray : array2 Z) (maxval : Z)
  : result (Z * array2 Z) :=
  if (np_size gray =? 0)%nat then Raise cv2_error
  else
    let t := otsu gray in
    Ok (t, map2d (fun v => if t <? v then maxval else 0) gray).

(** Lines 8-30. *)
Definition threshold_image (img : image) : result (array2 bool) :=
  let gray := to_gray img in
  '(_, thresh) ← cv2_threshold_otsu gray 255;
  Ok (astype_bool thresh).

Definition roi_is (roi : ROI) (tag : string) : bool :=
  match roi_type roi with
  | Some t => String.eqb t tag
  | None => false
  end.

Definition cv2_fillPoly (mask : array2 Z) (pts : list (Z * Z)) (color : Z)
  : result (array2 Z) :=
  if fillPoly_accepts pts then Ok (paint (fillPoly_covers pts) color mask)
  else Raise cv2_error.

Definition cv2_circle (mask : array2 Z) (center : Z * Z) (radius : Z)
    (color : Z) : result (array2 Z) :=
  if circle_accepts center radius
  then Ok (paint (circle_covers center radius) color mask)
  else Raise cv2_error.

(** [np.array(points, dtype=np.int32)]: a coordinate outside the 32-bit
    range raises. *)
Definition int32 (z : Z) : bool := (- 2 ^ 31 <=? z) && (z <? 2 ^ 31).

Definition np_array_int32 (points : list (Z * Z)) : result (list (Z * Z)) :=
  if forallb (fun p => int32 (fst p) && int32 (snd p)) points
  then Ok points else Raise OverflowError.

(** [int(v)], as in [tuple(map(int, roi['center']))] and
    [int(roi['radius'])]: the geometry is held as integers, and [int] of an
    [int] is that [int]. *)
Definition py_int (v : Z) : Z := v.

(** Lines 51-63: the ROI rasterized at full resolution; [None] stands for
    the early [return {}] of an unsupported tag. *)
Definition roi_mask (img : image) (roi : ROI) : result (option (array2 Z)) :=
  let mask := np_zeros (image_shape2 img) in
  if roi_is roi "polygon" then
    pts ← np_array_int32 (roi_points roi);
    Some <$> cv2_fillPoly mask pts 255
  else if roi_is roi "circle" then
    let center := (py_int (fst (roi_center roi)),
                   py_int (snd (roi_center roi))) in
    let radius := py_int (roi_radius roi) in
    Some <$> cv2_circle mask center radius 255
  else Ok None.

(** Lines 82-84. *)
Definition object_mask_of (global_thresh : array2 bool) (mask : array2 Z)
  : array2 Z :=
  let object_mask := np_zeros_like mask in
  assign_where object_mask
    (np_and (np_invert global_thresh) (astype_bool mask)) 255.

(** Lines 96-107. *)
Definition intensity_metrics (gray object_mask : array2 Z) (results : dict)
  : dict :=
  let obj_pixels := bool_index gray (astype_bool object_mask) in
  let results :=
    if (0 <? length obj_pixels)%nat then
      <["std_I" := VFloat (np_std obj_pixels)]>
        (<["median_I" := VFloat (np_median obj_pixels)]>
           (<["mean_I" := VFloat (np_mean obj_pixels)]> results))
    else
      <["mean_I" := VNone]>
        (<["median_I" := VNone]> (<["std_I" := VNone]> results)) in
  let results :=
    <["area_px" := VInt (Z.of_nat (count_positive object_mask))]> results in
  <["intensity_pixels" := VPixels obj_pixels]> results.

(** Lines 119-129: [inertia_ratio] from the moments of the contour. *)
Definition inertia_metrics (M : Moments) (results : dict) : result dict :=
  if negb (PrimFloat.eqb (m00 M) 0) then
    let mu20 := PrimFloat.div (mu20 M) (m00 M) in
    let mu02 := PrimFloat.div (mu02 M) (m00 M) in
    let mu11 := PrimFloat.div (mu11 M) (m00 M) in
    d2 ← float_pow2 (PrimFloat.sub mu20 mu02);
    c2 ← float_pow2 mu11;
    let term := PrimFloat.sqrt (PrimFloat.add d2 (PrimFloat.mul 4 c2)) in
    let num := PrimFloat.sub (PrimFloat.add mu20 mu02) term in
    let den := PrimFloat.add (PrimFloat.add mu20 mu02) term in
    Ok (<["inertia_ratio" :=
            if negb (PrimFloat.eqb den 0)
            then VFloat (PrimFloat.div num den) else VNone]> results)
  else Ok results.

(** Lines 110-134, entered when [do_shape and contours]. *)
Definition shape_metrics (c0 : contour) (cs : list contour) (results : dict)
  : result dict :=
  let cnt := max_by contourArea c0 cs in
  let area := contourArea cnt in
  let perim := arcLength cnt in
  let results := <["perimeter_px" := VFloat perim]> results in
  circ ← (if PrimFloat.ltb 0 perim then
            p2 ← float_pow2 perim;
            q ← float_div (PrimFloat.mul (PrimFloat.mul 4 np_pi) area) p2;
            Ok (VFloat q)
          else Ok VNone);
  let results := <["circularity" := circ]> results in
  results ← inertia_metrics (moments cnt) results;
  let hull := convexHull cnt in
  let hull_area := contourArea hull in
  Ok (<["convexity" :=
          if PrimFloat.ltb 0 hull_area
          then VFloat (PrimFloat.div area hull_area) else VNone]> results).

(** Lines 149-153: the eccentricity from the two axes of the fitted box. *)
Definition eccentricity_of_axes (axes : float * float) : result (option float) :=
  let a := PrimFloat.div (fst axes) 2 in
  let b := PrimFloat.div (snd axes) 2 in
  if PrimFloat.ltb 0 a then
    q ← float_div (PrimFloat.mul b b) (PrimFloat.mul a a);
    let ecc := PrimFloat.sqrt (PrimFloat.sub 1 q) in
    Ok (Some ecc)
  else Ok None.

(** The halo of lines 138-145 and its external contours. *)
Definition halo_contours (object_mask : array2 Z) : list contour :=
  let core := erode_ellipse5 object_mask in
  let halo := cv2_subtract object_mask core in
  findContours halo.

(** Lines 137-153, entered when [do_halo and contours]. *)
Definition halo_metrics (object_mask : array2 Z) (results : dict)
  : result dict :=
  match halo_contours object_mask with
  | [] => Ok results
  | h0 :: hs =>
      let hc := max_by contourArea h0 hs in
      if (5 <=? length hc)%nat then
        let '(_, axes, _) := fitEllipse hc in
        e ← eccentricity_of_axes axes;
        match e with
        | Some ecc => Ok (<["halo_eccentricity" := VFloat ecc]> results)
        | None => Ok results
        end
      else Ok results
  end.

(** Line 156: [px_per_mm and isinstance(px_per_mm, (int, float)) and
    px_per_mm > 0]. *)
Definition px_per_mm_usable (px_per_mm : pyval) : bool :=
  if truthy px_per_mm then
    if isinstance_int_float px_per_mm then gt_zero px_per_mm else false
  else false.

(** Lines 156-158. *)
Definition area_conversion (px_per_mm : pyval) (results : dict)
  : result dict :=
  if px_per_mm_usable px_per_mm then
    match results !! "area_px" with
    | Some (VInt area_px) =>
        d ← pow2 px_per_mm;
        q ← int_truediv area_px d;
        Ok (<["area_mm2" := VFloat q]> results)
    | _ => Ok results
    end
  else Ok results.

(** Lines 78-160 without line 81: the rest of [compute_metrics] once the
    ROI mask is known to have a set pixel and [threshold_image] has
    returned [global_thresh]. *)
Definition metrics_of_mask (global_thresh : array2 bool) (img : image)
    (mask : array2 Z) (px_per_mm : pyval)
    (do_intensity do_shape do_halo : bool) : result dict :=
  let gray := to_gray img in
  let results : dict := ∅ in
  let object_mask := object_mask_of global_thresh mask in
  let contours := findContours object_mask in
  let results := <["contours" := VContours contours]> results in
  let results := <["mask_full" := VMask (astype_bool object_mask)]> results in
  let results :=
    if do_intensity then intensity_metrics gray object_mask results
    else results in
  results ← (if do_shape then
               match contours with
               | c0 :: cs => shape_metrics c0 cs results
               | [] => Ok results
               end
             else Ok results);
  results ← (if do_halo then
               match contours with
               | _ :: _ => halo_metrics object_mask results
               | [] => Ok results
               end
             else Ok results);
  area_conversion px_per_mm results.

(** Lines 33-160. *)
Definition compute_metrics (img : image) (roi : ROI) (px_per_mm : pyval)
    (do_intensity do_shape do_halo : bool) : result dict :=
  m ← roi_mask img roi;
  match m with
  | None => Ok ∅
  | Some mask =>
      if negb (np_any mask) then Ok ∅
      else
        global_thresh ← threshold_image img;
        metrics_of_mask global_thresh img mask px_per_mm
          do_intensity do_shape do_halo
  end.

(** ** main.py, lines 40-56: the record kept for one ROI *)

Record Session := {
  session_px_per_mm : pyval;
  analysis_intensity : bool;
  analysis_shape : bool;
  analysis_halo : bool
}.

(** [d.get(k)] *)
Definition dict_get (d : dict) (k : string) : value :=
  default VNone (d !! k).

Definition roi_record (session : Session) (img : image) (roi : ROI)
  : result dict :=
  metrics ← compute_metrics img roi (session_px_per_mm session)
              (analysis_intensity session) (analysis_shape session)
              (analysis_halo session);
  Ok (<["mask_full" := dict_get metrics "mask_full"]>
        (<["rep" := roi_rep roi]>
           (<["ink_key" := roi_ink_key roi]>
              (<["label" := roi_label roi]> metrics)))).

End Analyzer.

(** ** Program points of [compute_metrics] *)

(** The keys each step writes. *)
Definition intensity_keys : list string :=
  ["mean_I"; "median_I"; "std_I"; "area_px"; "intensity_pixels"].
Definition shape_keys : list string :=
  ["perimeter_px"; "circularity"; "inertia_ratio"; "convexity"].
Definition halo_keys : list string := ["halo_eccentricity"].
Definition conversion_keys : list string := ["area_mm2"].

Definition among (ks : list string) (k : string) : bool :=
  existsb (String.eqb k) ks.

(** [px_per_mm] is a supplied positive number. *)
Definition positive_number (v : pyval) : Prop :=
  match v with
  | PyBool b => b = true
  | PyInt z => 0 < z
  | PyFloat f => PrimFloat.ltb 0 f = true
  | PyNone | PyStr _ => False
  end.

Section ProgramPoints.
Context {lib : Extern}.

(** The record after line 94. *)
Definition base_record (th : list (list bool)) (mask : list (list Z)) : dict :=
  let object_mask := object_mask_of th mask in
  <["mask_full" := VMask (astype_bool object_mask)]>
    (<["contours" := VContours (findContours object_mask)]> ∅).

(** What the record holds once the intensity step is done (line 107). *)
Definition after_intensity (th : list (list bool)) (img : image)
    (mask : list (list Z)) (do_intensity : bool) : gmap string value :=
  if do_intensity
  then intensity_metrics (to_gray img) (object_mask_of th mask)
         (base_record th mask)
  else base_record th mask.

End ProgramPoints.

(** ** An executable implementation of the libraries

    Integer and binary64 implementations of the entry points, enough to run
    the model.  The luminance, the threshold and the statistics follow the
    arithmetic of the libraries step by step.  [fillPoly_covers] is the
    even-odd fill with its boundary, which is what OpenCV paints for polygons
    with axis-parallel edges; [findContours] and [fitEllipse] are exact only
    on the masks used below (no set pixel, or one filled axis-parallel
    rectangle).  Elsewhere the three stand in for OpenCV. *)

Module Ref.

Definition of_Z (z : Z) : float :=
  SF2Prim (binary_normalize prec emax z 0 false).

(** OpenCV's 8-bit luminance: fixed point with 15 fractional bits. *)
Definition bgr2gray (p : Z * Z * Z) : Z :=
  let '(b, g, r) := p in
  Z.shiftr (b * 3735 + g * 19235 + r * 9798 + 16384) 15.

(** The histogram of the 8-bit samples. *)
Definition hist (px : list Z) (i : Z) : Z :=
  Z.of_nat (length (List.filter (fun v => v =? i) px)).

(** [FLT_EPSILON] *)
Definition flt_epsilon : float := 0x1p-23%float.

Definition fmin (a b : float) : float := if PrimFloat.ltb b a then b else a.
Definition fmax (a b : float) : float := if PrimFloat.ltb a b then b else a.

(** Otsu's threshold as OpenCV computes it for 8-bit samples: one pass over
    the 256 levels in binary64, keeping the level whose between-class
    variance [q1 * q2 * (mu1 - mu2)^2] is strictly above every earlier
    one. *)
Definition otsu_step (px : list Z) (scale mu : float)
    (st : float * float * float * Z) (i : Z) : float * float * float * Z :=
  let '(mu1, q1, max_sigma, max_val) := st in
  let p_i := PrimFloat.mul (of_Z (hist px i)) scale in
  let mu1 := PrimFloat.mul mu1 q1 in
  let q1 := PrimFloat.add q1 p_i in
  let q2 := PrimFloat.sub 1 q1 in
  if PrimFloat.ltb (fmin q1 q2) flt_epsilon
     || PrimFloat.ltb (PrimFloat.sub 1 flt_epsilon) (fmax q1 q2)
  then (mu1, q1, max_sigma, max_val)
  else
    let mu1 := PrimFloat.div (PrimFloat.add mu1 (PrimFloat.mul (of_Z i) p_i))
                 q1 in
    let mu2 := PrimFloat.div (PrimFloat.sub mu (PrimFloat.mul q1 mu1)) q2 in
    let d := PrimFloat.sub mu1 mu2 in
    let sigma := PrimFloat.mul (PrimFloat.mul (PrimFloat.mul q1 q2) d) d in
    if PrimFloat.ltb max_sigma sigma then (mu1, q1, sigma, i)
    else (mu1, q1, max_sigma, max_val).

Definition otsu (gray : array2 Z) : Z :=
  let px := concat gray in
  let levels := map Z.of_nat (seq 0 256) in
  let scale := PrimFloat.div 1 (of_Z (Z.of_nat (length px))) in
  let mu :=
    PrimFloat.mul
      (fold_left
         (fun acc i =>
            PrimFloat.add acc (PrimFloat.mul (of_Z i) (of_Z (hist px i))))
         levels 0%float)
      scale in
  snd (fold_left (otsu_step px scale mu) levels
         (0%float, 0%float, 0%float, 0)).

Fixpoint edges_from (first prev : Z * Z) (pts : list (Z * Z))
  : list ((Z * Z) * (Z * Z)) :=
  match pts with
  | [] => [(prev, first)]
  | p :: rest => (prev, p) :: edges_from first p rest
  end.

Definition edges (pts : list (Z * Z)) : list ((Z * Z) * (Z * Z)) :=
  match pts with
  | [] => []
  | p :: rest => edges_from p p rest
  end.

Definition on_edge (x y : Z) (e : (Z * Z) * (Z * Z)) : bool :=
  let '((x1, y1), (x2, y2)) := e in
  ((x2 - x1) * (y - y1) =? (y2 - y1) * (x - x1))
  && (Z.min x1 x2 <=? x) && (x <=? Z.max x1 x2)
  && (Z.min y1 y2 <=? y) && (y <=? Z.max y1 y2).

(** Does the ray from [(x, y)] towards larger [x] cross the edge? *)
Definition crosses (x y : Z) (e : (Z * Z) * (Z * Z)) : bool :=
  let '((x1, y1), (x2, y2)) := e in
  if Bool.eqb (y <? y1) (y <? y2) then false
  else
    let lhs := (x - x1) * (y2 - y1) in
    let rhs := (y - y1) * (x2 - x1) in
    if 0 <? y2 - y1 then lhs <? rhs else rhs <? lhs.

(** Even-odd fill, boundary pixels included. *)
Definition fillPoly_covers (pts : list (Z * Z)) (x y : Z) : bool :=
  existsb (on_edge x y) (edges pts)
  || Nat.odd (length (List.filter (crosses x y) (edges pts))).

Definition fillPoly_accepts (pts : list (Z * Z)) : bool :=
  match pts with [] => false | _ :: _ => true end.

(** The arguments fit C integers and the radius is not negative. *)
Definition circle_accepts (center : Z * Z) (radius : Z) : bool :=
  int32 (fst center) && int32 (snd center) && int32 radius && (0 <=? radius).

Definition circle_covers (center : Z * Z) (radius x y : Z) : bool :=
  let '(cx, cy) := center in
  (x - cx) * (x - cx) + (y - cy) * (y - cy) <=? radius * radius.

(** Coordinates [(x, y)] of the set pixels, row by row. *)
Definition set_pixels (m : array2 Z) : list (Z * Z) :=
  concat
    (imap (fun y row =>
             omap id
               (imap (fun x v =>
                        if v =? 0 then None
                        else Some (Z.of_nat x, Z.of_nat y)) row))
          m).

Definition bounding_box (pts : list (Z * Z)) : option (Z * Z * Z * Z) :=
  match pts with
  | [] => None
  | (x, y) :: rest =>
      Some (fold_left
              (fun '(x0, y0, x1, y1) '(px, py) =>
                 (Z.min x0 px, Z.min y0 py, Z.max x1 px, Z.max y1 py))
              rest (x, y, x, y))
  end.

Definition dedup_pts (l : list (Z * Z)) : list (Z * Z) :=
  fold_right
    (fun p acc =>
       if existsb (fun q => (fst p =? fst q) && (snd p =? snd q)) acc
       then acc else p :: acc)
    [] l.

(** The outline of the bounding box of the set pixels, from its top-left
    corner down the left side, as OpenCV orders an outer border. *)
Definition findContours (m : array2 Z) : list contour :=
  match bounding_box (set_pixels m) with
  | None => []
  | Some (x0, y0, x1, y1) =>
      [rev (dedup_pts (rev [(x0, y0); (x0, y1); (x1, y1); (x1, y0)]))]
  end.

Definition shoelace2 (c : contour) : Z :=
  foldr Z.add 0
    (map (fun '((x1, y1), (x2, y2)) => x1 * y2 - x2 * y1) (edges c)).

Definition contourArea (c : contour) : float :=
  PrimFloat.div (of_Z (Z.abs (shoelace2 c))) 2.

Definition arcLength (c : contour) : float :=
  fold_left PrimFloat.add
    (map (fun '((x1, y1), (x2, y2)) =>
            PrimFloat.sqrt
              (of_Z ((x2 - x1) * (x2 - x1) + (y2 - y1) * (y2 - y1))))
         (edges c))
    0%float.

(** Moments of the polygon by Green's formula. *)
Definition moments (c : contour) : Moments :=
  let es := edges c in
  let sumf (f : Z -> Z -> Z -> Z -> Z) : Z :=
    foldr Z.add 0
      (map (fun '((x1, y1), (x2, y2)) =>
              (x1 * y2 - x2 * y1) * f x1 y1 x2 y2) es) in
  let a00 := sumf (fun _ _ _ _ => 1) in
  let sg := if a00 <? 0 then (-1) else 1 in
  let a10 := sumf (fun x1 _ x2 _ => x1 + x2) in
  let a01 := sumf (fun _ y1 _ y2 => y1 + y2) in
  let a20 := sumf (fun x1 _ x2 _ => x1 * (x1 + x2) + x2 * x2) in
  let a11 := sumf (fun x1 y1 x2 y2 =>
                     x1 * (y1 + y2 + y1) + x2 * (y1 + y2 + y2)) in
  let a02 := sumf (fun _ y1 _ y2 => y1 * (y1 + y2) + y2 * y2) in
  if a00 =? 0 then
    {| m00 := 0; mu20 := 0; mu02 := 0; mu11 := 0 |}
  else
    let q (a d : Z) : float := PrimFloat.div (of_Z (sg * a)) (of_Z d) in
    let M00 := q a00 2 in
    let M10 := q a10 6 in
    let M01 := q a01 6 in
    let cx := PrimFloat.div M10 M00 in
    let cy := PrimFloat.div M01 M00 in
    {| m00 := M00;
       mu20 := PrimFloat.sub (q a20 12) (PrimFloat.mul M10 cx);
       mu02 := PrimFloat.sub (q a02 12) (PrimFloat.mul M01 cy);
       mu11 := PrimFloat.sub (q a11 24) (PrimFloat.mul M10 cy) |}.

(** The contours produced above are convex already. *)
Definition convexHull (c : contour) : contour := c.

(** The 5x5 elliptical structuring element, as offsets from its anchor. *)
Definition ellipse5 : list (Z * Z) :=
  [(0, -2); (-2, -1); (-1, -1); (0, -1); (1, -1); (2, -1);
   (-2, 0); (-1, 0); (0, 0); (1, 0); (2, 0);
   (-2, 1); (-1, 1); (0, 1); (1, 1); (2, 1); (0, 2)].

Definition sample (m : array2 Z) (x y : Z) : option Z :=
  if (x <? 0) || (y <? 0) then None
  else pixel m (Z.to_nat y) (Z.to_nat x).

(** Erosion: the minimum over the element; pixels outside the image do
    not constrain it. *)
Definition erode_ellipse5 (m : array2 Z) : array2 Z :=
  imap (fun y row =>
          imap (fun x v =>
                  fold_left
                    (fun acc '(dx, dy) =>
                       match sample m (Z.of_nat x + dx) (Z.of_nat y + dy)
                       with
                       | Some u => Z.min acc u
                       | None => acc
                       end)
                    ellipse5 v)
               row)
       m.

(** The box around the points, its shorter side first (OpenCV returns
    the fitted box with width not above height). *)
Definition fitEllipse (c : contour)
  : (float * float) * (float * float) * float :=
  match bounding_box c with
  | None => ((0, 0), (0, 0), 0)%float
  | Some (x0, y0, x1, y1) =>
      let w := x1 - x0 in
      let h := y1 - y0 in
      ((PrimFloat.div (of_Z (x0 + x1)) 2, PrimFloat.div (of_Z (y0 + y1)) 2),
       (of_Z (Z.min w h), of_Z (Z.max w h)),
       (if w <=? h then 0%float else 90%float))
  end.

Definition np_mean (l : list Z) : float :=
  PrimFloat.div (of_Z (foldr Z.add 0 l)) (of_Z (Z.of_nat (length l))).

Definition np_median (l : list Z) : float :=
  let s := merge_sort Z.le l in
  let n := length l in
  if Nat.even n then
    PrimFloat.div
      (of_Z (nth (n / 2 - 1) s 0 + nth (n / 2) s 0)) 2
  else of_Z (nth (n / 2) s 0).

(** numpy's sum of a binary64 array: in sequence below eight terms, in
    eight running sums combined pairwise up to 128 terms, by halves above. *)
Definition sum_lanes (l : list float) : float :=
  let n := length l in
  let body := (n - n mod 8)%nat in
  let lanes :=
    fold_left
      (fun r '(i, v) => alter (fun acc => PrimFloat.add acc v) (i mod 8)%nat r)
      (imap (fun i v => (i, v)) (drop 8 (take body l)))
      (take 8 l) in
  let r (i : nat) : float := nth i lanes 0%float in
  let res :=
    PrimFloat.add
      (PrimFloat.add (PrimFloat.add (r 0%nat) (r 1%nat))
                     (PrimFloat.add (r 2%nat) (r 3%nat)))
      (PrimFloat.add (PrimFloat.add (r 4%nat) (r 5%nat))
                     (PrimFloat.add (r 6%nat) (r 7%nat))) in
  fold_left PrimFloat.add (drop body l) res.

Fixpoint pairwise_sum (fuel : nat) (l : list float) : float :=
  let n := length l in
  if (n <? 8)%nat then fold_left PrimFloat.add l 0%float
  else if (n <=? 128)%nat then sum_lanes l
  else
    match fuel with
    | O => sum_lanes l
    | S fuel' =>
        let n2 := (n / 2 - (n / 2) mod 8)%nat in
        PrimFloat.add (pairwise_sum fuel' (take n2 l))
                      (pairwise_sum fuel' (drop n2 l))
    end.

Definition np_std (l : list Z) : float :=
  let mu := np_mean l in
  let dev (v : Z) : float :=
    let d := PrimFloat.sub (of_Z v) mu in PrimFloat.mul d d in
  let sq := map dev l in
  PrimFloat.sqrt
    (PrimFloat.div (pairwise_sum (length l) sq)
                   (of_Z (Z.of_nat (length l)))).

Definition extern : Extern :=
  Build_Extern bgr2gray otsu fillPoly_accepts fillPoly_covers
    circle_accepts circle_covers findContours contourArea arcLength
    moments convexHull erode_ellipse5 fitEllipse np_mean np_median np_std.

End Ref.

(** ** The same code over a store of arrays

    numpy arrays are mutable objects and Python names are references to
    them.  Here every array lives at a location of a store; [gray = image]
    makes the two names share one location, the drawing calls and the
    indexed assignment write in place, and every call that returns an array
    allocates a fresh one. *)

Module Store.

Inductive ndarray :=
  | U8 (a : array2 Z)
  | U8C3 (a : array2 (Z * Z * Z))
  | Bools (a : array2 bool).

Abbreviation loc := positive (only parsing).
Abbreviation store := (gmap positive ndarray) (only parsing).

(** Computations that read and write the store and may raise; what was
    written before an exception stays written. *)
Definition St (A : Type) : Type := store -> result A * store.

#[global] Instance St_ret : MRet St := fun A a s => (Ok a, s).
#[global] Instance St_bind : MBind St :=
  fun A B f m s =>
    match m s with
    | (Ok a, s') => f a s'
    | (Raise e, s') => (Raise e, s')
    end.

Definition lift {A} (m : result A) : St A := fun s => (m, s).

Definition alloc (a : ndarray) : St loc :=
  fun s => let l := fresh (dom s) in (Ok l, <[l := a]> s).

Definition load (l : loc) : St ndarray :=
  fun s => match s !! l with
           | Some a => (Ok a, s)
           | None => (Raise cv2_error, s)
           end.

Definition store_at (l : loc) (a : ndarray) : St unit :=
  fun s => (Ok tt, <[l := a]> s).

Definition load_u8 (l : loc) : St (list (list Z)) :=
  a ← load l;
  match a with
  | U8 g => mret g
  | _ => lift (Raise cv2_error)
  end.

Definition load_bools (l : loc) : St (list (list bool)) :=
  a ← load l;
  match a with
  | Bools b => mret b
  | _ => lift (Raise cv2_error)
  end.

(** The image an array is, when it is one. *)
Definition as_image (a : ndarray) : result image :=
  match a with
  | U8 g => Ok (Gray g)
  | U8C3 c => Ok (BGR c)
  | Bools _ => Raise cv2_error
  end.

Definition of_image (img : image) : ndarray :=
  match img with
  | Gray g => U8 g
  | BGR c => U8C3 c
  end.

(** [cv2.bitwise_and(a, b, mask=m)] into a new array *)
Definition cv2_bitwise_and (a b m : array2 Z) : array2 Z :=
  zip2d (fun v (k : Z) => if k =? 0 then 0 else v) (zip2d Z.land a b) m.

Section Code.
Context {lib : Extern}.

(** Lines 24-26 and 66-68: [gray] is the image itself unless it has
    three dimensions, in which case [cvtColor] returns a new array. *)
Definition to_gray_at (image : loc) : St loc :=
  a ← load image;
  img ← lift (as_image a);
  match img with
  | Gray _ => mret image
  | BGR c => alloc (U8 (map2d bgr2gray c))
  end.

(** Lines 8-30. *)
Definition threshold_image_at (image : loc) : St loc :=
  gray ← to_gray_at image;
  g ← load_u8 gray;
  r ← lift (cv2_threshold_otsu g 255);
  thresh ← alloc (U8 (snd r));
  t ← load_u8 thresh;
  alloc (Bools (astype_bool t)).

Definition cv2_fillPoly_at (mask : loc) (pts : list (Z * Z)) (color : Z)
  : St unit :=
  m ← load_u8 mask;
  m' ← lift (cv2_fillPoly m pts color);
  store_at mask (U8 m').

Definition cv2_circle_at (mask : loc) (center : Z * Z) (radius color : Z)
  : St unit :=
  m ← load_u8 mask;
  m' ← lift (cv2_circle m center radius color);
  store_at mask (U8 m').

(** Lines 78-160, the arrays read from the store. *)
Definition metrics_of_mask_at (image gray mask : loc) (px_per_mm : pyval)
    (do_intensity do_shape do_halo : bool) : St dict :=
  global_thresh ← threshold_image_at image;
  m ← load_u8 mask;
  object_mask ← alloc (U8 (np_zeros_like m));
  gt ← load_bools global_thresh;
  idx ← alloc (Bools (np_and (np_invert gt) (astype_bool m)));
  i ← load_bools idx;
  om ← load_u8 object_mask;
  _ ← store_at object_mask (U8 (assign_where om i 255));
  om ← load_u8 object_mask;
  let contours := findContours om in
  let results : dict := <["contours" := VContours contours]> ∅ in
  mask_full ← alloc (Bools (astype_bool om));
  mf ← load_bools mask_full;
  let results := <["mask_full" := VMask mf]> results in
  g ← load_u8 gray;
  let results :=
    if do_intensity then intensity_metrics g om results else results in
  results ← lift (if do_shape then
                    match contours with
                    | c0 :: cs => shape_metrics c0 cs results
                    | [] => Ok results
                    end
                  else Ok results);
  results ← lift (if do_halo then
                    match contours with
                    | _ :: _ => halo_metrics om results
                    | [] => Ok results
                    end
                  else Ok results);
  lift (area_conversion px_per_mm results).

(** Lines 33-160. *)
Definition compute_metrics_at (image : loc) (roi : ROI)
    (px_per_mm : pyval) (do_intensity do_shape do_halo : bool)
  : St dict :=
  a ← load image;
  img ← lift (as_image a);
  mask ← alloc (U8 (np_zeros (image_shape2 img)));
  supported ←
    (if roi_is roi "polygon" then
       pts ← lift (np_array_int32 (roi_points roi));
       _ ← cv2_fillPoly_at mask pts 255; mret true
     else if roi_is roi "circle" then
       let center := (py_int (fst (roi_center roi)),
                      py_int (snd (roi_center roi))) in
       let radius := py_int (roi_radius roi) in
       _ ← cv2_circle_at mask center radius 255;
       mret true
     else mret false);
  if negb supported then mret ∅
  else
    gray ← to_gray_at image;
    g ← load_u8 gray;
    m ← load_u8 mask;
    roi_gray ← alloc (U8 (cv2_bitwise_and g g m));
    m ← load_u8 mask;
    if negb (np_any m) then mret ∅
    else metrics_of_mask_at image gray mask px_per_mm
           do_intensity do_shape do_halo.

End Code.

(** [Q] holds of the outcome and the store [m] leaves. *)
Definition wp {A} (m : St A) (Q : result A -> store -> Prop) (s : store)
  : Prop :=
  Q (fst (m s)) (snd (m s)).

End Store.

(** ** main.py: the batch and what follows it *)

(** A numpy array is rectangular: every row has the width of the first. *)
Definition rectangular {A} (a : list (list A)) : Prop :=
  Forall (fun row => length row = snd (shape2 a)) a.

Definition image_rectangular (img : image) : Prop :=
  match img with
  | Gray g => rectangular g
  | BGR c => rectangular c
  end.

(** Every key [compute_metrics] can write. *)
Definition metric_keys : list string :=
  ["contours"; "mask_full"] ++ intensity_keys ++ shape_keys ++ halo_keys
  ++ conversion_keys.

(** [r.get(k) is not None], and the value then *)
Definition get_not_none (r : gmap string value) (k : string) : option value :=
  match r !! k with
  | Some VNone | None => None
  | Some v => Some v
  end.

(** [np.nonzero(mask)]: the row indices and the column indices of the
    [True] entries, row by row. *)
Definition np_nonzero (mask : list (list bool)) : list Z * list Z :=
  let hits :=
    concat
      (imap (fun y row =>
               omap id
                 (imap (fun x (b : bool) =>
                          if b then Some (Z.of_nat y, Z.of_nat x) else None)
                       row))
            mask) in
  (fst <$> hits, snd <$> hits).

(** [a.min()] and [a.max()]; [None] stands for the [ValueError] numpy
    raises when the array is empty. *)
Definition np_min (l : list Z) : option Z :=
  match l with
  | [] => None
  | v :: rest => Some (fold_left Z.min rest v)
  end.

Definition np_max (l : list Z) : option Z :=
  match l with
  | [] => None
  | v :: rest => Some (fold_left Z.max rest v)
  end.

(** Lines 67-74: the padded bounding box [(y0p, y1p, x0p, x1p)] of the
    object inside an image of the given shape. *)
Definition crop_window (shape : nat * nat) (mask : list (list bool))
  : option (Z * Z * Z * Z) :=
  let '(ys, xs) := np_nonzero mask in
  y0 ← np_min ys;
  y1 ← np_max ys;
  x0 ← np_min xs;
  x1 ← np_max xs;
  let pad := 1000 in
  let y0p := Z.max 0 (y0 - pad) in
  let y1p := Z.min (Z.of_nat (fst shape) - 1) (y1 + pad) in
  let x0p := Z.max 0 (x0 - pad) in
  let x1p := Z.min (Z.of_nat (snd shape) - 1) (x1 + pad) in
  Some (y0p, y1p, x0p, x1p).

(** What the heatmap loop does with one record, up to line 74: [continue]
    on a missing mask, the window, or the [ValueError] of an empty
    reduction (or of unpacking [np.nonzero] of something that is not a 2-D
    array). *)
Inductive heatmap_step :=
  | Skipped
  | Window (w : Z * Z * Z * Z)
  | ValueError_raised.

(** Lines 60-74. *)
Definition heatmap_window (shape : nat * nat) (r : gmap string value)
  : heatmap_step :=
  match dict_get r "mask_full" with
  | VNone => Skipped
  | VMask mask =>
      match crop_window shape mask with
      | Some w => Window w
      | None => ValueError_raised
      end
  | _ => ValueError_raised
  end.

(** Line 161: [[r['area_px'] for r in results if r.get('area_px') is not
    None]]. *)
Definition areas_of (results : list (gmap string value)) : list value :=
  omap (fun r => get_not_none r "area_px") results.

(** Lines 139-142. *)
Definition mean_vals_of (results : list (gmap string value)) : list value :=
  omap (fun r => get_not_none r "mean_I") results.

(** Lines 131-138: the sample arrays and, built by a second comprehension
    with the same filter, their labels. *)
Definition intensity_arrays_of (results : list (gmap string value))
  : list value :=
  omap (fun r => get_not_none r "intensity_pixels") results.

(** [r['label']] is read with [dict_get]: the records of the batch all
    hold the key. *)
Definition labels_of (results : list (gmap string value)) : list value :=
  omap (fun r => match get_not_none r "intensity_pixels" with
                 | Some _ => Some (dict_get r "label")
                 | None => None
                 end) results.

Section Batch.
Context {lib : Extern}.

(** The pixels the drawing call of lines 54-60 paints, for a supported
    ROI. *)
Definition roi_covers (roi : ROI) : Z -> Z -> bool :=
  if roi_is roi "polygon" then fillPoly_covers (roi_points roi)
  else circle_covers (roi_center roi) (roi_radius roi).

(** Lines 39-56: one record per ROI, in the order of the ROIs; an
    exception in one call leaves the loop. *)
Fixpoint main_results (session : Session) (img : image) (rois : list ROI)
  : result (list (gmap string value)) :=
  match rois with
  | [] => Ok []
  | roi :: rest =>
      metrics ← roi_record session img roi;
      results ← main_results session img rest;
      Ok (metrics :: results)
  end.

End Batch.

(** ** extra_analysis_vis.py: replicate means by ink *)

Module Vis.

(** Lines 54-59. *)
Definition desc_map (ink_key : Z) : option string :=
  if ink_key =? 1 then Some "5 wt% C, petroleum"
  else if ink_key =? 2 then Some "25 wt% C, petroleum"
  else if ink_key =? 3 then Some "25 wt% C, IPA"
  else if ink_key =? 4 then Some "Sharpie (control)"
  else None.

(** Line 67: [list(desc_map.values())]. *)
Definition order : list string :=
  ["5 wt% C, petroleum"; "25 wt% C, petroleum"; "25 wt% C, IPA";
   "Sharpie (control)"].

(** A row of the frame after line 60: the key as an [int], the mean. *)
Record row := {
  ink_key : Z;
  mean_I : float
}.

(** Line 61: [df["ink_key"].map(desc_map)]; a key outside the map gives a
    missing value. *)
Definition ink_desc (r : row) : option string := desc_map (ink_key r).

(** [df[df["ink_desc"] == ink]["mean_I"].values] *)
Definition values_of (rows : list row) (ink : string) : list float :=
  mean_I <$> List.filter
               (fun r => match ink_desc r with
                         | Some d => String.eqb d ink
                         | None => false
                         end) rows.

(** Line 70 (and 102): the values plotted for each ink, in [order]. *)
Definition data (rows : list row) : list (list float) :=
  values_of rows <$> order.

End Vis.

(** ** Sample inputs *)

Module Sample.

(** A 5x5 black square on a white 7x7 image. *)
Definition blot : image :=
  Gray [[255; 255; 255; 255; 255; 255; 255];
        [255; 0; 0; 0; 0; 0; 255];
        [255; 0; 0; 0; 0; 0; 255];
        [255; 0; 0; 0; 0; 0; 255];
        [255; 0; 0; 0; 0; 0; 255];
        [255; 0; 0; 0; 0; 0; 255];
        [255; 255; 255; 255; 255; 255; 255]].

(** One dark and one bright pixel, in colour: black then white. *)
Definition pair_bgr : image := BGR [[(0, 0, 0); (255, 255, 255)]].

(** One dark and one bright pixel. *)
Definition pair : image := Gray [[0; 255]].


Definition mk_roi (tag : string) (pts : list (Z * Z)) (c : Z * Z) (r : Z)
  : ROI :=
  {| roi_type := Some tag; roi_points := pts; roi_center := c;
     roi_radius := r; roi_label := VStr "A1"; roi_ink_key := VInt 2;
     roi_rep := VInt 3 |}.

(** A disc that covers the whole of [blot]. *)
Definition disc : ROI := mk_roi "circle" [] (3, 3) 5.

(** The square from (1,1) to (5,5) as a polygon. *)
Definition square : ROI :=
  mk_roi "polygon" [(1, 1); (5, 1); (5, 5); (1, 5)] (0, 0) 0.

(** A single pixel, the one at column 1 of row 0. *)
Definition dot : ROI := mk_roi "circle" [] (1, 0) 0.

(** A disc that lies outside every sample image. *)
Definition far : ROI := mk_roi "circle" [] (100, 100) 2.

(** A calibration ruler: not a region to measure. *)
Definition ruler : ROI := mk_roi "ruler" [(0, 0); (6, 0)] (0, 0) 0.

Definition session (px_per_mm : pyval) (i s h : bool) : Session :=
  {| session_px_per_mm := px_per_mm; analysis_intensity := i;
     analysis_shape := s; analysis_halo := h |}.

(** Running the model with the implementation [Ref.extern]. *)
Definition run (img : image) (roi : ROI) (px_per_mm : pyval)
    (i s h : bool) : result (gmap string value) :=
  @compute_metrics Ref.extern img roi px_per_mm i s h.

Definition record_of (m : result (gmap string value)) : gmap string value :=
  match m with Ok r => r | Raise _ => ∅ end.

(** A session's ROIs: two regions to measure and a ruler. *)
Definition rois : list ROI := [disc; ruler; square].

(** Replicate means read from a session file; the key 7 is no ink. *)
Definition rows : list Vis.row :=
  [ {| Vis.ink_key := 2; Vis.mean_I := 41.5 |};
    {| Vis.ink_key := 4; Vis.mean_I := 12 |};
    {| Vis.ink_key := 7; Vis.mean_I := 99 |};
    {| Vis.ink_key := 2; Vis.mean_I := 43.25 |} ].

Definition mask_of (img : image) (roi : ROI) : list (list Z) :=
  match @roi_mask Ref.extern img roi with
  | Ok (Some m) => m
  | _ => []
  end.

End Sample.

(** Closing an equation between closed terms by evaluation. *)
Ltac vm_refl :=
  lazymatch goal with
  | |- @eq ?T ?a ?b => vm_cast_no_check (@eq_refl T b)
  end.

(** ** Facts about arrays *)

Section ArrayFacts.
Context {A B C : Type}.

Lemma pixel_map2d (f : A -> B) (a : array2 A) (y x : nat) :
  pixel (map2d f a) y x = f <$> pixel a y x.
Proof.
  unfold pixel, map2d. rewrite list_lookup_fmap.
  destruct (a !! y) as [row|]; simpl; [apply list_lookup_fmap | done].
Qed.

Lemma pixel_zip2d (f : A -> B -> C) (a : array2 A) (b : array2 B)
    (y x : nat) :
  pixel (zip2d f a b) y x =
    u ← pixel a y x; v ← pixel b y x; Some (f u v).
Proof.
  unfold pixel, zip2d. rewrite lookup_zip_with.
  destruct (a !! y) as [ra|]; simpl; [|done].
  destruct (b !! y) as [rb|]; simpl.
  - rewrite lookup_zip_with. done.
  - destruct (ra !! x); done.
Qed.

Lemma zip2d_map2d_l (f : B -> C -> A) (g : A -> B) (a : array2 A)
    (b : array2 C) :
  zip2d f (map2d g a) b = zip2d (fun u v => f (g u) v) a b.
Proof.
  unfold zip2d, map2d. revert b.
  induction a as [|ra a IH]; intros [|rb b]; simpl; try done.
  f_equal; [|apply IH].
  clear. revert rb. induction ra as [|u ra IH]; intros [|v rb]; simpl;
    try done. by rewrite IH.
Qed.

End ArrayFacts.

Lemma map2d_map2d {A B C} (f : B -> C) (g : A -> B) (a : array2 A) :
  map2d f (map2d g a) = map2d (fun v => f (g v)) a.
Proof.
  unfold map2d. rewrite <- list_fmap_compose.
  apply list_fmap_ext. intros _ row _. simpl.
  by rewrite <- list_fmap_compose.
Qed.

Lemma map2d_ext {A B} (f g : A -> B) (a : array2 A) :
  (forall v, f v = g v) -> map2d f a = map2d g a.
Proof.
  intros E. unfold map2d. apply list_fmap_ext. intros _ row _.
  apply list_fmap_ext. auto.
Qed.

(** ** The result monad *)

Lemma bind_Ok {A B} (m : result A) (f : A -> result B) (b : B) :
  m ≫= f = Ok b <-> exists a, m = Ok a /\ f a = Ok b.
Proof.
  destruct m as [a|e]; simpl; split.
  - intros E. by exists a.
  - by intros (a' & [= ->] & E).
  - done.
  - by intros (a' & [=] & _).
Qed.

Lemma fmap_Ok {A B} (m : result A) (f : A -> B) (b : B) :
  f <$> m = Ok b <-> exists a, m = Ok a /\ b = f a.
Proof.
  destruct m as [a|e]; simpl; split.
  - intros [= <-]. by exists a.
  - by intros (a' & [= ->] & ->).
  - done.
  - by intros (a' & [=] & _).
Qed.

(** ** threshold_image *)

Lemma shape2_map2d {A B} (f : A -> B) (a : list (list A)) :
  shape2 (map2d f a) = shape2 a.
Proof.
  unfold shape2, map2d. rewrite length_fmap. f_equal.
  destruct a as [|row a]; [done|]. simpl. by rewrite length_fmap.
Qed.

Lemma np_size_map2d {A B} (f : A -> B) (a : list (list A)) :
  np_size (map2d f a) = np_size a.
Proof. unfold np_size. by rewrite shape2_map2d. Qed.

Section ThresholdFacts.
Context {lib : Extern}.

Lemma np_size_to_gray (img : image) :
  np_size (to_gray img)
  = (fst (image_shape2 img) * snd (image_shape2 img))%nat.
Proof. destruct img as [g|c]; simpl; [done|apply np_size_map2d]. Qed.

(** [threshold_image] returns on an image that has a pixel, and what. *)
Lemma threshold_image_Ok (img : image) (th : list (list bool)) :
  threshold_image img = Ok th
  <-> np_size (to_gray img) <> 0%nat
      /\ th = map2d (fun v => otsu (to_gray img) <? v) (to_gray img).
Proof.
  unfold threshold_image, cv2_threshold_otsu.
  destruct (Nat.eqb_spec (np_size (to_gray img)) 0) as [E|E]; simpl.
  - split; [done|]. by intros [? _].
  - assert (astype_bool
              (map2d (fun v => if otsu (to_gray img) <? v then 255 else 0)
                 (to_gray img))
            = map2d (fun v => otsu (to_gray img) <? v) (to_gray img)) as ->.
    { unfold astype_bool. rewrite map2d_map2d. apply map2d_ext. intros v.
      by destruct (otsu (to_gray img) <? v). }
    split; [by intros [= <-]|by intros [_ ->]].
Qed.


End ThresholdFacts.



(** ** The rasterized ROI *)

Lemma pixel_np_zeros (h w y x : nat) :
  pixel (np_zeros (h, w)) y x
  = if (y <? h)%nat && (x <? w)%nat then Some 0 else None.
Proof.
  unfold pixel, np_zeros. simpl.
  destruct (Nat.ltb_spec y h) as [Hy|Hy]; simpl.
  - rewrite lookup_replicate_2 by done. simpl.
    destruct (Nat.ltb_spec x w) as [Hx|Hx].
    + by rewrite lookup_replicate_2.
    + apply lookup_replicate_None. lia.
  - assert (replicate h (replicate w 0) !! y = None) as ->; [|done].
    apply lookup_replicate_None. lia.
Qed.

Lemma pixel_paint (covers : Z -> Z -> bool) (color : Z) (m : list (list Z))
    (y x : nat) :
  pixel (paint covers color m) y x
  = (fun old => if covers (Z.of_nat x) (Z.of_nat y) then color else old)
      <$> pixel m y x.
Proof.
  unfold pixel, paint. rewrite list_lookup_imap.
  destruct (m !! y) as [row|]; simpl; [|done].
  by rewrite list_lookup_imap.
Qed.

Lemma np_any_pixel (m : list (list Z)) :
  np_any m = true
  <-> exists (y x : nat) (v : Z), pixel m y x = Some v /\ v <> 0.
Proof.
  unfold np_any, pixel. rewrite existsb_exists. split.
  - intros (row & Hrow & Hex). apply existsb_exists in Hex as (v & Hv & Hnz).
    apply list_elem_of_In, list_elem_of_lookup in Hrow as [y Hy].
    apply list_elem_of_In, list_elem_of_lookup in Hv as [x Hx].
    exists y, x, v. rewrite Hy. simpl. split; [done|].
    apply negb_true_iff in Hnz. by apply Z.eqb_neq.
  - intros (y & x & v & Hp & Hnz).
    destruct (m !! y) as [row|] eqn:Hy; simpl in Hp; [|done].
    exists row. split.
    + apply list_elem_of_In, list_elem_of_lookup. by exists y.
    + apply existsb_exists. exists v. split.
      * apply list_elem_of_In, list_elem_of_lookup. by exists x.
      * apply negb_true_iff. by apply Z.eqb_neq.
Qed.

Section RoiMaskFacts.
Context {lib : Extern}.

Lemma roi_mask_is_paint (img : image) (roi : ROI) (mask : list (list Z)) :
  roi_mask img roi = Ok (Some mask) ->
  mask = paint (roi_covers roi) 255 (np_zeros (image_shape2 img)).
Proof.
  intros Hmask.
  unfold roi_mask, roi_covers, np_array_int32, cv2_fillPoly, cv2_circle,
    py_int in *.
  destruct (roi_is roi "polygon").
  - destruct (forallb _ _); simpl in Hmask; [|done].
    destruct (fillPoly_accepts _); simpl in Hmask; congruence.
  - destruct (roi_is roi "circle"); [|done].
    destruct (roi_center roi) as [cx cy]. simpl in Hmask.
    destruct (circle_accepts _ _); simpl in Hmask; congruence.
Qed.

Lemma roi_mask_pixel (img : image) (roi : ROI) (mask : list (list Z))
    (y x : nat) :
  roi_mask img roi = Ok (Some mask) ->
  pixel mask y x
  = if (y <? fst (image_shape2 img))%nat && (x <? snd (image_shape2 img))%nat
    then Some (if roi_covers roi (Z.of_nat x) (Z.of_nat y) then 255 else 0)
    else None.
Proof.
  intros ->%roi_mask_is_paint. rewrite pixel_paint.
  destruct (image_shape2 img) as [h w]. simpl.
  rewrite pixel_np_zeros. by destruct (_ && _).
Qed.

End RoiMaskFacts.

(** ** Which keys each step writes *)

Lemma among_false_ne (ks : list string) (k s : string) :
  among ks k = false -> s ∈ ks -> s <> k.
Proof.
  unfold among. intros Hf Hs ->.
  assert (existsb (String.eqb k) ks = true) as Ht; [|congruence].
  apply existsb_exists. exists k. split.
  - by apply list_elem_of_In.
  - apply String.eqb_refl.
Qed.

Ltac other_key H :=
  repeat (rewrite lookup_insert_ne;
          [| apply (among_false_ne _ _ _ H); set_solver]);
  try done.

Section GroupFacts.
Context {lib : Extern}.

Lemma intensity_metrics_other gray om (res : dict) k :
  among intensity_keys k = false ->
  intensity_metrics gray om res !! k = res !! k.
Proof.
  intros H. unfold intensity_metrics.
  destruct (0 <? length _)%nat; other_key H.
Qed.

Lemma inertia_metrics_other M (res res' : dict) k :
  among shape_keys k = false ->
  inertia_metrics M res = Ok res' -> res' !! k = res !! k.
Proof.
  intros H. unfold inertia_metrics.
  destruct (negb (PrimFloat.eqb (m00 M) 0)); [|by intros [= <-]].
  intros (d2 & _ & (c2 & _ & [= <-])%bind_Ok)%bind_Ok. other_key H.
Qed.

Lemma shape_metrics_other c0 cs (res res' : dict) k :
  among shape_keys k = false ->
  shape_metrics c0 cs res = Ok res' -> res' !! k = res !! k.
Proof.
  intros H. unfold shape_metrics.
  intros (circ & _ & (r1 & Hr1 & [= <-])%bind_Ok)%bind_Ok.
  rewrite lookup_insert_ne by (apply (among_false_ne _ _ _ H); set_solver).
  rewrite (inertia_metrics_other _ _ _ _ H Hr1). other_key H.
Qed.

Lemma halo_metrics_other om (res res' : dict) k :
  among halo_keys k = false ->
  halo_metrics om res = Ok res' -> res' !! k = res !! k.
Proof.
  intros H. unfold halo_metrics.
  destruct (halo_contours om) as [|h0 hs]; [by intros [= <-]|].
  destruct (5 <=? length _)%nat; [|by intros [= <-]].
  destruct (fitEllipse _) as [[? axes] ?].
  intros ([ecc|] & _ & [= <-])%bind_Ok; other_key H.
Qed.

Lemma area_conversion_other px (res res' : dict) k :
  among conversion_keys k = false ->
  area_conversion px res = Ok res' -> res' !! k = res !! k.
Proof.
  intros H. unfold area_conversion.
  destruct (px_per_mm_usable px); [|by intros [= <-]].
  destruct (res !! "area_px") as [[]|]; try by intros [= <-].
  intros (d & _ & (q & _ & [= <-])%bind_Ok)%bind_Ok. other_key H.
Qed.

(** The steps of [metrics_of_mask], one by one. *)
Lemma metrics_of_mask_steps th img mask px (di ds dh : bool) (r : dict) :
  metrics_of_mask th img mask px di ds dh = Ok r ->
  let om := object_mask_of th mask in
  let r1 := if di then intensity_metrics (to_gray img) om
                         (base_record th mask)
            else base_record th mask in
  exists r2 r3 : dict,
    (if ds then match findContours om with
                | c0 :: cs => shape_metrics c0 cs r1
                | [] => Ok r1
                end
     else Ok r1) = Ok r2
    /\ (if dh then match findContours om with
                   | _ :: _ => halo_metrics om r2
                   | [] => Ok r2
                   end
        else Ok r2) = Ok r3
    /\ area_conversion px r3 = Ok r.
Proof.
  unfold metrics_of_mask.
  intros (r2 & H2 & (r3 & H3 & H4)%bind_Ok)%bind_Ok.
  exists r2, r3. by repeat split.
Qed.

Lemma shape_step_other (ds : bool) (cs : list (list (Z * Z)))
    (res res' : dict) k :
  among shape_keys k = false ->
  (if ds then match cs with
              | c0 :: cs' => shape_metrics c0 cs' res
              | [] => Ok res
              end
   else Ok res) = Ok res' ->
  res' !! k = res !! k.
Proof.
  intros H. destruct ds; [|by intros [= <-]].
  destruct cs; [by intros [= <-]|]. by apply shape_metrics_other.
Qed.

Lemma halo_step_other (dh : bool) (cs : list (list (Z * Z))) om
    (res res' : dict) k :
  among halo_keys k = false ->
  (if dh then match cs with
              | _ :: _ => halo_metrics om res
              | [] => Ok res
              end
   else Ok res) = Ok res' ->
  res' !! k = res !! k.
Proof.
  intros H. destruct dh; [|by intros [= <-]].
  destruct cs; [by intros [= <-]|]. by apply halo_metrics_other.
Qed.

(** A key no metric group writes keeps the value it had after line 94. *)
Lemma metrics_of_mask_base th img mask px (di ds dh : bool) (r : dict) k :
  among (intensity_keys ++ shape_keys ++ halo_keys ++ conversion_keys) k
  = false ->
  metrics_of_mask th img mask px di ds dh = Ok r ->
  r !! k = base_record th mask !! k.
Proof.
  intros H Hr. unfold among in H. rewrite !existsb_app in H.
  apply orb_false_elim in H as [Hi H].
  apply orb_false_elim in H as [Hs H].
  apply orb_false_elim in H as [Hh Hc].
  destruct (metrics_of_mask_steps _ _ _ _ _ _ _ _ Hr) as (r2 & r3 & H2 & H3 & H4).
  rewrite (area_conversion_other _ _ _ _ Hc H4).
  rewrite (halo_step_other _ _ _ _ _ _ Hh H3).
  rewrite (shape_step_other _ _ _ _ _ Hs H2).
  destruct di; [by apply intensity_metrics_other|done].
Qed.

(** A rasterized mask with a set pixel belongs to an image that has a
    pixel, so that [threshold_image] returns. *)
Lemma threshold_image_of_roi (img : image) (roi : ROI)
    (mask : list (list Z)) :
  roi_mask img roi = Ok (Some mask) ->
  np_any mask = true ->
  exists th : list (list bool), threshold_image img = Ok th.
Proof.
  intros Hmask Hany. eexists. apply threshold_image_Ok. split; [|done].
  rewrite np_size_to_gray.
  apply np_any_pixel in Hany as (y & x & v & Hp & _).
  rewrite (roi_mask_pixel img roi mask y x Hmask) in Hp.
  destruct (Nat.ltb_spec y (fst (image_shape2 img))),
    (Nat.ltb_spec x (snd (image_shape2 img))); simpl in Hp; try done.
  nia.
Qed.

(** [compute_metrics] either stops early with the empty record or goes
    through [threshold_image] and [metrics_of_mask]. *)
Lemma compute_metrics_cases img roi px (di ds dh : bool) :
  (roi_mask img roi = Ok None
   /\ compute_metrics img roi px di ds dh = Ok ∅)
  \/ (exists e, roi_mask img roi = Raise e
      /\ compute_metrics img roi px di ds dh = Raise e)
  \/ (exists mask, roi_mask img roi = Ok (Some mask)
      /\ np_any mask = false
      /\ compute_metrics img roi px di ds dh = Ok ∅)
  \/ (exists mask th, roi_mask img roi = Ok (Some mask)
      /\ np_any mask = true
      /\ threshold_image img = Ok th
      /\ compute_metrics img roi px di ds dh
         = metrics_of_mask th img mask px di ds dh).
Proof.
  unfold compute_metrics.
  destruct (roi_mask img roi) as [[mask|]|e] eqn:Hmask; simpl.
  - destruct (np_any mask) eqn:Hany; simpl.
    + right; right; right.
      destruct (threshold_image_of_roi img roi mask Hmask Hany) as [th Hth].
      exists mask, th. by rewrite Hth.
    + right; right; left. by exists mask.
  - by left.
  - right; left. by exists e.
Qed.

End GroupFacts.

(** ** The object mask *)

Section MaskFacts.
Context {lib : Extern}.

Lemma object_row (rt : list bool) (rm : list Z) :
  (fun v => negb (v =? 0)) <$>
    zip_with (fun old (i : bool) => if i then 255 else old)
      ((fun _ : Z => 0) <$> rm)
      (zip_with andb (negb <$> rt) ((fun v => negb (v =? 0)) <$> rm))
  = zip_with (fun (c : bool) (m : bool) => negb c && m) rt
      ((fun v => negb (v =? 0)) <$> rm).
Proof.
  revert rt. induction rm as [|v rm IH]; intros [|c rt]; simpl; try done.
  rewrite IH. f_equal. by destruct c, (v =? 0).
Qed.

(** The boolean object mask is the ROI mask without the bright pixels. *)
Lemma object_mask_bool (th : list (list bool)) (mask : list (list Z)) :
  astype_bool (object_mask_of th mask)
  = zip2d (fun (c : bool) (m : bool) => negb c && m) th (astype_bool mask).
Proof.
  unfold object_mask_of, assign_where, np_and, np_invert, np_zeros_like.
  revert th. unfold astype_bool, zip2d, map2d.
  induction mask as [|rm mask IH]; intros [|rt th]; simpl; try done.
  f_equal; [apply object_row | apply IH].
Qed.

Lemma base_record_mask_full th mask :
  base_record th mask !! "mask_full"
  = Some (VMask (astype_bool (object_mask_of th mask))).
Proof. unfold base_record. by rewrite lookup_insert_eq. Qed.

Lemma base_record_contours th mask :
  base_record th mask !! "contours"
  = Some (VContours (findContours (object_mask_of th mask))).
Proof.
  unfold base_record. rewrite lookup_insert_ne by done.
  by rewrite lookup_insert_eq.
Qed.

End MaskFacts.

(** C1.  For a supported ROI whose rasterized mask [mask] has a set pixel,
    [threshold_image img] has returned a classification [global_thresh],
    computed from the whole image, and the object mask in the record
    ([mask_full]) is, pixel by pixel, the ROI mask and not that
    classification; hence every pixel of the object mask is a pixel of the
    ROI mask. *)
Theorem object_mask_is_roi_and_dark {lib : Extern} (img : image) (roi : ROI)
    (px_per_mm : pyval) (do_intensity do_shape do_halo : bool)
    (mask : list (list Z)) (r : gmap string value) :
  roi_mask img roi = Ok (Some mask) ->
  np_any mask = true ->
  compute_metrics img roi px_per_mm do_intensity do_shape do_halo = Ok r ->
  exists (global_thresh object_mask : list (list bool)),
    threshold_image img = Ok global_thresh
    /\ r !! "mask_full" = Some (VMask object_mask)
    /\ object_mask
       = zip2d (fun (c : bool) (m : bool) => m && negb c)
           global_thresh (astype_bool mask)
    /\ (forall y x : nat,
          pixel object_mask y x = Some true ->
          pixel (astype_bool mask) y x = Some true
          /\ pixel global_thresh y x = Some false).
Proof.
  intros Hmask Hany Hr.
  destruct (compute_metrics_cases img roi px_per_mm do_intensity do_shape
              do_halo) as [[E _]|[(e & E & _)|[(m & E & F & _)|(m & th & E & _ & Hth & C)]]];
    try congruence.
  assert (m = mask) as -> by congruence.
  rewrite C in Hr.
  exists th, (astype_bool (object_mask_of th mask)).
  assert (astype_bool (object_mask_of th mask)
          = zip2d (fun (c : bool) (m : bool) => m && negb c)
              th (astype_bool mask)) as Eq.
  { rewrite object_mask_bool. unfold zip2d.
    apply zip_with_ext; [|done..]. intros rt rm.
    apply zip_with_ext; [|done..]. intros c b. apply andb_comm. }
  split; [exact Hth|]. split; [|split; [exact Eq|]].
  - rewrite (metrics_of_mask_base _ _ _ _ _ _ _ _ "mask_full" eq_refl Hr).
    apply base_record_mask_full.
  - intros y x. rewrite Eq, pixel_zip2d.
    destruct (pixel th y x) as [c|]; simpl; [|done].
    destruct (pixel (astype_bool mask) y x) as [b|]; simpl; [|done].
    destruct b, c; simpl; intros [=]; done.
Qed.

(** C10.  For a supported ROI whose rasterized mask has a set pixel,
    [threshold_image] returns, and every record [compute_metrics] returns
    holds the external contours under ['contours'] and the boolean object
    mask under ['mask_full'], whatever the three flags are; with the three
    flags off the call returns, and these two are the only entries. *)
Theorem contours_and_mask_always_present {lib : Extern} (img : image)
    (roi : ROI) (px_per_mm : pyval) (mask : list (list Z)) :
  roi_mask img roi = Ok (Some mask) ->
  np_any mask = true ->
  exists global_thresh : list (list bool),
    threshold_image img = Ok global_thresh
    /\ let object_mask := object_mask_of global_thresh mask in
       (forall (do_intensity do_shape do_halo : bool)
               (r : gmap string value),
           compute_metrics img roi px_per_mm do_intensity do_shape do_halo
           = Ok r ->
           r !! "contours" = Some (VContours (findContours object_mask))
           /\ r !! "mask_full" = Some (VMask (astype_bool object_mask)))
       /\ compute_metrics img roi px_per_mm false false false
          = Ok (<["mask_full" := VMask (astype_bool object_mask)]>
                  (<["contours" := VContours (findContours object_mask)]> ∅))
       /\ (forall r : gmap string value,
             compute_metrics img roi px_per_mm false false false = Ok r ->
             dom r = {["contours"; "mask_full"]}).
Proof.
  intros Hmask Hany.
  destruct (threshold_image_of_roi img roi mask Hmask Hany) as [th Hth].
  exists th. split; [exact Hth|]. intros object_mask.
  assert (forall di ds dh,
             compute_metrics img roi px_per_mm di ds dh
             = metrics_of_mask th img mask px_per_mm di ds dh) as C.
  { intros di ds dh. unfold compute_metrics. rewrite Hmask. simpl.
    rewrite Hany. simpl. by rewrite Hth. }
  assert (compute_metrics img roi px_per_mm false false false
          = Ok (base_record th mask)) as E0.
  { rewrite C. unfold metrics_of_mask, area_conversion. simpl.
    fold (base_record th mask).
    destruct (px_per_mm_usable px_per_mm); [|done].
    assert (base_record th mask !! "area_px" = None) as ->; [|done].
    unfold base_record. by rewrite !lookup_insert_ne, lookup_empty. }
  split; [|split].
  - intros di ds dh r Hr. rewrite C in Hr. split.
    + rewrite (metrics_of_mask_base _ _ _ _ _ _ _ _ "contours" eq_refl Hr).
      apply base_record_contours.
    + rewrite (metrics_of_mask_base _ _ _ _ _ _ _ _ "mask_full" eq_refl Hr).
      apply base_record_mask_full.
  - exact E0.
  - intros r Hr. rewrite E0 in Hr. injection Hr as <-.
    unfold base_record. rewrite !dom_insert_L, dom_empty_L. set_solver.
Qed.

Lemma object_mask_is_roi_and_dark_witness :
  let img := Sample.blot in
  let roi := Sample.square in
  let mask := Sample.mask_of img roi in
  let r := Sample.record_of (Sample.run img roi PyNone true true true) in
  @roi_mask Ref.extern img roi = Ok (Some mask)
  /\ np_any mask = true
  /\ @compute_metrics Ref.extern img roi PyNone true true true = Ok r
  /\ exists (global_thresh object_mask : list (list bool)),
       @threshold_image Ref.extern img = Ok global_thresh
       /\ r !! "mask_full" = Some (VMask object_mask)
       /\ object_mask
          = zip2d (fun (c : bool) (m : bool) => m && negb c)
              global_thresh (astype_bool mask)
       /\ (forall y x : nat,
             pixel object_mask y x = Some true ->
             pixel (astype_bool mask) y x = Some true
             /\ pixel global_thresh y x = Some false).
Proof.
  intros img roi mask r.
  assert (@roi_mask Ref.extern img roi = Ok (Some mask)) as H1
    by vm_refl.
  assert (np_any mask = true) as H2 by vm_refl.
  assert (@compute_metrics Ref.extern img roi PyNone true true true = Ok r)
    as H3 by vm_refl.
  split; [exact H1|]. split; [exact H2|]. split; [exact H3|].
  exact (@object_mask_is_roi_and_dark Ref.extern img roi PyNone true true
           true mask r H1 H2 H3).
Defined.

Lemma contours_and_mask_always_present_witness :
  let img := Sample.pair_bgr in
  let roi := Sample.disc in
  let mask := Sample.mask_of img roi in
  @roi_mask Ref.extern img roi = Ok (Some mask)
  /\ np_any mask = true
  /\ exists global_thresh : list (list bool),
       @threshold_image Ref.extern img = Ok global_thresh
       /\ let object_mask := object_mask_of global_thresh mask in
          (forall (do_intensity do_shape do_halo : bool)
                  (r : gmap string value),
              @compute_metrics Ref.extern img roi (PyFloat 2.5) do_intensity
                do_shape do_halo = Ok r ->
              r !! "contours"
              = Some (VContours (Ref.findContours object_mask))
              /\ r !! "mask_full" = Some (VMask (astype_bool object_mask)))
          /\ @compute_metrics Ref.extern img roi (PyFloat 2.5)
               false false false
             = Ok (<["mask_full" := VMask (astype_bool object_mask)]>
                     (<["contours" :=
                          VContours (Ref.findContours object_mask)]> ∅))
          /\ (forall r : gmap string value,
                @compute_metrics Ref.extern img roi (PyFloat 2.5)
                  false false false = Ok r ->
                dom r = {["contours"; "mask_full"]}).
Proof.
  intros img roi mask.
  assert (@roi_mask Ref.extern img roi = Ok (Some mask)) as H1
    by vm_refl.
  assert (np_any mask = true) as H2 by vm_refl.
  split; [exact H1|]. split; [exact H2|].
  exact (@contours_and_mask_always_present Ref.extern img roi (PyFloat 2.5)
           mask H1 H2).
Defined.

(** ** Early returns *)

Section EarlyReturn.
Context {lib : Extern}.

Lemma roi_mask_None (img : image) (roi : ROI) :
  roi_mask img roi = Ok None
  <-> roi_is roi "polygon" = false /\ roi_is roi "circle" = false.
Proof.
  unfold roi_mask, np_array_int32, cv2_fillPoly, cv2_circle.
  destruct (roi_is roi "polygon").
  - destruct (forallb _ _); simpl; [|by intuition].
    destruct (fillPoly_accepts _); simpl; by intuition.
  - destruct (roi_is roi "circle"); [|done].
    destruct (circle_accepts _ _); simpl; by intuition.
Qed.

Lemma metrics_of_mask_nonempty th img mask px (di ds dh : bool) :
  metrics_of_mask th img mask px di ds dh <> Ok ∅.
Proof.
  intros Hr.
  pose proof (metrics_of_mask_base _ _ _ _ _ _ _ _ "contours" eq_refl Hr) as E.
  by rewrite base_record_contours, lookup_empty in E.
Qed.

End EarlyReturn.

(** C5.  [compute_metrics] returns the empty record exactly when the tag of
    the ROI is neither ['polygon'] nor ['circle'] or the rasterized ROI mask
    has no set pixel; an unsupported tag gives the empty record for every
    image and every setting, and in both cases the call returns normally. *)
Theorem empty_record_iff_unsupported_or_empty_mask {lib : Extern}
    (img : image) (roi : ROI) (px_per_mm : pyval)
    (do_intensity do_shape do_halo : bool) :
  (compute_metrics img roi px_per_mm do_intensity do_shape do_halo = Ok ∅
   <-> (roi_is roi "polygon" = false /\ roi_is roi "circle" = false)
       \/ (exists mask : list (list Z),
             roi_mask img roi = Ok (Some mask) /\ np_any mask = false))
  /\ (roi_is roi "polygon" = false /\ roi_is roi "circle" = false ->
      forall (img' : image) (px' : pyval) (di ds dh : bool),
        compute_metrics img' roi px' di ds dh = Ok ∅).
Proof.
  split.
  - destruct (compute_metrics_cases img roi px_per_mm do_intensity do_shape
                do_halo)
      as [[E C]|[(e & E & C)|[(m & E & F & C)|(m & th & E & F & Hth & C)]]].
    + split; [intros _; left; by apply (roi_mask_None img)|done].
    + split; [by rewrite C|].
      intros [H%(roi_mask_None img)|(m & H & _)]; congruence.
    + split; [intros _; right; by exists m|done].
    + rewrite C. split.
      * intros H. by apply metrics_of_mask_nonempty in H.
      * intros [H%(roi_mask_None img)|(m' & H & F')]; congruence.
  - intros H img' px' di ds dh. apply (roi_mask_None img') in H.
    unfold compute_metrics. by rewrite H.
Qed.

(** ** The intensity group *)

Section IntensityFacts.
Context {lib : Extern}.

(** A key the later steps do not write keeps the value it had after the
    intensity step. *)
Lemma metrics_of_mask_early th img mask px (di ds dh : bool)
    (r : gmap string value) k :
  among (shape_keys ++ halo_keys ++ conversion_keys) k = false ->
  metrics_of_mask th img mask px di ds dh = Ok r ->
  r !! k = after_intensity th img mask di !! k.
Proof.
  intros H Hr. unfold among in H. rewrite !existsb_app in H.
  apply orb_false_elim in H as [Hs H].
  apply orb_false_elim in H as [Hh Hc].
  destruct (metrics_of_mask_steps _ _ _ _ _ _ _ _ Hr) as (r2 & r3 & H2 & H3 & H4).
  rewrite (area_conversion_other _ _ _ _ Hc H4).
  rewrite (halo_step_other _ _ _ _ _ _ Hh H3).
  by rewrite (shape_step_other _ _ _ _ _ Hs H2).
Qed.

Lemma count_row (row : list Z) :
  Forall (fun v => 0 <= v) row ->
  length (filter (fun v => 0 < v) row)
  = length (filter (fun b : bool => b = true)
              ((fun v => negb (v =? 0)) <$> row)).
Proof.
  induction 1 as [|v row Hv _ IH]; [done|].
  rewrite fmap_cons, !filter_cons.
  destruct (decide (0 < v)), (decide (negb (v =? 0) = true)) as [E|E];
    simpl; try (by rewrite IH).
  - apply not_true_is_false, negb_false_iff, Z.eqb_eq in E. lia.
  - apply negb_true_iff, Z.eqb_neq in E. lia.
Qed.

Lemma assign_where_nonneg (a : list (list Z)) (idx : list (list bool)) :
  Forall (Forall (fun v => 0 <= v)) a ->
  Forall (Forall (fun v => 0 <= v)) (assign_where a idx 255).
Proof.
  unfold assign_where, zip2d. intros Ha. revert idx.
  induction Ha as [|ra a Hra _ IH]; intros [|ri idx]; simpl;
    try by constructor.
  constructor; [|apply IH].
  clear IH. revert ri. induction Hra as [|v ra Hv _ IH]; intros [|i ri];
    simpl; try by constructor.
  constructor; [by destruct i|apply IH].
Qed.

Lemma object_mask_nonneg th mask :
  Forall (Forall (fun v => 0 <= v)) (object_mask_of th mask).
Proof.
  unfold object_mask_of. apply assign_where_nonneg.
  unfold np_zeros_like. apply Forall_fmap, Forall_true. intros row. simpl.
  apply Forall_fmap, Forall_true. intros v. simpl. lia.
Qed.

(** [np.sum(object_mask > 0)] counts the [True] pixels of the object mask. *)
Lemma count_positive_object_mask th mask :
  count_positive (object_mask_of th mask)
  = count_true (astype_bool (object_mask_of th mask)).
Proof.
  pose proof (object_mask_nonneg th mask) as H.
  unfold count_positive, count_true, astype_bool, map2d.
  induction H as [|row a Hrow _ IH]; [done|].
  rewrite !fmap_cons. simpl. by rewrite IH, count_row.
Qed.

Lemma take_where_row {A} (h : bool -> bool -> bool) (k : A -> bool)
    (rg : list A) (rm : list bool) :
  length (take_where rg (zip_with h (k <$> rg) rm))
  = length (filter (fun b : bool => b = true) (zip_with h (k <$> rg) rm)).
Proof.
  revert rm. induction rg as [|v rg IH]; intros [|m rm]; simpl; try done.
  rewrite filter_cons. destruct (h (k v) m); simpl; by rewrite IH.
Qed.

Lemma bool_index_length {A} (h : bool -> bool -> bool) (k : A -> bool)
    (g : list (list A)) (mb : list (list bool)) :
  length (bool_index g (zip2d h (map2d k g) mb))
  = count_true (zip2d h (map2d k g) mb).
Proof.
  unfold bool_index, count_true, zip2d, map2d. revert mb.
  induction g as [|rg g IH]; intros [|rm mb]; simpl; try done.
  rewrite length_app, IH. by rewrite take_where_row.
Qed.

(** The selected samples are as many as the object mask has [True]s. *)
Lemma obj_pixels_length th img mask :
  threshold_image img = Ok th ->
  length (bool_index (to_gray img) (astype_bool (object_mask_of th mask)))
  = count_true (astype_bool (object_mask_of th mask)).
Proof.
  intros [_ ->]%threshold_image_Ok.
  rewrite object_mask_bool. apply bool_index_length.
Qed.

(** The fields of the intensity group in a record [metrics_of_mask]
    returns. *)
Lemma metrics_of_mask_intensity (th : list (list bool)) (img : image)
    (mask : list (list Z)) (px_per_mm : pyval) (do_shape do_halo : bool)
    (r : gmap string value) :
  threshold_image img = Ok th ->
  metrics_of_mask th img mask px_per_mm true do_shape do_halo = Ok r ->
  let object_mask := astype_bool (object_mask_of th mask) in
  let obj_pixels := bool_index (to_gray img) object_mask in
  r !! "mask_full" = Some (VMask object_mask)
  /\ r !! "area_px" = Some (VInt (Z.of_nat (count_true object_mask)))
  /\ r !! "intensity_pixels" = Some (VPixels obj_pixels)
  /\ length obj_pixels = count_true object_mask
  /\ (count_true object_mask = 0%nat ->
      obj_pixels = []
      /\ r !! "mean_I" = Some VNone
      /\ r !! "median_I" = Some VNone
      /\ r !! "std_I" = Some VNone)
  /\ (count_true object_mask <> 0%nat ->
      r !! "mean_I" = Some (VFloat (np_mean obj_pixels))
      /\ r !! "median_I" = Some (VFloat (np_median obj_pixels))
      /\ r !! "std_I" = Some (VFloat (np_std obj_pixels))).
Proof.
  intros Hth Hr object_mask obj_pixels.
  pose proof (obj_pixels_length th img mask Hth) as Hlen.
  fold object_mask in Hlen. fold obj_pixels in Hlen.
  assert (forall k,
             among (shape_keys ++ halo_keys ++ conversion_keys) k = false ->
             r !! k
             = intensity_metrics (to_gray img) (object_mask_of th mask)
                 (base_record th mask) !! k) as L.
  { intros k Hk. by rewrite (metrics_of_mask_early _ _ _ _ _ _ _ _ _ Hk Hr). }
  split.
  { rewrite (metrics_of_mask_base _ _ _ _ _ _ _ _ "mask_full" eq_refl Hr).
    apply base_record_mask_full. }
  split.
  { rewrite (L "area_px" eq_refl). unfold intensity_metrics.
    rewrite lookup_insert_ne by done. rewrite lookup_insert_eq.
    by rewrite count_positive_object_mask. }
  split.
  { rewrite (L "intensity_pixels" eq_refl). unfold intensity_metrics.
    by rewrite lookup_insert_eq. }
  split; [exact Hlen|]. split.
  - intros Hz. rewrite Hz in Hlen.
    assert (obj_pixels = []) as Hnil by (by destruct obj_pixels).
    split; [exact Hnil|].
    rewrite (L "mean_I" eq_refl), (L "median_I" eq_refl), (L "std_I" eq_refl).
    unfold intensity_metrics. fold object_mask. fold obj_pixels.
    rewrite Hnil. simpl.
    repeat split;
      repeat (rewrite lookup_insert_ne by done); by rewrite lookup_insert_eq.
  - intros Hnz.
    rewrite (L "mean_I" eq_refl), (L "median_I" eq_refl), (L "std_I" eq_refl).
    unfold intensity_metrics. fold object_mask. fold obj_pixels.
    assert ((0 <? length obj_pixels)%nat = true) as ->.
    { apply Nat.ltb_lt. lia. }
    repeat split;
      repeat (rewrite lookup_insert_ne by done); by rewrite lookup_insert_eq.
Qed.

End IntensityFacts.

(** C6.  When the intensity group runs on a supported, non-empty ROI,
    [threshold_image] has returned a classification, the object mask is
    the one built from it, [area_px] is the number of [True] pixels of the
    object mask and [intensity_pixels] holds the grayscale samples at
    exactly those pixels; when that number is zero [mean_I], [median_I] and
    [std_I] are null and the sample sequence is empty, otherwise they are
    numpy's mean, median and (population) standard deviation of the
    samples. *)
Theorem intensity_group_statistics {lib : Extern} (img : image) (roi : ROI)
    (px_per_mm : pyval) (do_shape do_halo : bool) (mask : list (list Z))
    (r : gmap string value) :
  roi_mask img roi = Ok (Some mask) ->
  np_any mask = true ->
  compute_metrics img roi px_per_mm true do_shape do_halo = Ok r ->
  exists global_thresh : list (list bool),
    threshold_image img = Ok global_thresh
    /\ let object_mask := astype_bool (object_mask_of global_thresh mask) in
       let obj_pixels := bool_index (to_gray img) object_mask in
       r !! "mask_full" = Some (VMask object_mask)
       /\ r !! "area_px" = Some (VInt (Z.of_nat (count_true object_mask)))
       /\ r !! "intensity_pixels" = Some (VPixels obj_pixels)
       /\ length obj_pixels = count_true object_mask
       /\ (count_true object_mask = 0%nat ->
           obj_pixels = []
           /\ r !! "mean_I" = Some VNone
           /\ r !! "median_I" = Some VNone
           /\ r !! "std_I" = Some VNone)
       /\ (count_true object_mask <> 0%nat ->
           r !! "mean_I" = Some (VFloat (np_mean obj_pixels))
           /\ r !! "median_I" = Some (VFloat (np_median obj_pixels))
           /\ r !! "std_I" = Some (VFloat (np_std obj_pixels))).
Proof.
  intros Hmask Hany Hr.
  destruct (compute_metrics_cases img roi px_per_mm true do_shape do_halo)
    as [[E _]|[(e & E & _)|[(m & E & F & _)|(m & th & E & _ & Hth & C)]]];
    try congruence.
  assert (m = mask) as -> by congruence.
  rewrite C in Hr. exists th. split; [exact Hth|].
  by apply (metrics_of_mask_intensity th img mask px_per_mm do_shape
              do_halo).
Qed.

Lemma intensity_group_statistics_witness :
  let img := Sample.blot in
  let roi := Sample.disc in
  let mask := Sample.mask_of img roi in
  let r := Sample.record_of (Sample.run img roi (PyInt 10) true true false) in
  @roi_mask Ref.extern img roi = Ok (Some mask)
  /\ np_any mask = true
  /\ @compute_metrics Ref.extern img roi (PyInt 10) true true false = Ok r
  /\ r !! "area_px" = Some (VInt 25)
  /\ exists global_thresh : list (list bool),
       @threshold_image Ref.extern img = Ok global_thresh
       /\ let object_mask :=
            astype_bool (object_mask_of global_thresh mask) in
          let obj_pixels := bool_index (@to_gray Ref.extern img) object_mask in
          r !! "mask_full" = Some (VMask object_mask)
          /\ r !! "area_px" = Some (VInt (Z.of_nat (count_true object_mask)))
          /\ r !! "intensity_pixels" = Some (VPixels obj_pixels)
          /\ length obj_pixels = count_true object_mask
          /\ (count_true object_mask = 0%nat ->
              obj_pixels = []
              /\ r !! "mean_I" = Some VNone
              /\ r !! "median_I" = Some VNone
              /\ r !! "std_I" = Some VNone)
          /\ (count_true object_mask <> 0%nat ->
              r !! "mean_I" = Some (VFloat (Ref.np_mean obj_pixels))
              /\ r !! "median_I" = Some (VFloat (Ref.np_median obj_pixels))
              /\ r !! "std_I" = Some (VFloat (Ref.np_std obj_pixels))).
Proof.
  intros img roi mask r.
  assert (@roi_mask Ref.extern img roi = Ok (Some mask)) as H1
    by vm_refl.
  assert (np_any mask = true) as H2 by vm_refl.
  assert (@compute_metrics Ref.extern img roi (PyInt 10) true true false
          = Ok r) as H3 by vm_refl.
  split; [exact H1|]. split; [exact H2|]. split; [exact H3|].
  split; [vm_refl|].
  exact (@intensity_group_statistics Ref.extern img roi (PyInt 10) true false
           mask r H1 H2 H3).
Defined.

(** ** The area conversion *)

Lemma float_pos_nonzero (f : float) :
  PrimFloat.ltb 0 f = true -> PrimFloat.eqb f 0 = false.
Proof.
  rewrite FloatAxioms.ltb_spec, FloatAxioms.eqb_spec.
  change (Prim2SF 0) with (S754_zero false).
  destruct (Prim2SF f) as [s| | |s m e]; try done; by destruct s.
Qed.

Lemma px_per_mm_usable_iff (px : pyval) :
  px_per_mm_usable px = true <-> positive_number px.
Proof.
  unfold px_per_mm_usable. destruct px as [|b|z|f|s]; simpl.
  - done.
  - by destruct b.
  - destruct (Z.eqb_spec z 0) as [->|Hz]; simpl.
    + split; [done|lia].
    + apply Z.ltb_lt.
  - destruct (PrimFloat.ltb 0 f) eqn:Hf.
    + by rewrite (float_pos_nonzero f Hf).
    + by destruct (negb (PrimFloat.eqb f 0)).
  - by destruct (negb (String.eqb s "")).
Qed.

Section ConversionFacts.
Context {lib : Extern}.

Lemma area_conversion_unusable px (res : gmap string value) :
  px_per_mm_usable px = false -> area_conversion px res = Ok res.
Proof. unfold area_conversion. by intros ->. Qed.

Lemma area_conversion_spec px (res res' : gmap string value) :
  area_conversion px res = Ok res' ->
  res !! "area_mm2" = None ->
  res' !! "area_px" = res !! "area_px"
  /\ (px_per_mm_usable px = false -> res' !! "area_mm2" = None)
  /\ (res !! "area_px" = None -> res' !! "area_mm2" = None)
  /\ (px_per_mm_usable px = true ->
      forall a : Z, res !! "area_px" = Some (VInt a) ->
      exists (d : pyval) (q : float),
        pow2 px = Ok d /\ int_truediv a d = Ok q
        /\ res' !! "area_mm2" = Some (VFloat q)).
Proof.
  intros H Hno. split.
  { by apply (area_conversion_other px res res' "area_px"). }
  unfold area_conversion in H.
  destruct (px_per_mm_usable px).
  - destruct (res !! "area_px") as [v|] eqn:Ha.
    + destruct v as [|a| | | | |]; try (injection H as <-; by repeat split).
      apply bind_Ok in H as (d & Hd & (q & Hq & [= <-])%bind_Ok).
      repeat split; try done.
      intros _ a' [= <-]. exists d, q.
      by rewrite lookup_insert_eq.
    + injection H as <-. by repeat split.
  - injection H as <-. by repeat split.
Qed.

(** What the record holds when line 156 is reached. *)
Lemma before_conversion th img mask px (di ds dh : bool)
    (r : gmap string value) :
  metrics_of_mask th img mask px di ds dh = Ok r ->
  exists r3 : gmap string value,
    area_conversion px r3 = Ok r
    /\ r3 !! "area_mm2" = None
    /\ r3 !! "area_px" = after_intensity th img mask di !! "area_px".
Proof.
  intros Hr.
  destruct (metrics_of_mask_steps _ _ _ _ _ _ _ _ Hr) as (r2 & r3 & H2 & H3 & H4).
  exists r3. split; [exact H4|]. split.
  - rewrite (halo_step_other _ _ _ _ _ "area_mm2" eq_refl H3).
    rewrite (shape_step_other _ _ _ _ "area_mm2" eq_refl H2).
    destruct di.
    + rewrite intensity_metrics_other by done. unfold base_record.
      by rewrite !lookup_insert_ne, lookup_empty.
    + unfold base_record. by rewrite !lookup_insert_ne, lookup_empty.
  - rewrite (halo_step_other _ _ _ _ _ "area_px" eq_refl H3).
    by rewrite (shape_step_other _ _ _ _ "area_px" eq_refl H2).
Qed.

Lemma after_intensity_area_px th img mask (di : bool) :
  after_intensity th img mask di !! "area_px"
  = if di
    then Some (VInt (Z.of_nat (count_positive (object_mask_of th mask))))
    else None.
Proof.
  unfold after_intensity. destruct di.
  - unfold intensity_metrics. rewrite lookup_insert_ne by done.
    by rewrite lookup_insert_eq.
  - unfold base_record. by rewrite !lookup_insert_ne, lookup_empty.
Qed.

End ConversionFacts.

(** C2, as the code has it.  In every record [compute_metrics] returns,
    [area_mm2] is present exactly when [px_per_mm] is a supplied positive
    number and [area_px] is in the record (the intensity group ran on a
    supported, non-empty ROI); it then equals [area_px / px_per_mm ** 2].
    It is absent whenever [px_per_mm] is missing, zero, negative or not a
    number, and for such a [px_per_mm] the conversion step returns the
    record as it is, without raising. *)
Theorem area_mm2_needs_area_px {lib : Extern} (img : image) (roi : ROI)
    (px_per_mm : pyval) (do_intensity do_shape do_halo : bool) :
  (forall r : gmap string value,
      compute_metrics img roi px_per_mm do_intensity do_shape do_halo = Ok r ->
      (positive_number px_per_mm ->
       forall a : Z, r !! "area_px" = Some (VInt a) ->
       exists (d : pyval) (q : float),
         pow2 px_per_mm = Ok d /\ int_truediv a d = Ok q
         /\ r !! "area_mm2" = Some (VFloat q))
      /\ (r !! "area_px" = None -> r !! "area_mm2" = None)
      /\ (~ positive_number px_per_mm -> r !! "area_mm2" = None)
      /\ (do_intensity = false -> r !! "area_px" = None))
  /\ (~ positive_number px_per_mm ->
      forall res : gmap string value,
        area_conversion px_per_mm res = Ok res)
  /\ ~ positive_number PyNone
  /\ (forall z : Z, z <= 0 -> ~ positive_number (PyInt z))
  /\ (forall f : float,
        PrimFloat.ltb 0 f = false -> ~ positive_number (PyFloat f))
  /\ (forall s : string, ~ positive_number (PyStr s)).
Proof.
  split; [|split; [|split; [|split; [|split]]]].
  - intros r Hr.
    destruct (compute_metrics_cases img roi px_per_mm do_intensity do_shape
                do_halo)
      as [[E C]|[(e & E & C)|[(m & E & F & C)|(m & th & E & F & Hth & C)]]];
      rewrite C in Hr; try done;
      try (injection Hr as <-; by rewrite !lookup_empty).
    destruct (before_conversion _ _ _ _ _ _ _ _ Hr) as (r3 & H4 & Hno & Ha).
    destruct (area_conversion_spec _ _ _ H4 Hno) as (Hpx & Hu & Hn & Hp).
    rewrite after_intensity_area_px in Ha. rewrite Hpx.
    split; [|split; [|split]].
    + intros Hpos%px_per_mm_usable_iff. by apply Hp.
    + exact Hn.
    + intros Hneg. apply Hu. apply not_true_is_false.
      by rewrite px_per_mm_usable_iff.
    + intros ->. exact Ha.
  - intros Hneg res. apply area_conversion_unusable.
    apply not_true_is_false. by rewrite px_per_mm_usable_iff.
  - simpl. tauto.
  - simpl. lia.
  - simpl. intros f ->. done.
  - simpl. tauto.
Qed.

(** C2 fails as stated: with [px_per_mm = 10], a supported ROI and the
    intensity group switched off, the record has no [area_px] and no
    [area_mm2], although [px_per_mm] is a supplied positive number. *)
Lemma area_mm2_absent_without_intensity :
  positive_number (PyInt 10)
  /\ exists r : gmap string value,
       @compute_metrics Ref.extern Sample.blot Sample.disc (PyInt 10)
         false true true = Ok r
       /\ r !! "mask_full" <> None
       /\ r !! "area_px" = None
       /\ r !! "area_mm2" = None.
Proof.
  split; [simpl; lia|].
  exists (Sample.record_of
            (Sample.run Sample.blot Sample.disc (PyInt 10) false true true)).
  split; [vm_refl|].
  split; [vm_compute; discriminate|].
  split; vm_refl.
Qed.

(** ** The shape and halo groups *)

Section ShapeFacts.
Context {lib : Extern}.

Lemma inertia_metrics_spec M (res res' : gmap string value) :
  inertia_metrics M res = Ok res' ->
  (PrimFloat.eqb (m00 M) 0 = true ->
   res' !! "inertia_ratio" = res !! "inertia_ratio")
  /\ (PrimFloat.eqb (m00 M) 0 = false ->
      res' !! "inertia_ratio" = Some VNone
      \/ exists q : float, res' !! "inertia_ratio" = Some (VFloat q)).
Proof.
  unfold inertia_metrics. destruct (PrimFloat.eqb (m00 M) 0); simpl.
  - intros [= <-]. by split.
  - intros (d2 & _ & (c2 & _ & [= <-])%bind_Ok)%bind_Ok.
    split; [done|]. intros _. rewrite lookup_insert_eq.
    destruct (negb _); [right; by eexists | by left].
Qed.

Lemma inertia_metrics_only M (res res' : gmap string value) k :
  k <> "inertia_ratio" ->
  inertia_metrics M res = Ok res' -> res' !! k = res !! k.
Proof.
  intros Hk. unfold inertia_metrics.
  destruct (negb (PrimFloat.eqb (m00 M) 0)); [|by intros [= <-]].
  intros (d2 & _ & (c2 & _ & [= <-])%bind_Ok)%bind_Ok.
  by rewrite lookup_insert_ne.
Qed.

Lemma shape_metrics_spec c0 cs (res res' : gmap string value) :
  shape_metrics c0 cs res = Ok res' ->
  let cnt := max_by contourArea c0 cs in
  let hull_area := contourArea (convexHull cnt) in
  res' !! "perimeter_px" = Some (VFloat (arcLength cnt))
  /\ (PrimFloat.ltb 0 (arcLength cnt) = false ->
      res' !! "circularity" = Some VNone)
  /\ (PrimFloat.ltb 0 (arcLength cnt) = true ->
      exists q : float, res' !! "circularity" = Some (VFloat q))
  /\ (PrimFloat.eqb (m00 (moments cnt)) 0 = true ->
      res' !! "inertia_ratio" = res !! "inertia_ratio")
  /\ (PrimFloat.eqb (m00 (moments cnt)) 0 = false ->
      res' !! "inertia_ratio" = Some VNone
      \/ exists q : float, res' !! "inertia_ratio" = Some (VFloat q))
  /\ (PrimFloat.ltb 0 hull_area = false ->
      res' !! "convexity" = Some VNone)
  /\ (PrimFloat.ltb 0 hull_area = true ->
      res' !! "convexity"
      = Some (VFloat (PrimFloat.div (contourArea cnt) hull_area))).
Proof.
  intros H cnt hull_area. unfold shape_metrics in H.
  apply bind_Ok in H as (circ & Hc & (r1 & Hr1 & [= <-])%bind_Ok).
  fold cnt in Hc, Hr1. fold cnt. fold hull_area.
  assert (r1 !! "perimeter_px"
          = <["circularity":=circ]>
              (<["perimeter_px":=VFloat (arcLength cnt)]> res)
            !! "perimeter_px") as Ep
    by (by apply (inertia_metrics_only (moments cnt))).
  assert (r1 !! "circularity"
          = <["circularity":=circ]>
              (<["perimeter_px":=VFloat (arcLength cnt)]> res)
            !! "circularity") as Ec
    by (by apply (inertia_metrics_only (moments cnt))).
  destruct (inertia_metrics_spec _ _ _ Hr1) as [Iz In].
  rewrite !lookup_insert_ne in Iz by done.
  rewrite lookup_insert_ne, lookup_insert_eq in Ep by done.
  rewrite lookup_insert_eq in Ec.
  repeat (rewrite lookup_insert_ne by done). rewrite lookup_insert_eq.
  rewrite Ep, Ec. split; [done|].
  split; [|split; [|split; [exact Iz|split; [exact In|]]]].
  - intros Hp. rewrite Hp in Hc. by injection Hc as <-.
  - intros Hp. rewrite Hp in Hc.
    apply bind_Ok in Hc as (p2 & _ & (q & _ & [= <-])%bind_Ok). by exists q.
  - split; by intros ->.
Qed.

Lemma halo_metrics_spec om (res res' : gmap string value) :
  halo_metrics om res = Ok res' ->
  res !! "halo_eccentricity" = None ->
  (halo_contours om = [] -> res' !! "halo_eccentricity" = None)
  /\ (forall h0 hs,
        halo_contours om = h0 :: hs ->
        let hc := max_by contourArea h0 hs in
        ((length hc < 5)%nat -> res' !! "halo_eccentricity" = None)
        /\ ((5 <= length hc)%nat ->
            exists e : option float,
              eccentricity_of_axes (snd (fst (fitEllipse hc))) = Ok e
              /\ res' !! "halo_eccentricity" = VFloat <$> e)).
Proof.
  intros H Hno. unfold halo_metrics in H.
  destruct (halo_contours om) as [|h0 hs].
  { injection H as <-. split; [done|]. intros ? ? [=]. }
  split; [done|]. intros ? ? [= <- <-] hc. fold hc in H.
  destruct (Nat.leb_spec 5 (length hc)) as [Hge|Hlt].
  - split; [lia|]. intros _.
    destruct (fitEllipse hc) as [[c axes] ang]. simpl.
    apply bind_Ok in H as (e & He & H). exists e. split; [exact He|].
    destruct e as [ecc|]; injection H as <-; simpl;
      [by rewrite lookup_insert_eq | done].
  - injection H as <-. split; [done|]. lia.
Qed.

Lemma after_intensity_no_shape th img mask (di : bool) k :
  among (shape_keys ++ halo_keys) k = true ->
  after_intensity th img mask di !! k = None.
Proof.
  intros Hk.
  assert (among (intensity_keys ++ ["mask_full"; "contours"]) k = false)
    as Hi.
  { unfold among in *. simpl in *.
    repeat match type of Hk with
           | (?b || _) = true =>
               let E := fresh in
               destruct b eqn:E;
               [apply String.eqb_eq in E; subst k; reflexivity | simpl in Hk]
           end.
    done. }
  unfold among in Hi. rewrite existsb_app in Hi.
  apply orb_false_elim in Hi as [Hi Hb].
  unfold after_intensity. destruct di.
  - rewrite intensity_metrics_other by exact Hi.
    unfold base_record. other_key Hb.
  - unfold base_record. other_key Hb.
Qed.

End ShapeFacts.

Section RecordFacts.
Context {lib : Extern}.

Lemma among_shape_cases k :
  among shape_keys k = true ->
  k = "perimeter_px" \/ k = "circularity" \/ k = "inertia_ratio"
  \/ k = "convexity".
Proof.
  unfold among. simpl. rewrite !orb_true_iff, !String.eqb_eq.
  intuition discriminate.
Qed.

(** The record at the three later program points, for a key of the shape
    or halo group. *)
Lemma metrics_of_mask_late th img mask px (di ds dh : bool)
    (r : gmap string value) :
  metrics_of_mask th img mask px di ds dh = Ok r ->
  let om := object_mask_of th mask in
  let r1 := after_intensity th img mask di in
  exists r2 r3 : gmap string value,
    (if ds then match findContours om with
                | c0 :: cs => shape_metrics c0 cs r1
                | [] => Ok r1
                end
     else Ok r1) = Ok r2
    /\ (if dh then match findContours om with
                   | _ :: _ => halo_metrics om r2
                   | [] => Ok r2
                   end
        else Ok r2) = Ok r3
    /\ (forall k, among shape_keys k = true -> r !! k = r2 !! k)
    /\ r !! "halo_eccentricity" = r3 !! "halo_eccentricity"
    /\ r2 !! "halo_eccentricity" = None.
Proof.
  intros Hr om r1.
  destruct (metrics_of_mask_steps _ _ _ _ _ _ _ _ Hr) as (r2 & r3 & H2 & H3 & H4).
  exists r2, r3. split; [exact H2|]. split; [exact H3|]. split; [|split].
  - intros k Hk.
    assert (among halo_keys k = false /\ among conversion_keys k = false)
      as [Hh Hc].
    { destruct (among_shape_cases k Hk) as [ -> | [ -> | [ -> | -> ] ] ]; by split. }
    rewrite (area_conversion_other _ _ _ _ Hc H4).
    by rewrite (halo_step_other _ _ _ _ _ _ Hh H3).
  - by rewrite (area_conversion_other _ _ _ "halo_eccentricity" eq_refl H4).
  - rewrite (shape_step_other _ _ _ _ "halo_eccentricity" eq_refl H2).
    by apply after_intensity_no_shape.
Qed.

End RecordFacts.

(** C3, as the code has it.  In a record produced for a supported,
    non-empty ROI a field whose computation is not well-defined is null
    only inside a group that runs: [mean_I], [median_I] and [std_I] when the
    object mask is empty, [circularity] when the perimeter is not positive,
    [convexity] when the hull area is not positive, and [inertia_ratio] is
    a number or null when [m00] is not zero.  The shape group runs only
    when a contour exists: with no contour its four fields are absent from
    the record.  [halo_eccentricity] is never null: it is absent when the
    halo group does not run, when the halo has no contour, and when its
    largest contour has fewer than 5 points. *)
Theorem undefined_fields_null_or_absent {lib : Extern} (img : image)
    (roi : ROI) (px_per_mm : pyval) (do_intensity do_shape do_halo : bool)
    (mask : list (list Z)) (r : gmap string value) :
  roi_mask img roi = Ok (Some mask) ->
  np_any mask = true ->
  compute_metrics img roi px_per_mm do_intensity do_shape do_halo = Ok r ->
  exists global_thresh : list (list bool),
  threshold_image img = Ok global_thresh /\
  let object_mask := object_mask_of global_thresh mask in
  let contours := findContours object_mask in
  (do_intensity = true ->
   count_true (astype_bool object_mask) = 0%nat ->
   r !! "mean_I" = Some VNone /\ r !! "median_I" = Some VNone
   /\ r !! "std_I" = Some VNone)
  /\ (do_shape = false \/ contours = [] ->
      forall k, among shape_keys k = true -> r !! k = None)
  /\ (do_shape = true ->
      forall c0 cs, contours = c0 :: cs ->
      let cnt := max_by contourArea c0 cs in
      let hull_area := contourArea (convexHull cnt) in
      r !! "perimeter_px" = Some (VFloat (arcLength cnt))
      /\ (PrimFloat.ltb 0 (arcLength cnt) = false ->
          r !! "circularity" = Some VNone)
      /\ (PrimFloat.ltb 0 (arcLength cnt) = true ->
          exists q : float, r !! "circularity" = Some (VFloat q))
      /\ (PrimFloat.eqb (m00 (moments cnt)) 0 = false ->
          r !! "inertia_ratio" = Some VNone
          \/ exists q : float, r !! "inertia_ratio" = Some (VFloat q))
      /\ (PrimFloat.ltb 0 hull_area = false ->
          r !! "convexity" = Some VNone)
      /\ (PrimFloat.ltb 0 hull_area = true ->
          r !! "convexity"
          = Some (VFloat (PrimFloat.div (contourArea cnt) hull_area))))
  /\ r !! "halo_eccentricity" <> Some VNone
  /\ (do_halo = false \/ contours = [] \/ halo_contours object_mask = [] ->
      r !! "halo_eccentricity" = None)
  /\ (forall h0 hs,
        halo_contours object_mask = h0 :: hs ->
        (length (max_by contourArea h0 hs) < 5)%nat ->
        r !! "halo_eccentricity" = None).
Proof.
  intros Hmask Hany Hr.
  destruct (compute_metrics_cases img roi px_per_mm do_intensity do_shape
              do_halo)
    as [[E _]|[(e & E & _)|[(m & E & F & _)|(m & th & E & _ & Hth & C)]]];
    try congruence.
  assert (m = mask) as -> by congruence.
  rewrite C in Hr. exists th. split; [exact Hth|].
  intros object_mask contours.
  destruct (metrics_of_mask_late _ _ _ _ _ _ _ _ Hr)
    as (r2 & r3 & H2 & H3 & Ls & Lh & Hno).
  fold object_mask in H2, H3. fold contours in H2, H3.
  assert (r !! "halo_eccentricity" = None
          \/ exists e : float, r !! "halo_eccentricity" = Some (VFloat e))
    as Hhalo.
  { rewrite Lh. destruct do_halo; [|injection H3 as <-; by left].
    destruct contours as [|c0 cs]; [injection H3 as <-; by left|].
    destruct (halo_metrics_spec _ _ _ H3 Hno) as [Hn Hc].
    destruct (halo_contours object_mask) as [|h0 hs] eqn:Eh;
      [left; by apply Hn|].
    destruct (Hc h0 hs eq_refl) as [Hlt Hge].
    destruct (Nat.lt_ge_cases (length (max_by contourArea h0 hs)) 5)
      as [Hl|Hg]; [left; by apply Hlt|].
    destruct (Hge Hg) as ([e|] & _ & ->); [right; by exists e|by left]. }
  split; [|split; [|split; [|split; [|split]]]].
  - intros -> Hz.
    destruct (metrics_of_mask_intensity _ _ _ _ _ _ _ Hth Hr)
      as (_ & _ & _ & _ & Hnull & _).
    by destruct (Hnull Hz) as (_ & ? & ? & ?).
  - intros Hskip k Hk. rewrite (Ls k Hk).
    assert (r2 = after_intensity th img mask do_intensity) as ->.
    { destruct do_shape; [|by injection H2 as <-].
      destruct Hskip as [|Hnil]; [done|]. rewrite Hnil in H2.
      by injection H2 as <-. }
    apply after_intensity_no_shape. unfold among in *.
    rewrite existsb_app. by rewrite Hk.
  - intros -> c0 cs Hcs cnt hull_area. rewrite Hcs in H2.
    destruct (shape_metrics_spec _ _ _ _ H2)
      as (Hp & Hc0 & Hc1 & _ & Hin & Hv0 & Hv1).
    fold cnt in Hp, Hc0, Hc1, Hin, Hv0, Hv1.
    fold hull_area in Hv0, Hv1.
    rewrite !Ls by done. repeat split; assumption.
  - destruct Hhalo as [->|(e & ->)]; done.
  - intros Hskip. rewrite Lh.
    destruct do_halo; [|by injection H3 as <-].
    destruct Hskip as [|[Hnil|Hnil]]; [done| |].
    + rewrite Hnil in H3. by injection H3 as <-.
    + destruct contours; [by injection H3 as <-|].
      destruct (halo_metrics_spec _ _ _ H3 Hno) as [Hn _]. by apply Hn.
  - intros h0 hs Eh Hl. rewrite Lh.
    destruct do_halo; [|by injection H3 as <-].
    destruct contours; [by injection H3 as <-|].
    destruct (halo_metrics_spec _ _ _ H3 Hno) as [_ Hc].
    by apply (Hc h0 hs Eh).
Qed.

Lemma undefined_fields_null_or_absent_witness :
  let img := Sample.blot in
  let roi := Sample.disc in
  let mask := Sample.mask_of img roi in
  let r := Sample.record_of (Sample.run img roi PyNone true true true) in
  @roi_mask Ref.extern img roi = Ok (Some mask)
  /\ np_any mask = true
  /\ @compute_metrics Ref.extern img roi PyNone true true true = Ok r
  /\ r !! "contours" = Some (VContours [[(1, 1); (1, 5); (5, 5); (5, 1)]])
  /\ r !! "perimeter_px" = Some (VFloat 16)
  /\ r !! "halo_eccentricity" = None
  /\ exists global_thresh : list (list bool),
       @threshold_image Ref.extern img = Ok global_thresh
       /\ let object_mask := object_mask_of global_thresh mask in
          let contours := Ref.findContours object_mask in
          (forall c0 cs, contours = c0 :: cs ->
           let cnt := max_by Ref.contourArea c0 cs in
           let hull_area := Ref.contourArea (Ref.convexHull cnt) in
           r !! "perimeter_px" = Some (VFloat (Ref.arcLength cnt))
           /\ (PrimFloat.ltb 0 (Ref.arcLength cnt) = false ->
               r !! "circularity" = Some VNone)
           /\ (PrimFloat.ltb 0 (Ref.arcLength cnt) = true ->
               exists q : float, r !! "circularity" = Some (VFloat q))
           /\ (PrimFloat.eqb (m00 (Ref.moments cnt)) 0 = false ->
               r !! "inertia_ratio" = Some VNone
               \/ exists q : float, r !! "inertia_ratio" = Some (VFloat q))
           /\ (PrimFloat.ltb 0 hull_area = false ->
               r !! "convexity" = Some VNone)
           /\ (PrimFloat.ltb 0 hull_area = true ->
               r !! "convexity"
               = Some (VFloat (PrimFloat.div (Ref.contourArea cnt)
                                 hull_area))))
          /\ r !! "halo_eccentricity" <> Some VNone.
Proof.
  intros img roi mask r.
  assert (@roi_mask Ref.extern img roi = Ok (Some mask)) as H1
    by vm_refl.
  assert (np_any mask = true) as H2 by vm_refl.
  assert (@compute_metrics Ref.extern img roi PyNone true true true = Ok r)
    as H3 by vm_refl.
  split; [exact H1|]. split; [exact H2|]. split; [exact H3|].
  split; [vm_refl|].
  split; [vm_refl|].
  split; [vm_refl|].
  destruct (@undefined_fields_null_or_absent Ref.extern img roi PyNone true
              true true mask r H1 H2 H3) as (th & Hth & _ & _ & Hs & Hh & _).
  exists th. split; [exact Hth|]. split; [exact (Hs eq_refl)|exact Hh].
Defined.

(** C3 fails as stated: on an ROI whose only pixel is bright the object
    mask is empty and no contour exists; with all three groups requested
    the record holds no shape field and no [halo_eccentricity] at all,
    rather than holding them with a null value. *)
Lemma shape_fields_omitted_without_contour :
  exists r : gmap string value,
    @compute_metrics Ref.extern Sample.pair Sample.dot PyNone true true true
    = Ok r
    /\ r !! "contours" = Some (VContours [])
    /\ r !! "mask_full" = Some (VMask [[false; false]])
    /\ r !! "area_px" = Some (VInt 0)
    /\ r !! "mean_I" = Some VNone
    /\ r !! "perimeter_px" = None
    /\ r !! "circularity" = None
    /\ r !! "inertia_ratio" = None
    /\ r !! "convexity" = None
    /\ r !! "halo_eccentricity" = None.
Proof.
  exists (Sample.record_of
            (Sample.run Sample.pair Sample.dot PyNone true true true)).
  repeat split; vm_refl.
Qed.

Lemma area_mm2_needs_area_px_witness :
  let r := Sample.record_of
             (Sample.run Sample.blot Sample.disc (PyInt 10) true false false)
  in
  @compute_metrics Ref.extern Sample.blot Sample.disc (PyInt 10)
    true false false = Ok r
  /\ positive_number (PyInt 10)
  /\ r !! "area_px" = Some (VInt 25)
  /\ r !! "area_mm2" = Some (VFloat 0.25)
  /\ exists (d : pyval) (q : float),
       pow2 (PyInt 10) = Ok d /\ int_truediv 25 d = Ok q
       /\ r !! "area_mm2" = Some (VFloat q).
Proof.
  intros r.
  assert (@compute_metrics Ref.extern Sample.blot Sample.disc (PyInt 10)
            true false false = Ok r) as H by vm_refl.
  assert (positive_number (PyInt 10)) as Hp by (simpl; lia).
  assert (r !! "area_px" = Some (VInt 25)) as Ha by vm_refl.
  split; [exact H|]. split; [exact Hp|]. split; [exact Ha|].
  split; [vm_refl|].
  destruct (@area_mm2_needs_area_px Ref.extern Sample.blot Sample.disc
              (PyInt 10) true false false) as (Hr & _).
  destruct (Hr r H) as (Hq & _).
  exact (Hq Hp 25 Ha).
Defined.

(** C4 against the code.  Lines 150-153 take the first axis of the fitted
    box as the semi-major one without ordering the two.  With the shorter
    axis first, which is the order OpenCV returns them in, the radicand
    [1 - (b*b)/(a*a)] is negative and the stored value is NaN, outside
    [0,1); the same axes in the other order give the eccentricity the claim
    describes. *)
Theorem halo_eccentricity_with_minor_axis_first :
  eccentricity_of_axes (40, 80)%float = Ok (Some PrimFloat.nan)
  /\ eccentricity_of_axes (80, 40)%float
     = Ok (Some (PrimFloat.sqrt (1 - 0.25)%float))
  /\ PrimFloat.ltb (PrimFloat.sqrt (1 - 0.25)%float) 1 = true
  /\ PrimFloat.leb 0 PrimFloat.nan = false
  /\ PrimFloat.ltb PrimFloat.nan 1 = false.
Proof. repeat split; vm_refl. Qed.

(** The value stored under [halo_eccentricity], for any library: the one
    lines 150-153 compute from the axes fitted to the largest halo contour,
    when that contour has at least 5 points. *)
Lemma halo_eccentricity_value {lib : Extern} (om : list (list Z))
    (res res' : gmap string value) (h0 : list (Z * Z))
    (hs : list (list (Z * Z))) :
  halo_metrics om res = Ok res' ->
  res !! "halo_eccentricity" = None ->
  halo_contours om = h0 :: hs ->
  let hc := max_by contourArea h0 hs in
  (5 <= length hc)%nat ->
  exists e : option float,
    eccentricity_of_axes (snd (fst (fitEllipse hc))) = Ok e
    /\ res' !! "halo_eccentricity" = VFloat <$> e.
Proof.
  intros H Hno Hh hc Hlen.
  destruct (halo_metrics_spec _ _ _ H Hno) as [_ Hc].
  by destruct (Hc h0 hs Hh) as [_ Hge]; apply Hge.
Qed.

(** ** Caller metadata *)

Section MetadataFacts.
Context {lib : Extern}.

Lemma roi_mask_geometry (img : image) (roi roi' : ROI) :
  roi_type roi' = roi_type roi ->
  roi_points roi' = roi_points roi ->
  roi_center roi' = roi_center roi ->
  roi_radius roi' = roi_radius roi ->
  roi_mask img roi' = roi_mask img roi.
Proof.
  intros Ht Hp Hc Hr. unfold roi_mask, roi_is. by rewrite Ht, Hp, Hc, Hr.
Qed.

Lemma compute_metrics_no_metadata img roi px (di ds dh : bool)
    (r : gmap string value) k :
  among (intensity_keys ++ shape_keys ++ halo_keys ++ conversion_keys
         ++ ["contours"; "mask_full"]) k = false ->
  compute_metrics img roi px di ds dh = Ok r -> r !! k = None.
Proof.
  intros Hk Hr. unfold among in Hk. rewrite !existsb_app in Hk.
  apply orb_false_elim in Hk as [Hi Hk].
  apply orb_false_elim in Hk as [Hs Hk].
  apply orb_false_elim in Hk as [Hh Hk].
  apply orb_false_elim in Hk as [Hc Hb].
  destruct (compute_metrics_cases img roi px di ds dh)
    as [[E C]|[(e & E & C)|[(m & E & F & C)|(m & th & E & F & Hth & C)]]];
    rewrite C in Hr; try done; try (by injection Hr as <-).
  rewrite (metrics_of_mask_base _ _ _ _ _ _ _ _ k) by
    (try exact Hr; unfold among; rewrite !existsb_app;
     by rewrite Hi, Hs, Hh, Hc).
  unfold base_record. other_key Hb.
Qed.

End MetadataFacts.

(** C8, as the code has it.  The record [compute_metrics] returns never
    holds the caller metadata, and the call does not depend on it: two ROIs
    with the same tag and geometry give the same outcome.  The metadata
    enters the record the caller keeps for the ROI ([main], lines 50-55),
    where [label], [ink_key] and [rep] are the ROI's own values, unchanged,
    whatever [compute_metrics] returned. *)
Theorem metadata_passed_by_caller {lib : Extern} (session : Session)
    (img : image) (roi : ROI) :
  (forall (px : pyval) (di ds dh : bool) (r : gmap string value),
      compute_metrics img roi px di ds dh = Ok r ->
      r !! "label" = None /\ r !! "ink_key" = None /\ r !! "rep" = None)
  /\ (forall (roi' : ROI) (px : pyval) (di ds dh : bool),
        roi_type roi' = roi_type roi ->
        roi_points roi' = roi_points roi ->
        roi_center roi' = roi_center roi ->
        roi_radius roi' = roi_radius roi ->
        compute_metrics img roi' px di ds dh
        = compute_metrics img roi px di ds dh)
  /\ (forall rec : gmap string value,
        roi_record session img roi = Ok rec ->
        rec !! "label" = Some (roi_label roi)
        /\ rec !! "ink_key" = Some (roi_ink_key roi)
        /\ rec !! "rep" = Some (roi_rep roi))
  /\ is_ok (roi_record session img roi)
     = is_ok (compute_metrics img roi (session_px_per_mm session)
                (analysis_intensity session) (analysis_shape session)
                (analysis_halo session)).
Proof.
  split; [|split; [|split]].
  - intros px di ds dh r Hr.
    repeat split; by apply (compute_metrics_no_metadata img roi px di ds dh).
  - intros roi' px di ds dh Ht Hp Hc Hr. unfold compute_metrics.
    by rewrite (roi_mask_geometry img roi roi' Ht Hp Hc Hr).
  - intros rec. unfold roi_record.
    intros (metrics & _ & [= <-])%bind_Ok.
    repeat split; repeat (rewrite lookup_insert_ne by done);
      by rewrite lookup_insert_eq.
  - unfold roi_record. by destruct (compute_metrics _ _ _ _ _ _).
Qed.

(** C8 fails as stated: the ROI carries the label ["A1"], the key 2 and
    the replicate 3, and the record [compute_metrics] returns for it holds
    none of them. *)
Lemma compute_metrics_drops_metadata :
  roi_label Sample.disc = VStr "A1"
  /\ exists r : gmap string value,
       @compute_metrics Ref.extern Sample.blot Sample.disc (PyInt 10)
         true true true = Ok r
       /\ r !! "area_px" = Some (VInt 25)
       /\ r !! "label" = None
       /\ r !! "ink_key" = None
       /\ r !! "rep" = None.
Proof.
  split; [reflexivity|].
  exists (Sample.record_of
            (Sample.run Sample.blot Sample.disc (PyInt 10) true true true)).
  repeat split; vm_refl.
Qed.

Lemma metadata_passed_by_caller_witness :
  let s := Sample.session (PyInt 10) true true true in
  let rec := Sample.record_of (@roi_record Ref.extern s Sample.blot
                                 Sample.disc) in
  @roi_record Ref.extern s Sample.blot Sample.disc = Ok rec
  /\ rec !! "label" = Some (VStr "A1")
  /\ rec !! "ink_key" = Some (VInt 2)
  /\ rec !! "rep" = Some (VInt 3).
Proof.
  intros s rec.
  assert (@roi_record Ref.extern s Sample.blot Sample.disc = Ok rec) as H
    by vm_refl.
  split; [exact H|].
  destruct (@metadata_passed_by_caller Ref.extern s Sample.blot Sample.disc)
    as (_ & _ & Hrec & _).
  exact (Hrec rec H).
Defined.

(** ** The store *)

Module StoreFacts.
Import Store.

Lemma wp_ret {A} (a : A) Q s : Q (Ok a) s -> wp (mret a) Q s.
Proof. done. Qed.

Lemma wp_lift {A} (m : result A) Q s : Q m s -> wp (lift m) Q s.
Proof. done. Qed.

Lemma wp_bind {A B} (m : St A) (f : A -> St B) Q s :
  wp m (fun r s' => match r with
                    | Ok a => wp (f a) Q s'
                    | Raise e => Q (Raise e) s'
                    end) s ->
  wp (m ≫= f) Q s.
Proof.
  unfold wp, mbind, St_bind. by destruct (m s) as [[a|e] s'].
Qed.

Lemma wp_alloc (a : ndarray) Q s :
  (forall l, s !! l = None -> Q (Ok l) (<[l := a]> s)) -> wp (alloc a) Q s.
Proof.
  intros H. unfold wp, alloc. simpl. apply H.
  apply not_elem_of_dom, is_fresh.
Qed.

Lemma wp_store (l : loc) (a : ndarray) Q s :
  Q (Ok tt) (<[l := a]> s) -> wp (store_at l a) Q s.
Proof. done. Qed.

Lemma wp_load (l : loc) (a : ndarray) Q s :
  s !! l = Some a -> Q (Ok a) s -> wp (load l) Q s.
Proof. intros H. unfold wp, load. by rewrite H. Qed.

Lemma wp_load_u8 (l : loc) (g : list (list Z)) Q s :
  s !! l = Some (U8 g) -> Q (Ok g) s -> wp (load_u8 l) Q s.
Proof.
  intros H HQ. unfold load_u8. apply wp_bind.
  by apply (wp_load l (U8 g)).
Qed.

Lemma wp_load_bools (l : loc) (b : list (list bool)) Q s :
  s !! l = Some (Bools b) -> Q (Ok b) s -> wp (load_bools l) Q s.
Proof.
  intros H HQ. unfold load_bools. apply wp_bind.
  by apply (wp_load l (Bools b)).
Qed.

Section Code.
Context {lib : Extern}.

(** [to_gray_at] only allocates, and the array it names holds the
    grayscale image. *)
Lemma wp_to_gray_at (im : loc) (img : image) Q s :
  s !! im = Some (of_image img) ->
  (forall gray s',
      s ⊆ s' -> s' !! gray = Some (U8 (to_gray img)) -> Q (Ok gray) s') ->
  wp (to_gray_at im) Q s.
Proof.
  intros Himg HQ. unfold to_gray_at.
  apply wp_bind, (wp_load im (of_image img)); [done|].
  apply wp_bind, wp_lift. destruct img as [g|c]; simpl.
  - apply wp_ret, HQ; done.
  - apply wp_alloc. intros l Hl. apply HQ.
    + by apply insert_subseteq.
    + by rewrite lookup_insert_eq.
Qed.

(** [threshold_image_at] only allocates; it raises when
    [threshold_image] does, and the array it returns otherwise holds the
    classification. *)
Lemma wp_threshold_image_at (im : loc) (img : image) Q s :
  s !! im = Some (of_image img) ->
  (forall e s', s ⊆ s' -> threshold_image img = Raise e -> Q (Raise e) s') ->
  (forall l th s',
      s ⊆ s' -> threshold_image img = Ok th -> s' !! l = Some (Bools th) ->
      Q (Ok l) s') ->
  wp (threshold_image_at im) Q s.
Proof.
  intros Himg HQe HQ. unfold threshold_image_at.
  apply wp_bind, (wp_to_gray_at im img); [done|].
  intros gray s1 H01 Hgray.
  apply wp_bind, (wp_load_u8 gray (to_gray img)); [done|].
  apply wp_bind, wp_lift.
  destruct (cv2_threshold_otsu (to_gray img) 255) as [[t thresh]|e] eqn:Hcv.
  - apply wp_bind, wp_alloc. intros lt Hlt. simpl.
    apply wp_bind, (wp_load_u8 lt thresh); [by rewrite lookup_insert_eq|].
    apply wp_alloc. intros l Hl. apply (HQ l (astype_bool thresh)).
    + etrans; [exact H01|]. etrans; [by apply insert_subseteq|].
      by apply insert_subseteq.
    + unfold threshold_image. by rewrite Hcv.
    + by rewrite lookup_insert_eq.
  - apply HQe; [done|]. unfold threshold_image. by rewrite Hcv.
Qed.

Lemma fresh_ne (s : gmap positive ndarray) (l x : positive) (v : ndarray) :
  s !! l = None -> s !! x = Some v -> l <> x.
Proof. intros Hl Hx ->. congruence. Qed.

Lemma keep_alloc (s : gmap positive ndarray) (l x : positive)
    (a v : ndarray) :
  s !! l = None -> s !! x = Some v -> <[l := a]> s !! x = Some v.
Proof.
  intros Hl Hx. rewrite lookup_insert_ne; [done|]. by eapply fresh_ne.
Qed.

Lemma keep_write (s s0 : gmap positive ndarray) (l x : positive)
    (a v : ndarray) :
  s0 !! l = None -> s0 ⊆ s -> s0 !! x = Some v ->
  <[l := a]> s !! x = Some v.
Proof.
  intros Hl Hs Hx. rewrite lookup_insert_ne.
  - by eapply lookup_weaken.
  - by eapply fresh_ne.
Qed.

(** [metrics_of_mask_at] writes in place only the object mask it has
    allocated itself, and computes what [metrics_of_mask] computes. *)
Lemma wp_metrics_of_mask_at (im gray mask : loc) (img : image)
    (m : list (list Z)) px (di ds dh : bool) (s0 : gmap positive ndarray)
    Q s :
  s0 ⊆ s ->
  s !! im = Some (of_image img) ->
  s !! gray = Some (U8 (to_gray img)) ->
  s !! mask = Some (U8 m) ->
  (forall s',
      s0 ⊆ s' ->
      Q (th ← threshold_image img; metrics_of_mask th img m px di ds dh) s') ->
  wp (metrics_of_mask_at im gray mask px di ds dh) Q s.
Proof.
  intros H0 Him Hgray Hmask HQ. unfold metrics_of_mask_at.
  apply wp_bind, (wp_threshold_image_at im img); [done| |].
  { intros e s1 H1 He. specialize (HQ s1 ltac:(by etrans)).
    by rewrite He in HQ. }
  intros gt th s1 H1 Hth Hgt.
  pose proof (lookup_weaken _ _ _ _ Hgray H1) as Hgray1.
  pose proof (lookup_weaken _ _ _ _ Hmask H1) as Hmask1.
  assert (s0 ⊆ s1) as H01 by (by etrans).
  apply wp_bind, (wp_load_u8 mask m); [done|].
  apply wp_bind, wp_alloc. intros om Hom.
  pose proof (lookup_weaken_None _ _ _ Hom H01) as Hom0.
  apply wp_bind, (wp_load_bools gt th); [by eapply keep_alloc|].
  apply wp_bind, wp_alloc. intros ix Hix.
  apply wp_bind. eapply wp_load_bools; [by rewrite lookup_insert_eq|].
  assert (<[om:=U8 (np_zeros_like m)]> s1 !! om
          = Some (U8 (np_zeros_like m))) as Hom2
    by (by rewrite lookup_insert_eq).
  apply wp_bind, (wp_load_u8 om (np_zeros_like m));
    [by eapply keep_alloc|].
  apply wp_bind, wp_store.
  apply wp_bind. eapply wp_load_u8; [by rewrite lookup_insert_eq|].
  fold (object_mask_of th m).
  apply wp_bind, wp_alloc. intros mf Hmf.
  apply wp_bind. eapply wp_load_bools; [by rewrite lookup_insert_eq|].
  assert (s0 ⊆ <[mf:=Bools (astype_bool (object_mask_of th m))]>
                 (<[om:=U8 (object_mask_of th m)]>
                    (<[ix:=Bools (np_and (np_invert th) (astype_bool m))]>
                       (<[om:=U8 (np_zeros_like m)]> s1)))) as H05.
  { etrans; [|by apply insert_subseteq].
    apply insert_subseteq_r; [done|].
    etrans; [|by apply insert_subseteq].
    by apply insert_subseteq_r. }
  apply wp_bind, (wp_load_u8 gray (to_gray img)).
  { apply keep_alloc; [done|].
    rewrite lookup_insert_ne.
    - apply keep_alloc; [done|]. by eapply keep_alloc.
    - eapply fresh_ne; [exact Hom|exact Hgray1]. }
  apply wp_bind, wp_lift. specialize (HQ _ H05). rewrite Hth in HQ.
  simpl in HQ. unfold metrics_of_mask in HQ.
  fold (base_record th m) in HQ. revert HQ.
  unfold base_record.
  match goal with
  | |- context [(if ds then ?x else ?y) ≫= _] =>
      destruct (if ds then x else y) as [r2|e]; simpl; [|done]
  end.
  intros HQ. apply wp_bind, wp_lift. revert HQ.
  match goal with
  | |- context [(if dh then ?x else ?y) ≫= _] =>
      destruct (if dh then x else y) as [r3|e]; simpl; [|done]
  end.
  intros HQ. by apply wp_lift.
Qed.

Lemma as_image_of_image (img : image) : as_image (of_image img) = Ok img.
Proof. by destruct img. Qed.

(** The drawing calls write into the mask [compute_metrics_at] has
    allocated; nothing else is written in place before line 78. *)
Lemma wp_compute_metrics_at (im : loc) (img : image) (roi : ROI) px
    (di ds dh : bool) Q s :
  s !! im = Some (of_image img) ->
  (forall s', s ⊆ s' -> Q (compute_metrics img roi px di ds dh) s') ->
  wp (compute_metrics_at im roi px di ds dh) Q s.
Proof.
  intros Him HQ. unfold compute_metrics_at.
  apply wp_bind, (wp_load im (of_image img)); [done|].
  apply wp_bind, wp_lift. rewrite as_image_of_image.
  apply wp_bind, wp_alloc. intros ms Hms.
  set (zeros := np_zeros (image_shape2 img)).
  assert (<[ms:=U8 zeros]> s !! ms = Some (U8 zeros)) as Hz
    by (by rewrite lookup_insert_eq).
  assert (forall m' : list (list Z),
             s ⊆ <[ms:=U8 m']> (<[ms:=U8 zeros]> s)) as Hsub.
  { intros m'. apply insert_subseteq_r; [done|]. by apply insert_subseteq. }
  assert (forall (m' : list (list Z)) Q',
             (forall s', s ⊆ s' ->
                         Q' (if negb (np_any m') then Ok ∅
                             else th ← threshold_image img;
                                  metrics_of_mask th img m' px di ds dh)
                            s') ->
             wp (gray ← to_gray_at im;
                 g ← load_u8 gray;
                 m ← load_u8 ms;
                 roi_gray ← alloc (U8 (cv2_bitwise_and g g m));
                 m ← load_u8 ms;
                 if negb (np_any m) then mret ∅
                 else metrics_of_mask_at im gray ms px di ds dh)
                Q' (<[ms:=U8 m']> (<[ms:=U8 zeros]> s))) as Hrest.
  { intros m' Q' HQ'.
    apply wp_bind, (wp_to_gray_at im img).
    { eapply keep_write; [exact Hms|by apply insert_subseteq|exact Him]. }
    intros gray s3 H3 Hgray.
    assert (s3 !! ms = Some (U8 m')) as Hms3.
    { eapply lookup_weaken; [|exact H3]. by rewrite lookup_insert_eq. }
    assert (s3 !! im = Some (of_image img)) as Him3.
    { eapply lookup_weaken; [|exact H3].
      eapply keep_write; [exact Hms|by apply insert_subseteq|exact Him]. }
    assert (s ⊆ s3) as H03 by (etrans; [apply (Hsub m')|exact H3]).
    apply wp_bind, (wp_load_u8 gray (to_gray img)); [done|].
    apply wp_bind, (wp_load_u8 ms m'); [done|].
    apply wp_bind, wp_alloc. intros rg Hrg.
    apply wp_bind, (wp_load_u8 ms m'); [by eapply keep_alloc|].
    destruct (negb (np_any m')) eqn:Hany.
    - apply wp_ret. apply HQ'.
      etrans; [exact H03|]. by apply insert_subseteq.
    - apply (wp_metrics_of_mask_at im gray ms img m' px di ds dh s).
      + etrans; [exact H03|]. by apply insert_subseteq.
      + by eapply keep_alloc.
      + by eapply keep_alloc.
      + by eapply keep_alloc.
      + intros s' Hs'. by apply HQ'. }
  unfold compute_metrics, roi_mask in HQ.
  apply wp_bind.
  destruct (roi_is roi "polygon").
  - apply wp_bind, wp_lift. fold zeros in HQ.
    destruct (np_array_int32 (roi_points roi)) as [pts|e]; simpl in *;
      [|apply HQ; by apply insert_subseteq].
    apply wp_bind. unfold cv2_fillPoly_at.
    apply wp_bind, (wp_load_u8 ms zeros); [done|].
    apply wp_bind, wp_lift.
    destruct (cv2_fillPoly zeros pts 255) as [m'|e]; simpl in *.
    + apply wp_store, wp_ret. simpl. by apply Hrest.
    + apply HQ. by apply insert_subseteq.
  - destruct (roi_is roi "circle").
    + apply wp_bind. unfold cv2_circle_at.
      apply wp_bind, (wp_load_u8 ms zeros); [done|].
      apply wp_bind, wp_lift. fold zeros in HQ.
      unfold py_int in *. destruct (roi_center roi) as [cx cy]; simpl in *.
      destruct (cv2_circle zeros (cx, cy) (roi_radius roi) 255)
        as [m'|e]; simpl in *.
      * apply wp_store, wp_ret. simpl. by apply Hrest.
      * apply HQ. by apply insert_subseteq.
    + apply wp_ret. simpl. apply wp_ret. apply HQ.
      by apply insert_subseteq.
Qed.

End Code.

End StoreFacts.

(** C9.  Whatever the store holds and whatever the outcome, a call of
    [compute_metrics] leaves every array that existed before the call as it
    was, the image among them: the store after the call extends the store
    before it, so all that the call writes lies in arrays it has allocated
    itself.  The outcome is that of the function of the image value. *)
Theorem compute_metrics_leaves_image_unchanged {lib : Extern}
    (s : gmap positive Store.ndarray) (im : positive) (roi : ROI)
    (px_per_mm : pyval) (do_intensity do_shape do_halo : bool) :
  let run := Store.compute_metrics_at im roi px_per_mm do_intensity
               do_shape do_halo s in
  let s' := snd run in
  s' !! im = s !! im
  /\ s ⊆ s'
  /\ (forall l : positive, l ∈ dom s -> s' !! l = s !! l)
  /\ (forall img : image,
        s !! im = Some (Store.of_image img) ->
        fst run
        = compute_metrics img roi px_per_mm do_intensity do_shape do_halo).
Proof.
  intros run s'.
  assert (s ⊆ s'
          /\ forall img : image,
               s !! im = Some (Store.of_image img) ->
               fst run
               = compute_metrics img roi px_per_mm do_intensity do_shape
                   do_halo) as [Hsub Hrun].
  { destruct (s !! im) as [a|] eqn:Him.
    - destruct (Store.as_image a) as [img|e] eqn:Ha.
      + assert (a = Store.of_image img) as ->
          by (destruct a; simpl in Ha; try discriminate;
              by injection Ha as <-).
        pose proof (StoreFacts.wp_compute_metrics_at im img roi px_per_mm
                      do_intensity do_shape do_halo
                      (fun res t =>
                         s ⊆ t
                         /\ res = compute_metrics img roi px_per_mm
                                    do_intensity do_shape do_halo)
                      s Him) as H.
        unfold Store.wp in H. destruct H as [H1 H2]; [done|].
        split; [exact H1|]. intros img' [= E].
        assert (img' = img) as ->
          by (destruct img, img'; simpl in E; congruence).
        exact H2.
      + subst run s'. unfold Store.compute_metrics_at, mbind, Store.St_bind,
          Store.load, Store.lift. rewrite Him, Ha. simpl.
        split; [done|]. intros img E.
        destruct a, img; simpl in *; congruence.
    - subst run s'. unfold Store.compute_metrics_at, mbind, Store.St_bind,
        Store.load. rewrite Him. simpl. split; [done|]. intros img [=]. }
  assert (forall l : positive, l ∈ dom s -> s' !! l = s !! l) as Hframe.
  { intros l [v Hv]%elem_of_dom. rewrite Hv.
    by apply (lookup_weaken s s' l v). }
  split; [|by repeat split].
  destruct (s !! im) as [a|] eqn:Him.
  - by apply (lookup_weaken s s' im a).
  - destruct (s' !! im) as [a|] eqn:Him'; [|done].
    exfalso. revert Him'. subst run s'.
    unfold Store.compute_metrics_at, mbind, Store.St_bind, Store.load.
    rewrite Him. simpl. congruence.
Qed.

Lemma compute_metrics_leaves_image_unchanged_witness :
  let s : gmap positive Store.ndarray :=
    {[ 1%positive := Store.of_image Sample.pair_bgr;
       2%positive := Store.Bools [[true]] ]} in
  let run := @Store.compute_metrics_at Ref.extern 1%positive Sample.disc
               (PyInt 10) true true true s in
  s !! 1%positive = Some (Store.of_image Sample.pair_bgr)
  /\ snd run !! 1%positive = Some (Store.of_image Sample.pair_bgr)
  /\ snd run !! 2%positive = Some (Store.Bools [[true]])
  /\ size (snd run) = 11%nat
  /\ fst run
     = @compute_metrics Ref.extern Sample.pair_bgr Sample.disc (PyInt 10)
         true true true.
Proof.
  intros s run.
  assert (s !! 1%positive = Some (Store.of_image Sample.pair_bgr)) as H
    by vm_refl.
  destruct (@compute_metrics_leaves_image_unchanged Ref.extern s 1%positive
              Sample.disc (PyInt 10) true true true) as (Him & _ & Hfr & Hrun).
  split; [exact H|]. split; [|split; [|split]].
  - fold run in Him. rewrite Him. exact H.
  - fold run in Hfr. rewrite Hfr; [vm_refl|].
    apply elem_of_dom. vm_compute. eauto.
  - vm_compute. reflexivity.
  - exact (Hrun Sample.pair_bgr H).
Defined.

(** Outside the amended C2: a positive [float] whose square leaves the
    binary64 range makes line 158 raise. *)
Lemma area_conversion_extreme_floats {lib : Extern} :
  area_conversion (PyFloat 0x1p+600%float) {[ "area_px" := VInt 5 ]}
  = Raise OverflowError
  /\ area_conversion (PyFloat 0x1p-600%float) {[ "area_px" := VInt 5 ]}
     = Raise ZeroDivisionError.
Proof. split; vm_refl. Qed.


Lemma empty_record_iff_unsupported_or_empty_mask_witness :
  @compute_metrics Ref.extern Sample.blot Sample.ruler (PyInt 10)
    true true true = Ok ∅
  /\ @roi_mask Ref.extern Sample.blot Sample.far
     = Ok (Some (np_zeros (7%nat, 7%nat)))
  /\ @compute_metrics Ref.extern Sample.blot Sample.far (PyInt 10)
       true true true = Ok ∅
  /\ @compute_metrics Ref.extern Sample.blot Sample.disc (PyInt 10)
       true true true <> Ok ∅.
Proof.
  destruct (@empty_record_iff_unsupported_or_empty_mask Ref.extern
              Sample.blot Sample.ruler (PyInt 10) true true true)
    as [_ Hruler].
  destruct (@empty_record_iff_unsupported_or_empty_mask Ref.extern
              Sample.blot Sample.far (PyInt 10) true true true)
    as [[_ Hfar] _].
  destruct (@empty_record_iff_unsupported_or_empty_mask Ref.extern
              Sample.blot Sample.disc (PyInt 10) true true true)
    as [[Hdisc _] _].
  assert (@roi_mask Ref.extern Sample.blot Sample.far
          = Ok (Some (np_zeros (7%nat, 7%nat)))) as Hm
    by vm_refl.
  split; [|split; [exact Hm|split]].
  - apply Hruler. split; vm_refl.
  - apply Hfar. right. eexists. split; [exact Hm|]. vm_compute. reflexivity.
  - intros E. destruct (Hdisc E) as [[Hp Hc]|(m & Hmask & Hany)].
    + vm_compute in Hc. discriminate.
    + vm_compute in Hmask. injection Hmask as <-.
      vm_compute in Hany. discriminate.
Defined.

(** ** The rasterized ROI: what the record says about it *)

(** X1.  The mask [compute_metrics] rasterizes for a supported ROI has the
    shape of the image and holds 255 exactly at the pixels the drawing call
    covers, 0 at the others; it has a set pixel exactly when the ROI covers
    a pixel inside the image. *)
Theorem roi_mask_pixels {lib : Extern} (img : image) (roi : ROI)
    (mask : list (list Z)) :
  roi_mask img roi = Ok (Some mask) ->
  let h := fst (image_shape2 img) in
  let w := snd (image_shape2 img) in
  (forall y x : nat,
      pixel mask y x
      = if (y <? h)%nat && (x <? w)%nat
        then Some (if roi_covers roi (Z.of_nat x) (Z.of_nat y)
                   then 255 else 0)
        else None)
  /\ (np_any mask = true
      <-> exists y x : nat,
            (y < h)%nat /\ (x < w)%nat
            /\ roi_covers roi (Z.of_nat x) (Z.of_nat y) = true).
Proof.
  intros Hmask h w.
  pose proof (fun y x => roi_mask_pixel img roi mask y x Hmask) as Hpx.
  fold h w in Hpx.
  split; [exact Hpx|].
  rewrite np_any_pixel. split.
  - intros (y & x & v & Hp & Hnz). rewrite Hpx in Hp. exists y, x.
    destruct (Nat.ltb_spec y h), (Nat.ltb_spec x w); simpl in Hp; try done.
    destruct (roi_covers roi _ _); [done|]. congruence.
  - intros (y & x & Hy & Hx & Hc). exists y, x, 255. rewrite Hpx, Hc.
    apply Nat.ltb_lt in Hy, Hx. by rewrite Hy, Hx.
Qed.

Lemma roi_mask_pixels_witness :
  let img := Sample.blot in
  let roi := Sample.dot in
  let mask := Sample.mask_of img roi in
  @roi_mask Ref.extern img roi = Ok (Some mask)
  /\ pixel mask 0 1 = Some 255
  /\ pixel mask 3 3 = Some 0
  /\ pixel mask 7 0 = None
  /\ np_any mask = true.
Proof.
  intros img roi mask.
  assert (@roi_mask Ref.extern img roi = Ok (Some mask)) as H
    by vm_refl.
  destruct (@roi_mask_pixels Ref.extern img roi mask H) as [Hpx Hany].
  split; [exact H|]. split; [|split; [|split]].
  - rewrite Hpx. vm_refl.
  - rewrite Hpx. vm_refl.
  - rewrite Hpx. vm_refl.
  - apply Hany. exists 0%nat, 1%nat.
    split; [simpl; lia|]. split; [simpl; lia|]. vm_refl.
Defined.

(** ** Shapes and bounds *)

Lemma rectangular_pixel {A} (a : list (list A)) (y x : nat) :
  rectangular a ->
  is_Some (pixel a y x)
  <-> (y < fst (shape2 a))%nat /\ (x < snd (shape2 a))%nat.
Proof.
  unfold rectangular, pixel. intros Hrect. rewrite Forall_lookup in Hrect.
  simpl fst. split.
  - destruct (a !! y) as [row|] eqn:Hy; simpl; [|by intros [? [=]]].
    intros Hx. apply lookup_lt_is_Some in Hx.
    rewrite (Hrect y row Hy) in Hx. split; [|done].
    by apply lookup_lt_Some in Hy.
  - intros [Hy Hx]. apply lookup_lt_is_Some in Hy as [row Hy].
    rewrite Hy. simpl. apply lookup_lt_is_Some.
    by rewrite (Hrect y row Hy).
Qed.

Section ShapeFacts2.
Context {lib : Extern}.

Lemma to_gray_defined (img : image) (y x : nat) :
  image_rectangular img ->
  is_Some (pixel (to_gray img) y x)
  <-> (y < fst (image_shape2 img))%nat /\ (x < snd (image_shape2 img))%nat.
Proof.
  destruct img as [g|c]; simpl; intros Hrect.
  - by apply rectangular_pixel.
  - rewrite pixel_map2d, fmap_is_Some. by apply rectangular_pixel.
Qed.

Lemma count_true_row_le (f : bool -> bool) (rt rm : list bool) :
  (length (filter (fun b : bool => b = true)
             (zip_with (fun c m => f c && m) rt rm))
   <= length (filter (fun b : bool => b = true) rm))%nat.
Proof.
  revert rm. induction rt as [|c rt IH]; intros [|m rm]; simpl; try lia.
  rewrite !filter_cons. specialize (IH rm).
  destruct (f c), m; simpl; lia.
Qed.

Lemma count_true_zip_le (f : bool -> bool) (th mb : list (list bool)) :
  (count_true (zip2d (fun c m => f c && m) th mb) <= count_true mb)%nat.
Proof.
  unfold count_true, zip2d. revert mb.
  induction th as [|rt th IH]; intros [|rm mb]; csimpl; try lia.
  specialize (IH mb). pose proof (count_true_row_le f rt rm). lia.
Qed.

Lemma count_true_le_size (a : list (list bool)) :
  (count_true a <= sum_list (length <$> a))%nat.
Proof.
  unfold count_true. induction a as [|row a IH]; csimpl; [lia|].
  pose proof (length_filter (fun b : bool => b = true) row). lia.
Qed.

Lemma size_imap {A B} (f : nat -> list A -> list B) (a : list (list A)) :
  (forall i row, length (f i row) = length row) ->
  sum_list (length <$> imap f a) = sum_list (length <$> a).
Proof.
  revert f. induction a as [|row a IH]; intros f Hf; csimpl; [done|].
  rewrite Hf. f_equal. apply IH. intros i r. apply Hf.
Qed.

Lemma size_np_zeros (h w : nat) :
  sum_list (length <$> np_zeros (h, w)) = (h * w)%nat.
Proof.
  unfold np_zeros. simpl fst. simpl snd.
  induction h as [|h IH]; csimpl; [done|].
  rewrite length_replicate. by rewrite IH.
Qed.

Lemma roi_mask_size (img : image) (roi : ROI) (mask : list (list Z)) :
  roi_mask img roi = Ok (Some mask) ->
  sum_list (length <$> mask)
  = (fst (image_shape2 img) * snd (image_shape2 img))%nat.
Proof.
  intros ->%roi_mask_is_paint.
  unfold paint. rewrite size_imap.
  - destruct (image_shape2 img) as [h w]. apply size_np_zeros.
  - intros i row. apply length_imap.
Qed.

Lemma samples_row_dark (t : Z) (rg : list Z) (rm : list bool) :
  Forall (fun v => v <= t)
    (take_where rg
       (zip_with (fun (c : bool) (m : bool) => negb c && m)
          ((fun v => t <? v) <$> rg) rm)).
Proof.
  revert rm. induction rg as [|v rg IH]; intros [|m rm]; simpl;
    try by constructor.
  destruct (Z.ltb_spec t v), m; simpl; try apply IH.
  constructor; [lia|apply IH].
Qed.

Lemma samples_dark (t : Z) (g : list (list Z)) (mb : list (list bool)) :
  Forall (fun v => v <= t)
    (bool_index g
       (zip2d (fun (c : bool) (m : bool) => negb c && m)
          (map2d (fun v => t <? v) g) mb)).
Proof.
  unfold bool_index, zip2d, map2d. revert mb.
  induction g as [|rg g IH]; intros [|rm mb]; simpl; try by constructor.
  apply Forall_app. split; [apply samples_row_dark|apply IH].
Qed.

End ShapeFacts2.

(** X2.  For an image given as a rectangular array, the object mask in the
    record has exactly the shape of the image: it has a pixel at row [y],
    column [x] exactly when the image has one. *)
Theorem mask_full_has_image_shape {lib : Extern} (img : image) (roi : ROI)
    (px_per_mm : pyval) (do_intensity do_shape do_halo : bool)
    (mask : list (list Z)) (r : gmap string value) :
  image_rectangular img ->
  roi_mask img roi = Ok (Some mask) ->
  np_any mask = true ->
  compute_metrics img roi px_per_mm do_intensity do_shape do_halo = Ok r ->
  exists object_mask : list (list bool),
    r !! "mask_full" = Some (VMask object_mask)
    /\ forall y x : nat,
         is_Some (pixel object_mask y x)
         <-> (y < fst (image_shape2 img))%nat
             /\ (x < snd (image_shape2 img))%nat.
Proof.
  intros Hrect Hmask Hany Hr.
  destruct (compute_metrics_cases img roi px_per_mm do_intensity do_shape
              do_halo) as [[E _]|[(e & E & _)|[(m & E & F & _)|(m & th & E & _ & Hth & C)]]];
    try congruence.
  assert (m = mask) as -> by congruence.
  rewrite C in Hr.
  exists (astype_bool (object_mask_of th mask)). split.
  { rewrite (metrics_of_mask_base _ _ _ _ _ _ _ _ "mask_full" eq_refl Hr).
    apply base_record_mask_full. }
  apply threshold_image_Ok in Hth as [_ ->].
  intros y x. rewrite object_mask_bool, pixel_zip2d.
  unfold astype_bool. rewrite !pixel_map2d.
  pose proof (to_gray_defined img y x Hrect) as Hg.
  rewrite (roi_mask_pixel img roi mask y x Hmask). split.
  - destruct (pixel (to_gray img) y x) as [v|]; simpl; [|by intros [? [=]]].
    intros _. apply Hg. by eexists.
  - intros Hin. destruct (proj2 Hg Hin) as [v ->]. simpl.
    destruct Hin as [Hy%Nat.ltb_lt Hx%Nat.ltb_lt]. rewrite Hy, Hx. simpl.
    by eexists.
Qed.

Lemma mask_full_has_image_shape_witness :
  let img := Sample.pair_bgr in
  let roi := Sample.disc in
  let mask := Sample.mask_of img roi in
  let r := Sample.record_of (Sample.run img roi PyNone true false false) in
  image_rectangular img
  /\ @roi_mask Ref.extern img roi = Ok (Some mask)
  /\ np_any mask = true
  /\ @compute_metrics Ref.extern img roi PyNone true false false = Ok r
  /\ exists object_mask : list (list bool),
       r !! "mask_full" = Some (VMask object_mask)
       /\ forall y x : nat,
            is_Some (pixel object_mask y x)
            <-> (y < 1)%nat /\ (x < 2)%nat.
Proof.
  intros img roi mask r.
  assert (image_rectangular img) as H0
    by (repeat constructor).
  assert (@roi_mask Ref.extern img roi = Ok (Some mask)) as H1
    by vm_refl.
  assert (np_any mask = true) as H2 by vm_refl.
  assert (@compute_metrics Ref.extern img roi PyNone true false false = Ok r)
    as H3 by vm_refl.
  split; [exact H0|]. split; [exact H1|]. split; [exact H2|].
  split; [exact H3|].
  exact (@mask_full_has_image_shape Ref.extern img roi PyNone true false
           false mask r H0 H1 H2 H3).
Defined.

(** X3.  When the intensity group runs, [area_px] is an integer between 0
    and the number of set pixels of the rasterized ROI, which is itself at
    most the number of pixels of the image (rows times columns). *)
Theorem area_px_bounded_by_roi {lib : Extern} (img : image) (roi : ROI)
    (px_per_mm : pyval) (do_shape do_halo : bool) (mask : list (list Z))
    (r : gmap string value) :
  roi_mask img roi = Ok (Some mask) ->
  np_any mask = true ->
  compute_metrics img roi px_per_mm true do_shape do_halo = Ok r ->
  exists area_px : Z,
    r !! "area_px" = Some (VInt area_px)
    /\ 0 <= area_px <= Z.of_nat (count_true (astype_bool mask))
    /\ (count_true (astype_bool mask)
        <= fst (image_shape2 img) * snd (image_shape2 img))%nat.
Proof.
  intros Hmask Hany Hr.
  destruct (compute_metrics_cases img roi px_per_mm true do_shape do_halo)
    as [[E _]|[(e & E & _)|[(m & E & F & _)|(m & th & E & _ & Hth & C)]]];
    try congruence.
  assert (m = mask) as -> by congruence.
  rewrite C in Hr.
  destruct (metrics_of_mask_intensity _ _ _ _ _ _ _ Hth Hr) as (_ & Ha & _).
  eexists. split; [exact Ha|]. split.
  - split; [lia|]. apply Nat2Z.inj_le. rewrite object_mask_bool.
    apply (count_true_zip_le negb).
  - rewrite <- (roi_mask_size img roi mask Hmask).
    etrans; [apply count_true_le_size|].
    unfold astype_bool, map2d. rewrite <- list_fmap_compose.
    apply Nat.eq_le_incl. f_equal. apply list_fmap_ext.
    intros i row _. simpl. by rewrite length_fmap.
Qed.

Lemma area_px_bounded_by_roi_witness :
  let img := Sample.blot in
  let roi := Sample.disc in
  let mask := Sample.mask_of img roi in
  let r := Sample.record_of (Sample.run img roi PyNone true false false) in
  @roi_mask Ref.extern img roi = Ok (Some mask)
  /\ np_any mask = true
  /\ @compute_metrics Ref.extern img roi PyNone true false false = Ok r
  /\ r !! "area_px" = Some (VInt 25)
  /\ count_true (astype_bool mask) = 49%nat
  /\ exists area_px : Z,
       r !! "area_px" = Some (VInt area_px)
       /\ 0 <= area_px <= Z.of_nat (count_true (astype_bool mask))
       /\ (count_true (astype_bool mask) <= 7 * 7)%nat.
Proof.
  intros img roi mask r.
  assert (@roi_mask Ref.extern img roi = Ok (Some mask)) as H1
    by vm_refl.
  assert (np_any mask = true) as H2 by vm_refl.
  assert (@compute_metrics Ref.extern img roi PyNone true false false = Ok r)
    as H3 by vm_refl.
  split; [exact H1|]. split; [exact H2|]. split; [exact H3|].
  split; [vm_refl|]. split; [vm_refl|].
  exact (@area_px_bounded_by_roi Ref.extern img roi PyNone false false mask
           r H1 H2 H3).
Defined.

(** X4.  Every sample kept in [intensity_pixels] is at or below the Otsu
    threshold of the whole image: the statistics are taken over pixels
    classified dark only. *)
Theorem intensity_samples_are_dark {lib : Extern} (img : image) (roi : ROI)
    (px_per_mm : pyval) (do_shape do_halo : bool) (mask : list (list Z))
    (r : gmap string value) :
  roi_mask img roi = Ok (Some mask) ->
  np_any mask = true ->
  compute_metrics img roi px_per_mm true do_shape do_halo = Ok r ->
  exists samples : list Z,
    r !! "intensity_pixels" = Some (VPixels samples)
    /\ Forall (fun v => v <= otsu (to_gray img)) samples.
Proof.
  intros Hmask Hany Hr.
  destruct (compute_metrics_cases img roi px_per_mm true do_shape do_halo)
    as [[E _]|[(e & E & _)|[(m & E & F & _)|(m & th & E & _ & Hth & C)]]];
    try congruence.
  assert (m = mask) as -> by congruence.
  rewrite C in Hr.
  destruct (metrics_of_mask_intensity _ _ _ _ _ _ _ Hth Hr) as (_ & _ & Hs & _).
  eexists. split; [exact Hs|].
  apply threshold_image_Ok in Hth as [_ ->].
  rewrite object_mask_bool. apply samples_dark.
Qed.

Lemma intensity_samples_are_dark_witness :
  let img := Sample.pair_bgr in
  let roi := Sample.disc in
  let mask := Sample.mask_of img roi in
  let r := Sample.record_of (Sample.run img roi PyNone true false false) in
  @roi_mask Ref.extern img roi = Ok (Some mask)
  /\ np_any mask = true
  /\ @compute_metrics Ref.extern img roi PyNone true false false = Ok r
  /\ r !! "intensity_pixels" = Some (VPixels [0])
  /\ exists samples : list Z,
       r !! "intensity_pixels" = Some (VPixels samples)
       /\ Forall (fun v => v <= @otsu Ref.extern (@to_gray Ref.extern img))
            samples.
Proof.
  intros img roi mask r.
  assert (@roi_mask Ref.extern img roi = Ok (Some mask)) as H1
    by vm_refl.
  assert (np_any mask = true) as H2 by vm_refl.
  assert (@compute_metrics Ref.extern img roi PyNone true false false = Ok r)
    as H3 by vm_refl.
  split; [exact H1|]. split; [exact H2|]. split; [exact H3|].
  split; [vm_refl|].
  exact (@intensity_samples_are_dark Ref.extern img roi PyNone false false
           mask r H1 H2 H3).
Defined.

(** ** What a metric group adds *)

Section UnionFacts.
Context {lib : Extern}.

Lemma insert_as_union (k : string) (v : value) (res : gmap string value) :
  <[k := v]> res = <[k := v]> ∅ ∪ res.
Proof. by rewrite <- insert_union_l, (left_id_L ∅ (∪)). Qed.

Lemma ok_union_empty (res : gmap string value) :
  Ok res = (fun d => d ∪ res) <$> Ok (∅ : gmap string value).
Proof.
  unfold fmap, result_fmap. f_equal. symmetry. apply (left_id_L ∅ (∪)).
Qed.

Lemma inertia_metrics_union M (res : gmap string value) :
  inertia_metrics M res = (fun d => d ∪ res) <$> inertia_metrics M ∅.
Proof.
  unfold inertia_metrics. destruct (negb _); simpl.
  - destruct (float_pow2 (PrimFloat.sub _ _)) as [d2|e]; simpl; [|done].
    destruct (float_pow2 _) as [c2|e]; simpl; [|done].
    f_equal. apply insert_as_union.
  - by rewrite (left_id_L ∅ (∪)).
Qed.

Lemma shape_metrics_union c0 cs (res : gmap string value) :
  shape_metrics c0 cs res = (fun d => d ∪ res) <$> shape_metrics c0 cs ∅.
Proof.
  unfold shape_metrics.
  match goal with
  | |- context [(if ?b then ?x else ?y) ≫= _] =>
      destruct (if b then x else y) as [circ|e]; simpl; [|done]
  end.
  rewrite (inertia_metrics_union _ (<[_ := _]> (<[_ := _]> res))).
  rewrite (inertia_metrics_union _ (<[_ := _]> (<[_ := _]> ∅))).
  destruct (inertia_metrics _ ∅) as [i|e]; simpl; [|done].
  f_equal. rewrite <- !insert_union_l. f_equal.
  rewrite <- (assoc_L (∪)). f_equal.
  by rewrite <- !insert_union_l, (left_id_L ∅ (∪)).
Qed.

Lemma halo_metrics_union om (res : gmap string value) :
  halo_metrics om res = (fun d => d ∪ res) <$> halo_metrics om ∅.
Proof.
  unfold halo_metrics.
  destruct (halo_contours om) as [|h0 hs]; [apply ok_union_empty|].
  destruct (5 <=? length (max_by contourArea h0 hs))%nat;
    [|apply ok_union_empty].
  destruct (fitEllipse _) as [[c axes] ang].
  destruct (eccentricity_of_axes axes) as [[ecc|]|e].
  - unfold mbind, result_bind, fmap, result_fmap. f_equal.
    apply insert_as_union.
  - apply ok_union_empty.
  - done.
Qed.

(** The value a later step leaves under a key of the shape group: the one
    the shape group computes from the contours alone. *)
Lemma shape_step_value (ds : bool) (cs : list (list (Z * Z)))
    (res res' : gmap string value) k :
  res !! k = None ->
  (if ds then match cs with
              | c0 :: cs' => shape_metrics c0 cs' res
              | [] => Ok res
              end
   else Ok res) = Ok res' ->
  res' !! k
  = match ds, cs with
    | true, c0 :: cs' =>
        match shape_metrics c0 cs' ∅ with
        | Ok d => d !! k
        | Raise _ => None
        end
    | _, _ => None
    end.
Proof.
  intros Hk. destruct ds; [|by intros [= <-]].
  destruct cs as [|c0 cs']; [by intros [= <-]|].
  rewrite shape_metrics_union.
  destruct (shape_metrics c0 cs' ∅) as [d|e]; simpl; [|done].
  intros [= <-]. by apply lookup_union_l.
Qed.

Lemma halo_step_value (dh : bool) (cs : list (list (Z * Z))) om
    (res res' : gmap string value) k :
  res !! k = None ->
  (if dh then match cs with
              | _ :: _ => halo_metrics om res
              | [] => Ok res
              end
   else Ok res) = Ok res' ->
  res' !! k
  = match dh, cs with
    | true, _ :: _ =>
        match halo_metrics om ∅ with
        | Ok d => d !! k
        | Raise _ => None
        end
    | _, _ => None
    end.
Proof.
  intros Hk. destruct dh; [|by intros [= <-]].
  destruct cs as [|c0 cs']; [by intros [= <-]|].
  rewrite halo_metrics_union.
  destruct (halo_metrics om ∅) as [d|e]; simpl; [|done].
  intros [= <-]. by apply lookup_union_l.
Qed.

(** The fields of one group in a record of [metrics_of_mask], as a
    function of that group's flag alone. *)
Lemma metrics_of_mask_group_values th img mask px (di ds dh : bool)
    (r : gmap string value) :
  metrics_of_mask th img mask px di ds dh = Ok r ->
  let om := object_mask_of th mask in
  (forall k, among intensity_keys k = true ->
             r !! k = after_intensity th img mask di !! k)
  /\ (forall k, among shape_keys k = true ->
                r !! k
                = match ds, findContours om with
                  | true, c0 :: cs' =>
                      match shape_metrics c0 cs' ∅ with
                      | Ok d => d !! k
                      | Raise _ => None
                      end
                  | _, _ => None
                  end)
  /\ r !! "halo_eccentricity"
     = match dh, findContours om with
       | true, _ :: _ =>
           match halo_metrics om ∅ with
           | Ok d => d !! "halo_eccentricity"
           | Raise _ => None
           end
       | _, _ => None
       end.
Proof.
  intros Hr om.
  destruct (metrics_of_mask_late _ _ _ _ _ _ _ _ Hr)
    as (r2 & r3 & H2 & H3 & Ls & Lh & Hno).
  fold om in H2, H3. split; [|split].
  - intros k Hk.
    assert (among (shape_keys ++ halo_keys ++ conversion_keys) k = false)
      as Hl.
    { unfold among in *. simpl in *.
      repeat match type of Hk with
             | (?b || _) = true =>
                 let E := fresh in
                 destruct b eqn:E;
                 [apply String.eqb_eq in E; subst k; reflexivity
                 | simpl in Hk]
             end.
      done. }
    exact (metrics_of_mask_early _ _ _ _ _ _ _ _ _ Hl Hr).
  - intros k Hk. rewrite (Ls k Hk).
    assert (after_intensity th img mask di !! k = None) as Hn.
    { apply after_intensity_no_shape.
      unfold among in *. rewrite existsb_app. by rewrite Hk. }
    exact (shape_step_value _ _ _ _ _ Hn H2).
  - rewrite Lh. exact (halo_step_value _ _ _ _ _ _ Hno H3).
Qed.

End UnionFacts.

(** X5.  The metric groups do not influence one another: when two calls on
    the same image and ROI both return, they agree on [contours] and
    [mask_full], on every field of the intensity group if they agree on
    [do_intensity], on every field of the shape group if they agree on
    [do_shape], and on [halo_eccentricity] if they agree on [do_halo],
    whatever the other flags and [px_per_mm] are. *)
Theorem metric_groups_independent {lib : Extern} (img : image) (roi : ROI)
    (px px' : pyval) (di ds dh di' ds' dh' : bool)
    (r r' : gmap string value) :
  compute_metrics img roi px di ds dh = Ok r ->
  compute_metrics img roi px' di' ds' dh' = Ok r' ->
  r !! "contours" = r' !! "contours"
  /\ r !! "mask_full" = r' !! "mask_full"
  /\ (di = di' ->
      forall k, among intensity_keys k = true -> r !! k = r' !! k)
  /\ (ds = ds' ->
      forall k, among shape_keys k = true -> r !! k = r' !! k)
  /\ (dh = dh' -> r !! "halo_eccentricity" = r' !! "halo_eccentricity").
Proof.
  intros Hr Hr'.
  destruct (compute_metrics_cases img roi px di ds dh)
    as [[E C]|[(e & E & C)|[(m & E & F & C)|(m & th & E & F & Hth & C)]]];
    destruct (compute_metrics_cases img roi px' di' ds' dh')
      as [[E' C']|[(e' & E' & C')|[(m' & E' & F' & C')
                                  |(m' & th' & E' & F' & Hth' & C')]]];
    try congruence;
    rewrite C in Hr; rewrite C' in Hr';
    try (injection Hr as <-; injection Hr' as <-; by repeat split).
  assert (m' = m) as -> by congruence.
  assert (th' = th) as -> by congruence.
  destruct (metrics_of_mask_group_values _ _ _ _ _ _ _ _ Hr) as (Hi & Hs & Hh).
  destruct (metrics_of_mask_group_values _ _ _ _ _ _ _ _ Hr')
    as (Hi' & Hs' & Hh').
  split; [|split; [|split; [|split]]].
  - rewrite (metrics_of_mask_base _ _ _ _ _ _ _ _ "contours" eq_refl Hr).
    by rewrite (metrics_of_mask_base _ _ _ _ _ _ _ _ "contours" eq_refl Hr').
  - rewrite (metrics_of_mask_base _ _ _ _ _ _ _ _ "mask_full" eq_refl Hr).
    by rewrite (metrics_of_mask_base _ _ _ _ _ _ _ _ "mask_full" eq_refl Hr').
  - intros <- k Hk. by rewrite Hi, Hi'.
  - intros <- k Hk. by rewrite Hs, Hs'.
  - intros <-. by rewrite Hh, Hh'.
Qed.

Lemma metric_groups_independent_witness :
  let r := Sample.record_of
             (Sample.run Sample.blot Sample.disc PyNone true true false) in
  let r' := Sample.record_of
              (Sample.run Sample.blot Sample.disc (PyInt 10) false true true)
  in
  @compute_metrics Ref.extern Sample.blot Sample.disc PyNone true true false
  = Ok r
  /\ @compute_metrics Ref.extern Sample.blot Sample.disc (PyInt 10)
       false true true = Ok r'
  /\ r !! "circularity" = Some (VFloat 0x1.921fb54442d18p-1)
  /\ r !! "mean_I" <> r' !! "mean_I"
  /\ r !! "contours" = r' !! "contours"
  /\ r !! "mask_full" = r' !! "mask_full"
  /\ (forall k, among shape_keys k = true -> r !! k = r' !! k).
Proof.
  intros r r'.
  assert (@compute_metrics Ref.extern Sample.blot Sample.disc PyNone
            true true false = Ok r) as H by vm_refl.
  assert (@compute_metrics Ref.extern Sample.blot Sample.disc (PyInt 10)
            false true true = Ok r') as H' by vm_refl.
  destruct (@metric_groups_independent Ref.extern Sample.blot Sample.disc
              PyNone (PyInt 10) true true false false true true r r' H H')
    as (Hc & Hm & _ & Hs & _).
  split; [exact H|]. split; [exact H'|].
  split; [vm_refl|].
  split; [vm_compute; discriminate|].
  split; [exact Hc|]. split; [exact Hm|]. exact (Hs eq_refl).
Defined.

(** X6.  A record [compute_metrics] returns holds no key outside the
    thirteen it can write, and a group that is switched off leaves none of
    its keys: without [do_intensity] there is no intensity field and no
    [area_mm2], without [do_shape] no shape field, without [do_halo] no
    [halo_eccentricity]. *)
Theorem record_keys_follow_flags {lib : Extern} (img : image) (roi : ROI)
    (px_per_mm : pyval) (do_intensity do_shape do_halo : bool)
    (r : gmap string value) :
  compute_metrics img roi px_per_mm do_intensity do_shape do_halo = Ok r ->
  (forall k : string, is_Some (r !! k) -> k ∈ metric_keys)
  /\ (do_intensity = false ->
      forall k, k ∈ (intensity_keys ++ conversion_keys)%list -> r !! k = None)
  /\ (do_shape = false -> forall k, k ∈ shape_keys -> r !! k = None)
  /\ (do_halo = false -> r !! "halo_eccentricity" = None).
Proof.
  intros Hr.
  assert (forall ks k, k ∈ ks -> among ks k = true) as Hin.
  { intros ks k Hk. unfold among. apply existsb_exists. exists k.
    split; [by apply list_elem_of_In|apply String.eqb_refl]. }
  split.
  { intros k Hk.
    destruct (among metric_keys k) eqn:Ha.
    - unfold among in Ha. apply existsb_exists in Ha as (k' & Hk' & E).
      apply String.eqb_eq in E as ->. by apply list_elem_of_In.
    - rewrite (compute_metrics_no_metadata img roi px_per_mm do_intensity
                 do_shape do_halo r k) in Hk; [by destruct Hk| |exact Hr].
      unfold among, metric_keys in Ha. rewrite !existsb_app in Ha.
      apply orb_false_elim in Ha as [Hb Ha].
      apply orb_false_elim in Ha as [Hi Ha].
      apply orb_false_elim in Ha as [Hs Ha].
      apply orb_false_elim in Ha as [Hh Hc].
      unfold among. rewrite !existsb_app. by rewrite Hb, Hi, Hs, Hh, Hc. }
  destruct (compute_metrics_cases img roi px_per_mm do_intensity do_shape
              do_halo)
    as [[E C]|[(e & E & C)|[(m & E & F & C)|(m & th & E & F & Hth & C)]]];
    rewrite C in Hr; try done;
    try (injection Hr as <-; by repeat split).
  destruct (metrics_of_mask_group_values _ _ _ _ _ _ _ _ Hr) as (Hi & Hs & Hh).
  destruct (before_conversion _ _ _ _ _ _ _ _ Hr) as (r3 & H4 & Hno & Ha).
  destruct (area_conversion_spec _ _ _ H4 Hno) as (Hpx & _ & Hn & _).
  split; [|split].
  - intros -> k [Hk|Hk]%elem_of_app.
    + rewrite (Hi k (Hin _ _ Hk)). unfold after_intensity, base_record.
      unfold intensity_keys in Hk.
      repeat (apply elem_of_cons in Hk as [ -> | Hk];
              [by rewrite !lookup_insert_ne, lookup_empty|]).
      by apply elem_of_nil in Hk.
    + apply list_elem_of_singleton in Hk as ->. apply Hn.
      rewrite Ha. unfold after_intensity, base_record.
      by rewrite !lookup_insert_ne, lookup_empty.
  - intros -> k Hk. by rewrite (Hs k (Hin _ _ Hk)).
  - intros ->. by rewrite Hh.
Qed.

Lemma record_keys_follow_flags_witness :
  let r := Sample.record_of
             (Sample.run Sample.blot Sample.disc (PyInt 10) false true false)
  in
  @compute_metrics Ref.extern Sample.blot Sample.disc (PyInt 10)
    false true false = Ok r
  /\ is_Some (r !! "perimeter_px")
  /\ (forall k : string, is_Some (r !! k) -> k ∈ metric_keys)
  /\ (forall k, k ∈ (intensity_keys ++ conversion_keys)%list ->
                r !! k = None)
  /\ r !! "halo_eccentricity" = None.
Proof.
  intros r.
  assert (@compute_metrics Ref.extern Sample.blot Sample.disc (PyInt 10)
            false true false = Ok r) as H by vm_refl.
  destruct (@record_keys_follow_flags Ref.extern Sample.blot Sample.disc
              (PyInt 10) false true false r H) as (Hk & Hi & _ & Hh).
  split; [exact H|]. split; [|split; [exact Hk|split]].
  - exists (VFloat 16). vm_refl.
  - exact (Hi eq_refl).
  - exact (Hh eq_refl).
Defined.

(** X8.  A colour image and its grayscale conversion give the same outcome:
    [compute_metrics] uses a three-channel image only through
    [cv2.cvtColor(image, COLOR_BGR2GRAY)]. *)
Theorem colour_image_same_as_its_gray {lib : Extern}
    (c : list (list (Z * Z * Z))) (roi : ROI) (px_per_mm : pyval)
    (do_intensity do_shape do_halo : bool) :
  compute_metrics (BGR c) roi px_per_mm do_intensity do_shape do_halo
  = compute_metrics (Gray (to_gray (BGR c))) roi px_per_mm do_intensity
      do_shape do_halo
  /\ threshold_image (BGR c) = threshold_image (Gray (to_gray (BGR c))).
Proof.
  split; [|done].
  unfold compute_metrics, roi_mask. simpl image_shape2.
  change (to_gray (BGR c)) with (map2d bgr2gray c).
  by rewrite shape2_map2d.
Qed.

Section CallerFacts.
Context {lib : Extern}.

Lemma roi_record_Ok (session : Session) (img : image) (roi : ROI)
    (rec : gmap string value) :
  roi_record session img roi = Ok rec
  <-> exists metrics : gmap string value,
        compute_metrics img roi (session_px_per_mm session)
          (analysis_intensity session) (analysis_shape session)
          (analysis_halo session) = Ok metrics
        /\ rec = <["mask_full" := dict_get metrics "mask_full"]>
                   (<["rep" := roi_rep roi]>
                      (<["ink_key" := roi_ink_key roi]>
                         (<["label" := roi_label roi]> metrics))).
Proof.
  unfold roi_record. rewrite bind_Ok. split.
  - intros (m & Hm & [= <-]). by exists m.
  - intros (m & Hm & ->). by exists m.
Qed.

End CallerFacts.

(** ** The batch *)

Section BatchFacts.
Context {lib : Extern}.

Lemma main_results_Ok (session : Session) (img : image) (rois : list ROI)
    (results : list (gmap string value)) :
  main_results session img rois = Ok results
  <-> Forall2 (fun roi rec => roi_record session img roi = Ok rec)
        rois results.
Proof.
  revert results. induction rois as [|roi rois IH]; intros results; simpl.
  - split; [intros [= <-]; constructor|by intros ->%Forall2_nil_inv_l].
  - rewrite bind_Ok. split.
    + intros (rec & Hrec & (rs & Hrs & [= <-])%bind_Ok).
      constructor; [done|by apply IH].
    + intros (rec & rs & Hrec & Hrs & ->)%Forall2_cons_inv_l.
      exists rec. split; [done|]. apply bind_Ok. exists rs.
      split; [by apply IH|done].
Qed.

Lemma main_results_is_ok (session : Session) (img : image)
    (rois : list ROI) :
  is_ok (main_results session img rois)
  = forallb (fun roi => is_ok (roi_record session img roi)) rois.
Proof.
  induction rois as [|roi rois IH]; simpl; [done|].
  destruct (roi_record session img roi) as [rec|e]; simpl; [|done].
  rewrite <- IH. by destruct (main_results session img rois).
Qed.

End BatchFacts.

(** X10.  The loop of main.py (lines 39-56) keeps one record per ROI, in
    the order of the ROIs, each carrying the label of its own ROI; and it
    has no handler: the batch yields its records exactly when every single
    [compute_metrics] call returns, one raising call loses them all. *)
Theorem batch_one_record_per_roi {lib : Extern} (session : Session)
    (img : image) (rois : list ROI) :
  (forall results : list (gmap string value),
      main_results session img rois = Ok results ->
      length results = length rois
      /\ forall (i : nat) (roi : ROI),
           rois !! i = Some roi ->
           exists rec : gmap string value,
             results !! i = Some rec
             /\ roi_record session img roi = Ok rec
             /\ rec !! "label" = Some (roi_label roi))
  /\ is_ok (main_results session img rois)
     = forallb
         (fun roi =>
            is_ok (compute_metrics img roi (session_px_per_mm session)
                     (analysis_intensity session) (analysis_shape session)
                     (analysis_halo session)))
         rois.
Proof.
  split.
  - intros results Hres%main_results_Ok. split.
    + symmetry. by eapply Forall2_length.
    + intros i roi Hi.
      destruct (Forall2_lookup_l _ _ _ _ _ Hres Hi) as (rec & Hrec & Hok).
      exists rec. split; [done|]. split; [done|].
      apply roi_record_Ok in Hok as (m & _ & ->).
      rewrite !lookup_insert_ne by done. by rewrite lookup_insert_eq.
  - rewrite main_results_is_ok.
    induction rois as [|roi rois IH]; simpl; [done|]. rewrite IH. f_equal.
    unfold roi_record. by destruct (compute_metrics _ _ _ _ _ _).
Qed.

Lemma batch_one_record_per_roi_witness :
  let s := Sample.session PyNone true false false in
  let results := match @main_results Ref.extern s Sample.blot Sample.rois
                 with Ok l => l | Raise _ => [] end in
  @main_results Ref.extern s Sample.blot Sample.rois = Ok results
  /\ length results = 3%nat
  /\ (exists rec : gmap string value,
        results !! 1%nat = Some rec
        /\ @roi_record Ref.extern s Sample.blot Sample.ruler = Ok rec
        /\ rec !! "label" = Some (VStr "A1"))
  /\ is_ok (@main_results Ref.extern s Sample.blot
              (Sample.rois ++ [Sample.mk_roi "circle" [] (0, 0) (-1)]))
     = false.
Proof.
  intros s results.
  assert (@main_results Ref.extern s Sample.blot Sample.rois = Ok results)
    as H by vm_refl.
  destruct (@batch_one_record_per_roi Ref.extern s Sample.blot Sample.rois)
    as [Hok _].
  destruct (Hok results H) as [Hlen Hrec].
  destruct (@batch_one_record_per_roi Ref.extern s Sample.blot
              (Sample.rois ++ [Sample.mk_roi "circle" [] (0, 0) (-1)]))
    as [_ Hraise].
  split; [exact H|]. split; [exact Hlen|]. split.
  - exact (Hrec 1%nat Sample.ruler eq_refl).
  - rewrite Hraise. vm_refl.
Defined.

(** ** The heatmap window *)

Lemma fold_min_le (l : list Z) (a : Z) :
  fold_left Z.min l a <= a /\ Forall (fun v => fold_left Z.min l a <= v) l.
Proof.
  revert a. induction l as [|v l IH]; intros a; simpl; [by split|].
  destruct (IH (Z.min a v)) as [Ha Hl]. split; [lia|].
  constructor; [lia|done].
Qed.

Lemma fold_max_ge (l : list Z) (a : Z) :
  a <= fold_left Z.max l a /\ Forall (fun v => v <= fold_left Z.max l a) l.
Proof.
  revert a. induction l as [|v l IH]; intros a; simpl; [by split|].
  destruct (IH (Z.max a v)) as [Ha Hl]. split; [lia|].
  constructor; [lia|done].
Qed.

Lemma np_min_le (l : list Z) (m v : Z) :
  np_min l = Some m -> v ∈ l -> m <= v.
Proof.
  destruct l as [|a l]; [done|]. intros [= <-].
  destruct (fold_min_le l a) as [Ha Hl]. rewrite Forall_forall in Hl.
  intros [->|Hv]%elem_of_cons; [done|by apply Hl].
Qed.

Lemma np_max_ge (l : list Z) (m v : Z) :
  np_max l = Some m -> v ∈ l -> v <= m.
Proof.
  destruct l as [|a l]; [done|]. intros [= <-].
  destruct (fold_max_ge l a) as [Ha Hl]. rewrite Forall_forall in Hl.
  intros [->|Hv]%elem_of_cons; [done|by apply Hl].
Qed.

Lemma hits_row_length {B} (f : nat -> B) (row : list bool) :
  length (omap id (imap (fun x (b : bool) =>
                           if b then Some (f x) else None) row))
  = length (filter (fun b : bool => b = true) row).
Proof.
  revert f. induction row as [|b row IH]; intros f; [done|].
  rewrite imap_cons, filter_cons.
  destruct b; simpl; [f_equal|]; apply (IH (f ∘ S)).
Qed.

Lemma hits_length {B} (g : nat -> nat -> B) (mask : list (list bool)) :
  length (concat
            (imap (fun y row =>
                     omap id (imap (fun x (b : bool) =>
                                      if b then Some (g y x) else None)
                                   row))
                  mask))
  = count_true mask.
Proof.
  unfold count_true. revert g.
  induction mask as [|row mask IH]; intros g; [done|].
  rewrite imap_cons, fmap_cons. simpl. rewrite length_app.
  rewrite hits_row_length. f_equal. apply (IH (g ∘ S)).
Qed.

Lemma hits_elem (mask : list (list bool)) (y x : nat) :
  pixel mask y x = Some true ->
  (Z.of_nat y, Z.of_nat x)
  ∈ concat
      (imap (fun y row =>
               omap id (imap (fun x (b : bool) =>
                                if b then Some (Z.of_nat y, Z.of_nat x)
                                else None)
                             row))
            mask).
Proof.
  unfold pixel. intros Hp.
  destruct (mask !! y) as [row|] eqn:Hy; simpl in Hp; [|done].
  apply list_elem_of_In, in_concat. eexists. split.
  - apply list_elem_of_In.
    apply (elem_of_lookup_imap_2 _ mask row y Hy).
  - apply list_elem_of_In, list_elem_of_omap. exists (Some (Z.of_nat y, Z.of_nat x)).
    split; [|done].
    apply (elem_of_lookup_imap_2
             (fun x (b : bool) =>
                if b then Some (Z.of_nat y, Z.of_nat x) else None)
             row true x Hp).
Qed.

Lemma np_nonzero_lengths (mask : list (list bool)) :
  length (fst (np_nonzero mask)) = count_true mask
  /\ length (snd (np_nonzero mask)) = count_true mask.
Proof.
  unfold np_nonzero. simpl. rewrite !length_fmap.
  split; apply (hits_length (fun y x => (Z.of_nat y, Z.of_nat x))).
Qed.

Lemma np_nonzero_elem (mask : list (list bool)) (y x : nat) :
  pixel mask y x = Some true ->
  Z.of_nat y ∈ fst (np_nonzero mask) /\ Z.of_nat x ∈ snd (np_nonzero mask).
Proof.
  intros Hp%hits_elem. unfold np_nonzero. simpl. split.
  - apply (list_elem_of_fmap_2 fst _ _ Hp).
  - apply (list_elem_of_fmap_2 snd _ _ Hp).
Qed.

Lemma crop_window_None (shape : nat * nat) (mask : list (list bool)) :
  crop_window shape mask = None <-> count_true mask = 0%nat.
Proof.
  unfold crop_window.
  destruct (np_nonzero_lengths mask) as [Hy Hx].
  destruct (np_nonzero mask) as [ys xs]. simpl in Hy, Hx.
  destruct ys as [|y ys]; simpl in *.
  - split; [done|]. done.
  - destruct xs as [|x xs]; simpl in *; [lia|].
    split; [done|lia].
Qed.

(** X11.  The heatmap window of main.py (lines 67-74).  Taking the
    minimum of the row indices raises exactly when the mask has no [True]
    pixel; otherwise the window lies inside the image and contains every
    [True] pixel of the mask that lies inside the image. *)
Theorem crop_window_contains_object (h w : nat) (mask : list (list bool)) :
  (crop_window (h, w) mask = None <-> count_true mask = 0%nat)
  /\ forall y0p y1p x0p x1p : Z,
       crop_window (h, w) mask = Some (y0p, y1p, x0p, x1p) ->
       0 <= y0p /\ 0 <= x0p
       /\ y1p <= Z.of_nat h - 1 /\ x1p <= Z.of_nat w - 1
       /\ forall y x : nat,
            pixel mask y x = Some true -> (y < h)%nat -> (x < w)%nat ->
            y0p <= Z.of_nat y <= y1p /\ x0p <= Z.of_nat x <= x1p.
Proof.
  split; [apply crop_window_None|].
  intros y0p y1p x0p x1p Hw. unfold crop_window in Hw.
  pose proof (np_nonzero_elem mask) as Hel.
  destruct (np_nonzero mask) as [ys xs]. simpl in Hel.
  destruct (np_min ys) as [y0|] eqn:Hy0; simpl in Hw; [|done].
  destruct (np_max ys) as [y1|] eqn:Hy1; simpl in Hw; [|done].
  destruct (np_min xs) as [x0|] eqn:Hx0; simpl in Hw; [|done].
  destruct (np_max xs) as [x1|] eqn:Hx1; simpl in Hw; [|done].
  injection Hw as <- <- <- <-.
  split; [lia|]. split; [lia|]. split; [lia|]. split; [lia|].
  intros y x Hp Hy Hx. destruct (Hel y x Hp) as [Hiy Hix].
  pose proof (np_min_le _ _ _ Hy0 Hiy).
  pose proof (np_max_ge _ _ _ Hy1 Hiy).
  pose proof (np_min_le _ _ _ Hx0 Hix).
  pose proof (np_max_ge _ _ _ Hx1 Hix).
  lia.
Qed.

Lemma crop_window_contains_object_witness :
  let mask := [[false; false; false]; [false; true; true];
               [false; false; false]] in
  crop_window (3%nat, 3%nat) mask = Some (0, 2, 0, 2)
  /\ pixel mask 1 2 = Some true
  /\ (0 <= 1 <= 2 /\ 0 <= 2 <= 2)
  /\ crop_window (3%nat, 3%nat) [[false; false]] = None.
Proof.
  intros mask.
  destruct (crop_window_contains_object 3 3 mask) as [_ Hin].
  destruct (crop_window_contains_object 3 3 [[false; false]]) as [Hnone _].
  assert (crop_window (3%nat, 3%nat) mask = Some (0, 2, 0, 2)) as Hw
    by vm_refl.
  split; [exact Hw|]. split; [reflexivity|]. split.
  - destruct (Hin 0 2 0 2 Hw) as (_ & _ & _ & _ & Hpx).
    exact (Hpx 1%nat 2%nat eq_refl ltac:(lia) ltac:(lia)).
  - apply Hnone. reflexivity.
Defined.

(** ** The records in the heatmap loop and in the plots *)

Section RecordFacts.
Context {lib : Extern}.

(** What one record of the batch holds under the keys the rest of main.py
    reads, by the way [compute_metrics] went. *)
Lemma roi_record_cases (session : Session) (img : image) (roi : ROI)
    (rec : gmap string value) :
  roi_record session img roi = Ok rec ->
  (compute_metrics img roi (session_px_per_mm session)
     (analysis_intensity session) (analysis_shape session)
     (analysis_halo session) = Ok ∅
   /\ (forall mask, roi_mask img roi = Ok (Some mask) -> np_any mask = false)
   /\ dict_get rec "mask_full" = VNone
   /\ rec !! "area_px" = None
   /\ rec !! "mean_I" = None)
  \/ (exists (mask : list (list Z)) (th : list (list bool))
             (metrics : gmap string value),
        roi_mask img roi = Ok (Some mask)
        /\ np_any mask = true
        /\ threshold_image img = Ok th
        /\ compute_metrics img roi (session_px_per_mm session)
             (analysis_intensity session) (analysis_shape session)
             (analysis_halo session) = Ok metrics
        /\ metrics <> ∅
        /\ let om := astype_bool (object_mask_of th mask) in
           dict_get rec "mask_full" = VMask om
           /\ if analysis_intensity session then
                rec !! "area_px" = Some (VInt (Z.of_nat (count_true om)))
                /\ (count_true om = 0%nat -> rec !! "mean_I" = Some VNone)
                /\ (count_true om <> 0%nat ->
                    rec !! "mean_I"
                    = Some (VFloat (np_mean (bool_index (to_gray img) om))))
              else rec !! "area_px" = None /\ rec !! "mean_I" = None).
Proof.
  intros (metrics & Hm & ->)%roi_record_Ok.
  assert (dict_get
            (<["mask_full" := dict_get metrics "mask_full"]>
               (<["rep" := roi_rep roi]>
                  (<["ink_key" := roi_ink_key roi]>
                     (<["label" := roi_label roi]> metrics)))) "mask_full"
          = dict_get metrics "mask_full") as ->.
  { unfold dict_get at 1. by rewrite lookup_insert_eq. }
  rewrite !lookup_insert_ne by done.
  destruct (compute_metrics_cases img roi (session_px_per_mm session)
              (analysis_intensity session) (analysis_shape session)
              (analysis_halo session))
    as [[E C]|[(e & E & C)|[(m & E & F & C)|(m & th & E & F & Hth & C)]]];
    rewrite C in Hm; try done.
  - injection Hm as <-. left. split; [done|]. split; [congruence|].
    unfold dict_get. by rewrite !lookup_empty.
  - injection Hm as <-. left. split; [done|]. split; [congruence|].
    unfold dict_get. by rewrite !lookup_empty.
  - right. exists m, th, metrics. split; [done|]. split; [done|].
    split; [done|]. split; [congruence|].
    assert (metrics !! "mask_full"
            = Some (VMask (astype_bool (object_mask_of th m)))) as Hmf.
    { rewrite (metrics_of_mask_base _ _ _ _ _ _ _ _ "mask_full" eq_refl Hm).
      apply base_record_mask_full. }
    split; [intros ->; by rewrite lookup_empty in Hmf|].
    cbv zeta. split; [unfold dict_get; by rewrite Hmf|].
    destruct (analysis_intensity session) eqn:Hi.
    + destruct (metrics_of_mask_intensity _ _ _ _ _ _ _ Hth Hm)
        as (_ & Ha & _ & _ & Hz & Hnz).
      split; [exact Ha|]. split.
      * intros H0. by destruct (Hz H0) as (_ & ? & _).
      * intros H0. by destruct (Hnz H0) as (? & _).
    + destruct (metrics_of_mask_group_values _ _ _ _ _ _ _ _ Hm) as (Hg & _).
      rewrite (Hg "area_px" eq_refl), (Hg "mean_I" eq_refl).
      unfold after_intensity, base_record.
      by rewrite !lookup_insert_ne, lookup_empty.
Qed.

End RecordFacts.

(** X12.  What the heatmap loop of main.py (lines 60-68) does with the
    record of one ROI: it skips the record exactly when [compute_metrics]
    returned the empty record; and [ys.min()] raises [ValueError] exactly
    when the ROI was rasterized with a set pixel but the object mask has no
    [True] pixel, that is, when the ROI lies wholly on pixels above the
    threshold. *)
Theorem heatmap_step_of_record {lib : Extern} (session : Session)
    (img : image) (roi : ROI) (rec : gmap string value) (shape : nat * nat) :
  roi_record session img roi = Ok rec ->
  (heatmap_window shape rec = Skipped
   <-> compute_metrics img roi (session_px_per_mm session)
         (analysis_intensity session) (analysis_shape session)
         (analysis_halo session) = Ok ∅)
  /\ (heatmap_window shape rec = ValueError_raised
      <-> exists (mask : list (list Z)) (global_thresh : list (list bool)),
            roi_mask img roi = Ok (Some mask)
            /\ np_any mask = true
            /\ threshold_image img = Ok global_thresh
            /\ count_true (astype_bool (object_mask_of global_thresh mask))
               = 0%nat).
Proof.
  intros Hrec. unfold heatmap_window.
  destruct (roi_record_cases session img roi rec Hrec)
    as [(C & Hno & -> & _)
       |(mask & th & metrics & E & F & Hth & C & Hne & Hmf & _)].
  - split; [done|]. split; [done|].
    intros (mask & th & E & F & _). rewrite (Hno mask E) in F. done.
  - simpl in Hmf. rewrite Hmf.
    pose proof (crop_window_None shape
                  (astype_bool (object_mask_of th mask))) as Hcrop.
    destruct (crop_window shape _) as [w|].
    + split; [split; [done|congruence]|]. split; [done|].
      intros (mask' & th' & E' & _ & Hth' & H0).
      assert (mask' = mask) as -> by congruence.
      assert (th' = th) as -> by congruence.
      apply Hcrop in H0. done.
    + split; [split; [done|congruence]|]. split; [|done].
      intros _. exists mask, th. split; [done|]. split; [done|].
      split; [done|]. by apply Hcrop.
Qed.

Lemma heatmap_step_of_record_witness :
  let s := Sample.session PyNone true false false in
  let rec := Sample.record_of (@roi_record Ref.extern s Sample.pair
                                 Sample.dot) in
  let skipped := Sample.record_of (@roi_record Ref.extern s Sample.pair
                                     Sample.ruler) in
  @roi_record Ref.extern s Sample.pair Sample.dot = Ok rec
  /\ heatmap_window (1%nat, 2%nat) rec = ValueError_raised
  /\ (exists (mask : list (list Z)) (global_thresh : list (list bool)),
        @roi_mask Ref.extern Sample.pair Sample.dot = Ok (Some mask)
        /\ np_any mask = true
        /\ @threshold_image Ref.extern Sample.pair = Ok global_thresh
        /\ count_true (astype_bool (object_mask_of global_thresh mask))
           = 0%nat)
  /\ @roi_record Ref.extern s Sample.pair Sample.ruler = Ok skipped
  /\ heatmap_window (1%nat, 2%nat) skipped = Skipped.
Proof.
  intros s rec skipped.
  assert (@roi_record Ref.extern s Sample.pair Sample.dot = Ok rec) as H1
    by vm_refl.
  assert (heatmap_window (1%nat, 2%nat) rec = ValueError_raised) as H2
    by vm_refl.
  assert (@roi_record Ref.extern s Sample.pair Sample.ruler = Ok skipped)
    as H3 by vm_refl.
  destruct (@heatmap_step_of_record Ref.extern s Sample.pair Sample.dot rec
              (1%nat, 2%nat) H1) as [_ Hraise].
  destruct (@heatmap_step_of_record Ref.extern s Sample.pair Sample.ruler
              skipped (1%nat, 2%nat) H3) as [Hskip _].
  split; [exact H1|]. split; [exact H2|]. split; [exact (proj1 Hraise H2)|].
  split; [exact H3|]. apply Hskip. vm_refl.
Defined.

(** ** The lists handed to the plots *)

Lemma omap_aligned {A B C} (f : A -> option B) (g : A -> option C)
    (l : list A) :
  Forall (fun r => is_Some (f r) <-> is_Some (g r)) l ->
  length (omap f l) = length (omap g l)
  /\ zip (omap f l) (omap g l)
     = omap (fun r => a ← f r; b ← g r; Some (a, b)) l.
Proof.
  induction 1 as [|r l Hr Hl [IH1 IH2]]; [done|]. csimpl.
  destruct (f r) as [a|] eqn:Hf, (g r) as [b|] eqn:Hg; csimpl.
  - split; [by rewrite IH1|by rewrite IH2].
  - destruct (proj1 Hr) as [? [=]]. by eexists.
  - destruct (proj2 Hr) as [? [=]]. by eexists.
  - done.
Qed.

(** X13.  The scatter plot of line 170 pairs [areas] and [mean_vals] by
    position, and the two lists are built by different filters.  In a run
    that gets past the heatmap loop they are aligned all the same: they
    have the same length, and the i-th area and the i-th mean are those of
    one record. *)
Theorem areas_and_means_aligned {lib : Extern} (session : Session)
    (img : image) (rois : list ROI) (results : list (gmap string value))
    (shape : nat * nat) :
  main_results session img rois = Ok results ->
  Forall (fun rec => heatmap_window shape rec <> ValueError_raised) results ->
  length (areas_of results) = length (mean_vals_of results)
  /\ zip (areas_of results) (mean_vals_of results)
     = omap (fun r => a ← get_not_none r "area_px";
                      m ← get_not_none r "mean_I"; Some (a, m)) results.
Proof.
  intros Hres%main_results_Ok Hheat.
  apply omap_aligned. apply Forall_forall. intros rec Hin.
  rewrite Forall_forall in Hheat. specialize (Hheat rec Hin).
  apply list_elem_of_lookup in Hin as [i Hi].
  destruct (Forall2_lookup_r _ _ _ _ _ Hres Hi) as (roi & _ & Hrec).
  unfold heatmap_window in Hheat. unfold get_not_none.
  destruct (roi_record_cases session img roi rec Hrec)
    as [(_ & _ & _ & -> & ->)
       |(mask & th & metrics & _ & _ & _ & _ & _ & Hmf & Hint)];
    [done|].
  simpl in Hmf, Hint. rewrite Hmf in Hheat.
  pose proof (crop_window_None shape
                (astype_bool (object_mask_of th mask))) as Hcrop.
  destruct (analysis_intensity session).
  - destruct Hint as (-> & _ & Hnz).
    rewrite Hnz; [split; by eexists|].
    intros H0. apply Hcrop in H0. by rewrite H0 in Hheat.
  - by destruct Hint as [-> ->].
Qed.

Lemma areas_and_means_aligned_witness :
  let s := Sample.session PyNone true false false in
  let results := match @main_results Ref.extern s Sample.blot Sample.rois
                 with Ok l => l | Raise _ => [] end in
  @main_results Ref.extern s Sample.blot Sample.rois = Ok results
  /\ Forall (fun rec => heatmap_window (7%nat, 7%nat) rec
                        <> ValueError_raised) results
  /\ areas_of results = [VInt 25; VInt 25]
  /\ length (areas_of results) = length (mean_vals_of results)
  /\ zip (areas_of results) (mean_vals_of results)
     = omap (fun r => a ← get_not_none r "area_px";
                      m ← get_not_none r "mean_I"; Some (a, m)) results.
Proof.
  intros s results.
  assert (@main_results Ref.extern s Sample.blot Sample.rois = Ok results)
    as H1 by vm_refl.
  assert (Forall (fun rec => heatmap_window (7%nat, 7%nat) rec
                             <> ValueError_raised) results) as H2.
  { apply Forall_forall. intros rec Hin E.
    assert (forallb (fun rec =>
                       match heatmap_window (7%nat, 7%nat) rec with
                       | ValueError_raised => false
                       | _ => true
                       end) results = true) as Hall by vm_refl.
    rewrite forallb_forall in Hall.
    apply list_elem_of_In in Hin. specialize (Hall rec Hin).
    rewrite E in Hall. discriminate. }
  split; [exact H1|]. split; [exact H2|]. split; [vm_refl|].
  exact (@areas_and_means_aligned Ref.extern s Sample.blot Sample.rois
           results (7%nat, 7%nat) H1 H2).
Defined.

(** ** Replicate means by ink *)

Lemma desc_map_eqb (k key : Z) (d : string) :
  Vis.desc_map k = Some d ->
  match Vis.desc_map key with
  | Some d' => String.eqb d' d
  | None => false
  end = (key =? k).
Proof.
  unfold Vis.desc_map.
  destruct (Z.eqb_spec k 1) as [->|?];
    [|destruct (Z.eqb_spec k 2) as [->|?];
      [|destruct (Z.eqb_spec k 3) as [->|?];
        [|destruct (Z.eqb_spec k 4) as [->|?]; [|done]]]];
    intros [= <-];
    destruct (Z.eqb_spec key 1) as [->|?]; try done;
    destruct (Z.eqb_spec key 2) as [->|?]; try done;
    destruct (Z.eqb_spec key 3) as [->|?]; try done;
    destruct (Z.eqb_spec key 4) as [->|?]; done.
Qed.

Lemma values_of_key (rows : list Vis.row) (k : Z) (d : string) :
  Vis.desc_map k = Some d ->
  Vis.values_of rows d
  = Vis.mean_I <$> List.filter (fun r => Vis.ink_key r =? k) rows.
Proof.
  intros Hd. unfold Vis.values_of, Vis.ink_desc. f_equal.
  induction rows as [|r rows IH]; [done|]. simpl.
  by rewrite (desc_map_eqb k (Vis.ink_key r) d Hd), IH.
Qed.

(** X14.  The box plot of extra_analysis_vis.py (lines 54-70) groups the
    replicate means by ink key: the four groups are the means of the rows
    with key 1, 2, 3 and 4, each in the order of the rows, and a row with
    any other key appears in no group. *)
Theorem data_groups_rows_by_ink_key (rows : list Vis.row) :
  Vis.data rows
  = (fun k => Vis.mean_I <$> List.filter (fun r => Vis.ink_key r =? k) rows)
      <$> [1; 2; 3; 4]
  /\ length (concat (Vis.data rows))
     = length (List.filter
                 (fun r => (1 <=? Vis.ink_key r) && (Vis.ink_key r <=? 4))
                 rows).
Proof.
  assert (Vis.data rows
          = (fun k =>
               Vis.mean_I <$> List.filter (fun r => Vis.ink_key r =? k) rows)
              <$> [1; 2; 3; 4]) as E.
  { unfold Vis.data, Vis.order. csimpl.
    by rewrite (values_of_key rows 1 _ eq_refl),
      (values_of_key rows 2 _ eq_refl), (values_of_key rows 3 _ eq_refl),
      (values_of_key rows 4 _ eq_refl). }
  split; [exact E|]. rewrite E. csimpl.
  rewrite !length_app, !length_fmap. simpl. clear E.
  induction rows as [|r rows IH]; [done|]. simpl.
  destruct (Z.eqb_spec (Vis.ink_key r) 1), (Z.eqb_spec (Vis.ink_key r) 2),
    (Z.eqb_spec (Vis.ink_key r) 3), (Z.eqb_spec (Vis.ink_key r) 4),
    (Z.leb_spec 1 (Vis.ink_key r)), (Z.leb_spec (Vis.ink_key r) 4);
    simpl; lia.
Qed.

(** ** The calibration *)

(** X15.  The calibration [px_per_mm] bears on [area_mm2] only: whenever
    [compute_metrics] returns a record, the call without a calibration
    returns too, and its record has no [area_mm2] and agrees with the
    other on every other key. *)
Theorem px_per_mm_only_adds_area_mm2 {lib : Extern} (img : image) (roi : ROI)
    (px_per_mm : pyval) (do_intensity do_shape do_halo : bool)
    (r : gmap string value) :
  compute_metrics img roi px_per_mm do_intensity do_shape do_halo = Ok r ->
  exists r0 : gmap string value,
    compute_metrics img roi PyNone do_intensity do_shape do_halo = Ok r0
    /\ r0 !! "area_mm2" = None
    /\ forall k : string, k <> "area_mm2" -> r !! k = r0 !! k.
Proof.
  intros Hr. unfold compute_metrics in *.
  destruct (roi_mask img roi) as [[mask|]|e]; simpl in *; [| |done].
  - destruct (negb (np_any mask)).
    + injection Hr as <-. by exists ∅.
    + destruct (threshold_image img) as [th|e]; simpl in *; [|done].
      destruct (metrics_of_mask_steps _ _ _ _ _ _ _ _ Hr)
        as (r2 & r3 & H2 & H3 & H4).
      assert (metrics_of_mask th img mask PyNone do_intensity do_shape do_halo
              = Ok r3) as H0.
      { unfold metrics_of_mask. unfold base_record in H2. cbv zeta in *.
        rewrite H2. simpl. rewrite H3. done. }
      exists r3. split; [exact H0|]. split.
      * destruct (before_conversion _ _ _ _ _ _ _ _ H0) as (r3' & E & Hno & _).
        injection E as <-. exact Hno.
      * intros k Hk. apply (area_conversion_other px_per_mm); [|exact H4].
        unfold among. simpl. apply orb_false_iff. split; [|done].
        by apply String.eqb_neq.
  - injection Hr as <-. by exists ∅.
Qed.

Lemma px_per_mm_only_adds_area_mm2_witness :
  let r := Sample.record_of
             (Sample.run Sample.blot Sample.disc (PyInt 10) true true true) in
  @compute_metrics Ref.extern Sample.blot Sample.disc (PyInt 10)
    true true true = Ok r
  /\ is_Some (r !! "area_mm2")
  /\ exists r0 : gmap string value,
       @compute_metrics Ref.extern Sample.blot Sample.disc PyNone
         true true true = Ok r0
       /\ r0 !! "area_mm2" = None
       /\ forall k : string, k <> "area_mm2" -> r !! k = r0 !! k.
Proof.
  intros r.
  assert (@compute_metrics Ref.extern Sample.blot Sample.disc (PyInt 10)
            true true true = Ok r) as H by vm_refl.
  split; [exact H|]. split.
  - assert (r !! "area_mm2" = Some (VFloat 0.25)) as -> by vm_refl.
    by eexists.
  - exact (@px_per_mm_only_adds_area_mm2 Ref.extern Sample.blot Sample.disc
             (PyInt 10) true true true r H).
Defined.
